(** * Policy-compliance pipeline: a shallow embedding and its properties

    The development follows the JavaScript sources:
    - [backend/summarize-multimedia-gemini/index.js]  (class SummarizeMultiMedia),
    - the Gemini policy checker (class MetaAdsPolicyChecker, [checkPolicy]),
    - the dynamic policy checker (class MetaAdsPolicyChecker, [getPolicies],
      [checkCompliance], [checkAdCompliance]),
    - [backend/server.js] (the POST /summarize handler).

    JavaScript strings are sequences of UTF-16 code units, JSON values are an
    inductive type, exceptions are an explicit [result] type, and everything
    the code obtains from outside (file system, clock, generation services,
    network) is a field of a world record. *)

From Stdlib Require Import List NArith ZArith String Ascii Bool Lia DecimalString.
Import ListNotations.

Set Implicit Arguments.
Set Warnings "-register-all".

(* ================================================================== *)
(** ** JavaScript strings and values *)
(* ================================================================== *)

Module JS.

Local Open Scope N_scope.

(** A string is its sequence of UTF-16 code units. *)
Definition code_unit := N.
Definition jsstring := list code_unit.

(** An ASCII literal as a JavaScript string. *)
Definition js (s : string) : jsstring :=
  map N_of_ascii (list_ascii_of_string s).

(** The same, where a backquote in the literal stands for a double quote. *)
Definition jsq (s : string) : jsstring :=
  map (fun c => if c =? 96 then 34 else c) (js s).

Definition str_eqb (a b : jsstring) : bool :=
  if list_eq_dec N.eq_dec a b then true else false.

(** [String.prototype.trim]: WhiteSpace and LineTerminator code units. *)
Definition is_js_space (c : code_unit) : bool :=
  ((9 <=? c) && (c <=? 13)) || (c =? 32) || (c =? 160) || (c =? 5760)
  || ((8192 <=? c) && (c <=? 8202)) || (c =? 8232) || (c =? 8233)
  || (c =? 8239) || (c =? 8287) || (c =? 12288) || (c =? 65279).

Fixpoint trim_start (s : jsstring) : jsstring :=
  match s with
  | c :: r => if is_js_space c then trim_start r else s
  | [] => []
  end.

Definition trim (s : jsstring) : jsstring :=
  rev (trim_start (rev (trim_start s))).

(** A JSON number is kept as the exact decimal it denotes,
    (-1)^neg * mant * 10^exp10.  The IEEE double that the runtime stores is
    the rounding of that decimal; the code only ever asks whether the double
    is zero. *)
Record number := Num { neg : bool; mant : N; exp10 : Z }.

(** The double nearest to a positive decimal is +0 exactly when the decimal is
    at most 2^-1075 (half the least subnormal, ties go to the even 0). *)
Definition rounds_to_zero (n : number) : bool :=
  if mant n =? 0 then true
  else if (0 <=? exp10 n)%Z then false
  else (Z.of_N (mant n) * 2 ^ 1075 <=? 10 ^ (- exp10 n))%Z.

Inductive json :=
| JNull
| JBool (b : bool)
| JNumber (n : number)
| JString (s : jsstring)
| JArray (elems : list json)
| JObject (members : list (jsstring * json)).

(** A JavaScript value read from a property: [None] is [undefined]. *)
Definition value := option json.

(** ToBoolean. *)
Definition truthy (v : value) : bool :=
  match v with
  | None => false
  | Some JNull => false
  | Some (JBool b) => b
  | Some (JNumber n) => negb (rounds_to_zero n)
  | Some (JString s) => match s with [] => false | _ => true end
  | Some (JArray _) => true
  | Some (JObject _) => true
  end.

(** Own data properties of an object built by JSON.parse: a later duplicate
    key overwrites the value and keeps the place of the first. *)
Fixpoint obj_set (k : jsstring) (v : json) (ms : list (jsstring * json))
  : list (jsstring * json) :=
  match ms with
  | [] => [(k, v)]
  | (k', v') :: r =>
      if str_eqb k' k then (k', v) :: r else (k', v') :: obj_set k v r
  end.

Fixpoint obj_get (k : jsstring) (ms : list (jsstring * json)) : value :=
  match ms with
  | [] => None
  | (k', v') :: r => if str_eqb k' k then Some v' else obj_get k r
  end.

Definition is_array (v : value) : bool :=
  match v with Some (JArray _) => true | _ => false end.

Definition is_boolean (v : value) : bool :=
  match v with Some (JBool _) => true | _ => false end.

(** typeof v === 'object' (which null satisfies as well). *)
Definition typeof_object (v : value) : bool :=
  match v with
  | Some JNull | Some (JArray _) | Some (JObject _) => true
  | _ => false
  end.

(** Messages of errors.  The text that the runtime or a library attaches to an
    error it raises itself is not fixed by the sources; it is kept as a
    symbol. *)
Inductive native :=
| JsonSyntax (input : jsstring)          (* JSON.parse rejected [input] *)
| ReadOfNull (prop : jsstring)           (* property read on null *)
| WriteOnPrimitive (prop : jsstring)     (* strict-mode property write on a primitive or null *)
| InvalidPathArgument                    (* path.resolve(null) *)
| External (tag : jsstring).             (* raised by a collaborator: fs, http, model service, Joi *)

Inductive fragment :=
| Lit (s : jsstring)
| NativeText (n : native).

Definition message := list fragment.

Inductive error_class := ErrorC | TypeErrorC | SyntaxErrorC | OtherC (name : jsstring).

Record js_error := MkError { eclass : error_class; emessage : message }.

Definition Error (m : message) : js_error := MkError ErrorC m.
Definition native_error (c : error_class) (n : native) : js_error :=
  MkError c [NativeText n].

(** Completion of a computation: a value or a thrown error. *)
Inductive result (A : Type) :=
| Ok (a : A)
| Throw (e : js_error).
Arguments Ok {A} a.
Arguments Throw {A} e.

Definition bind {A B} (r : result A) (k : A -> result B) : result B :=
  match r with Ok a => k a | Throw e => Throw e end.

(** try { body } catch (error) { handler } *)
Definition try_catch {A} (body : result A) (handler : js_error -> result A)
  : result A :=
  match body with Ok a => Ok a | Throw e => handler e end.

(** Property read [o.k]: own properties of objects; primitives and arrays have
    none of the names the code reads; null throws. *)
Definition get_prop (o : json) (k : jsstring) : result value :=
  match o with
  | JNull => Throw (native_error TypeErrorC (ReadOfNull k))
  | JObject ms => Ok (obj_get k ms)
  | _ => Ok None
  end.

(** The property [k] of a value that may be undefined or no object at all,
    where reading it does not throw. *)
Definition field (v : value) (k : jsstring) : value :=
  match v with
  | Some (JObject ms) => obj_get k ms
  | _ => None
  end.

(** String.prototype.startsWith and String.prototype.includes. *)
Fixpoint starts_with (prefix s : jsstring) : bool :=
  match prefix, s with
  | [], _ => true
  | p :: prefix', c :: s' => (p =? c) && starts_with prefix' s'
  | _ :: _, [] => false
  end.

Fixpoint str_includes (needle s : jsstring) : bool :=
  starts_with needle s
  || match s with
     | [] => false
     | _ :: s' => str_includes needle s'
     end.

End JS.

Export JS.

Declare Scope js_scope.
Delimit Scope js_scope with js.
Notation "x <- c ;; k" := (bind c (fun x => k))
  (at level 61, c at next level, right associativity) : js_scope.
Notation "c ;;; k" := (bind c (fun _ => k))
  (at level 61, right associativity) : js_scope.

(* ================================================================== *)
(** ** JSON.parse *)
(* ================================================================== *)

(** JSON text is a sequence of tokens with insignificant white space around
    them (ECMA-404): a lexer, one code unit at a time, then a pushdown parser,
    one token at a time.  Both are total. *)

Module JSON.

Local Open Scope N_scope.

Inductive token :=
| TLBrace | TRBrace | TLBracket | TRBracket | TColon | TComma
| TStr (s : jsstring)
| TNum (n : number)
| TTrue | TFalse | TNull.

(** Phases inside a number: an optional minus, then 0 or a run of digits not
    starting with 0, then optionally a point and digits, then optionally e or
    E, a sign and digits. *)
Inductive nphase :=
| PhMinus | PhZero | PhInt | PhDot | PhFrac | PhE | PhESign | PhExp.

(** Digits read so far: sign, all mantissa digits, how many of them follow the
    point, sign and digits of the exponent. *)
Record numacc := NumAcc
  { a_neg : bool; a_mant : N; a_scale : N; a_eneg : bool; a_exp : N }.

Definition numacc_value (d : numacc) : number :=
  Num (a_neg d) (a_mant d)
      ((if a_eneg d then - Z.of_N (a_exp d) else Z.of_N (a_exp d)) - Z.of_N (a_scale d))%Z.

(** The three literal names. *)
Inductive literal := LitTrue | LitFalse | LitNull.

Definition literal_token (l : literal) : token :=
  match l with LitTrue => TTrue | LitFalse => TFalse | LitNull => TNull end.

Inductive lstate :=
| LIdle
| LStr (acc : jsstring)                      (* inside a string; [acc] is reversed *)
| LEsc (acc : jsstring)                      (* after a backslash *)
| LHex (acc : jsstring) (togo : nat) (v : N) (* after \u, [togo] hex digits to go *)
| LLit (rest : jsstring) (l : literal)       (* inside true, false or null *)
| LNum (ph : nphase) (d : numacc).

Definition is_ws (c : code_unit) : bool :=
  (c =? 32) || (c =? 9) || (c =? 10) || (c =? 13).

Definition is_digit (c : code_unit) : bool := (48 <=? c) && (c <=? 57).

Definition hex_value (c : code_unit) : option N :=
  if is_digit c then Some (c - 48)
  else if (97 <=? c) && (c <=? 102) then Some (c - 87)
  else if (65 <=? c) && (c <=? 70) then Some (c - 55)
  else None.

Definition accepting (ph : nphase) : bool :=
  match ph with
  | PhZero | PhInt | PhFrac | PhExp => true
  | _ => false
  end.

Definition idle_step (c : code_unit) : option (lstate * list token) :=
  if is_ws c then Some (LIdle, [])
  else if c =? 123 then Some (LIdle, [TLBrace])
  else if c =? 125 then Some (LIdle, [TRBrace])
  else if c =? 91 then Some (LIdle, [TLBracket])
  else if c =? 93 then Some (LIdle, [TRBracket])
  else if c =? 58 then Some (LIdle, [TColon])
  else if c =? 44 then Some (LIdle, [TComma])
  else if c =? 34 then Some (LStr [], [])
  else if c =? 45 then Some (LNum PhMinus (NumAcc true 0 0 false 0), [])
  else if c =? 48 then Some (LNum PhZero (NumAcc false 0 0 false 0), [])
  else if is_digit c then Some (LNum PhInt (NumAcc false (c - 48) 0 false 0), [])
  else if c =? 116 then Some (LLit (js "rue") LitTrue, [])
  else if c =? 102 then Some (LLit (js "alse") LitFalse, [])
  else if c =? 110 then Some (LLit (js "ull") LitNull, [])
  else None.

Definition push_mant (d : numacc) (c : code_unit) (frac : bool) : numacc :=
  NumAcc (a_neg d) (10 * a_mant d + (c - 48))
         (if frac then a_scale d + 1 else a_scale d) (a_eneg d) (a_exp d).

Definition push_exp (d : numacc) (c : code_unit) : numacc :=
  NumAcc (a_neg d) (a_mant d) (a_scale d) (a_eneg d) (10 * a_exp d + (c - 48)).

Definition set_eneg (d : numacc) : numacc :=
  NumAcc (a_neg d) (a_mant d) (a_scale d) true (a_exp d).

(** How a code unit continues a number, if it does. *)
Definition num_continue (ph : nphase) (d : numacc) (c : code_unit)
  : option lstate :=
  let dig := is_digit c in
  let is_e := (c =? 101) || (c =? 69) in
  match ph with
  | PhMinus =>
      if c =? 48 then Some (LNum PhZero d)
      else if dig then Some (LNum PhInt (push_mant d c false)) else None
  | PhZero =>
      if c =? 46 then Some (LNum PhDot d)
      else if is_e then Some (LNum PhE d) else None
  | PhInt =>
      if dig then Some (LNum PhInt (push_mant d c false))
      else if c =? 46 then Some (LNum PhDot d)
      else if is_e then Some (LNum PhE d) else None
  | PhDot => if dig then Some (LNum PhFrac (push_mant d c true)) else None
  | PhFrac =>
      if dig then Some (LNum PhFrac (push_mant d c true))
      else if is_e then Some (LNum PhE d) else None
  | PhE =>
      if c =? 43 then Some (LNum PhESign d)
      else if c =? 45 then Some (LNum PhESign (set_eneg d))
      else if dig then Some (LNum PhExp (push_exp d c)) else None
  | PhESign => if dig then Some (LNum PhExp (push_exp d c)) else None
  | PhExp => if dig then Some (LNum PhExp (push_exp d c)) else None
  end.

Definition escape_char (c : code_unit) : option code_unit :=
  if c =? 34 then Some 34          (* quote *)
  else if c =? 92 then Some 92     (* backslash *)
  else if c =? 47 then Some 47     (* slash *)
  else if c =? 98 then Some 8      (* b: backspace *)
  else if c =? 102 then Some 12    (* f: form feed *)
  else if c =? 110 then Some 10    (* n: line feed *)
  else if c =? 114 then Some 13    (* r: carriage return *)
  else if c =? 116 then Some 9     (* t: tab *)
  else None.

Definition lex_step (st : lstate) (c : code_unit)
  : option (lstate * list token) :=
  match st with
  | LIdle => idle_step c
  | LStr acc =>
      if c =? 34 then Some (LIdle, [TStr (rev acc)])
      else if c =? 92 then Some (LEsc acc, [])
      else if c <? 32 then None
      else Some (LStr (c :: acc), [])
  | LEsc acc =>
      if c =? 117 then Some (LHex acc 4 0, [])
      else match escape_char c with
           | Some x => Some (LStr (x :: acc), [])
           | None => None
           end
  | LHex acc togo v =>
      match hex_value c with
      | None => None
      | Some h =>
          match togo with
          | 0%nat => None
          | 1%nat => Some (LStr (16 * v + h :: acc), [])
          | S n => Some (LHex acc n (16 * v + h), [])
          end
      end
  | LLit rest l =>
      match rest with
      | [] => None
      | x :: rest' =>
          if c =? x
          then match rest' with
               | [] => Some (LIdle, [literal_token l])
               | _ => Some (LLit rest' l, [])
               end
          else None
      end
  | LNum ph d =>
      match num_continue ph d c with
      | Some st' => Some (st', [])
      | None =>
          if accepting ph
          then match idle_step c with
               | Some (st', out) => Some (st', TNum (numacc_value d) :: out)
               | None => None
               end
          else None
      end
  end.

Definition lex_finish (st : lstate) : option (list token) :=
  match st with
  | LIdle => Some []
  | LNum ph d => if accepting ph then Some [TNum (numacc_value d)] else None
  | _ => None
  end.

Fixpoint lex (st : lstate) (s : jsstring) : option (list token) :=
  match s with
  | [] => lex_finish st
  | c :: r =>
      match lex_step st c with
      | None => None
      | Some (st', out) =>
          match lex st' r with
          | None => None
          | Some ts => Some (out ++ ts)
          end
      end
  end.

(** The parser's stack: the enclosing arrays and objects, innermost first,
    each with what it has collected (in reverse) and, for an object, the key
    waiting for its value. *)
Inductive frame :=
| FArr (acc : list json)
| FObj (acc : list (jsstring * json)) (key : jsstring).

Inductive pstate :=
| PValue (stk : list frame)                  (* a value must follow *)
| PArrFirst (stk : list frame)               (* after [ : a value or ] *)
| PObjFirst (stk : list frame)               (* after { : a key or } *)
| PKey (acc : list (jsstring * json)) (stk : list frame)      (* after , in an object *)
| PColon (acc : list (jsstring * json)) (key : jsstring) (stk : list frame)
| PArrNext (acc : list json) (stk : list frame)               (* , or ] *)
| PObjNext (acc : list (jsstring * json)) (stk : list frame)  (* , or } *)
| PDone (v : json).

(** Members as the object holds them: in order, a repeated key keeping its
    first place and its last value. *)
Definition build_object (acc : list (jsstring * json)) : json :=
  JObject (fold_left (fun ms kv => obj_set (fst kv) (snd kv) ms) (rev acc) []).

(** A value is complete: hand it to the innermost enclosing frame. *)
Definition complete (v : json) (stk : list frame) : pstate :=
  match stk with
  | [] => PDone v
  | FArr acc :: stk' => PArrNext (v :: acc) stk'
  | FObj acc k :: stk' => PObjNext ((k, v) :: acc) stk'
  end.

Definition start_value (t : token) (stk : list frame) : option pstate :=
  match t with
  | TStr s => Some (complete (JString s) stk)
  | TNum n => Some (complete (JNumber n) stk)
  | TTrue => Some (complete (JBool true) stk)
  | TFalse => Some (complete (JBool false) stk)
  | TNull => Some (complete JNull stk)
  | TLBracket => Some (PArrFirst stk)
  | TLBrace => Some (PObjFirst stk)
  | _ => None
  end.

Definition parse_step (st : pstate) (t : token) : option pstate :=
  match st with
  | PValue stk => start_value t stk
  | PArrFirst stk =>
      match t with
      | TRBracket => Some (complete (JArray []) stk)
      | _ => start_value t (FArr [] :: stk)
      end
  | PObjFirst stk =>
      match t with
      | TRBrace => Some (complete (JObject []) stk)
      | TStr k => Some (PColon [] k stk)
      | _ => None
      end
  | PKey acc stk =>
      match t with
      | TStr k => Some (PColon acc k stk)
      | _ => None
      end
  | PColon acc k stk =>
      match t with
      | TColon => Some (PValue (FObj acc k :: stk))
      | _ => None
      end
  | PArrNext acc stk =>
      match t with
      | TComma => Some (PValue (FArr acc :: stk))
      | TRBracket => Some (complete (JArray (rev acc)) stk)
      | _ => None
      end
  | PObjNext acc stk =>
      match t with
      | TComma => Some (PKey acc stk)
      | TRBrace => Some (complete (build_object acc) stk)
      | _ => None
      end
  | PDone _ => None
  end.

Fixpoint run (st : pstate) (ts : list token) : option json :=
  match ts with
  | [] => match st with PDone v => Some v | _ => None end
  | t :: r =>
      match parse_step st t with
      | None => None
      | Some st' => run st' r
      end
  end.

(** JSON.parse(text): [None] is the SyntaxError. *)
Definition parse (text : jsstring) : option json :=
  match lex LIdle text with
  | None => None
  | Some ts => run (PValue []) ts
  end.

(** *** Vocabulary for the parser's and the lexer's invariants *)

Inductive kind := KArray | KObject.

Definition frame_kind (f : frame) : kind :=
  match f with FArr _ => KArray | FObj _ _ => KObject end.

(** The kind of the outermost frame of a stack whose innermost container has
    kind [top]. *)
Fixpoint bottom (stk : list frame) (top : kind) : kind :=
  match stk with
  | [] => top
  | f :: r => bottom r (frame_kind f)
  end.

Definition value_kind (v : json) : option kind :=
  match v with
  | JArray _ => Some KArray
  | JObject _ => Some KObject
  | _ => None
  end.

Definition root (st : pstate) : option kind :=
  match st with
  | PValue [] => None
  | PValue (f :: r) => Some (bottom r (frame_kind f))
  | PArrFirst stk | PArrNext _ stk => Some (bottom stk KArray)
  | PObjFirst stk | PKey _ stk | PColon _ _ stk | PObjNext _ stk =>
      Some (bottom stk KObject)
  | PDone v => value_kind v
  end.

Definition all_ws (s : jsstring) : Prop := Forall (fun c => is_ws c = true) s.

(** All contiguous pieces of a text. *)
Fixpoint prefixes (s : jsstring) : list jsstring :=
  match s with
  | [] => [[]]
  | c :: r => [] :: map (cons c) (prefixes r)
  end.

Fixpoint segments (s : jsstring) : list jsstring :=
  match s with
  | [] => [[]]
  | c :: r => prefixes s ++ segments r
  end.

(** No piece of the text is JSON. *)
Definition no_json_in (text : jsstring) : Prop :=
  Forall (fun piece => parse piece = None) (segments text).

End JSON.

(** JSON.parse as a completion. *)
Definition JSON_parse (text : jsstring) : result json :=
  match JSON.parse text with
  | Some v => Ok v
  | None => Throw (native_error SyntaxErrorC (JsonSyntax text))
  end.

(* ================================================================== *)
(** ** The regular expressions of the sources *)
(* ================================================================== *)

Module Regex.

Local Open Scope N_scope.

(** The suffix of [s] that starts at the first [c]; empty when there is none. *)
Fixpoint from_first (c : code_unit) (s : jsstring) : jsstring :=
  match s with
  | [] => []
  | x :: r => if x =? c then s else from_first c r
  end.

(** The prefix of [s] that ends at the last [c]. *)
Fixpoint through_last (c : code_unit) (s : jsstring) : option jsstring :=
  match s with
  | [] => None
  | x :: r =>
      match through_last c r with
      | Some p => Some (x :: p)
      | None => if x =? c then Some [x] else None
      end
  end.

(** [text.match(re)[0]] for a pattern "opening, anything (greedy), closing":
    the leftmost opening that has a closing after it, up to the last closing.
    If the first opening has no closing after it, no later one has. *)
Definition match_delimited (o c : code_unit) (text : jsstring) : option jsstring :=
  match from_first o text with
  | [] => None
  | x :: r =>
      match through_last c r with
      | Some p => Some (x :: p)
      | None => None
      end
  end.

(** /\{[\s\S]*\}/ and /\{.*\}/s *)
Definition match_braces : jsstring -> option jsstring := match_delimited 123 125.

(** /\[.*\]/s *)
Definition match_brackets : jsstring -> option jsstring := match_delimited 91 93.

(** replace(/[\x00-\x1F\x7F-\x9F]/g, '') *)
Definition is_control (c : code_unit) : bool :=
  (c <=? 31) || ((127 <=? c) && (c <=? 159)).

Definition strip_control (s : jsstring) : jsstring :=
  filter (fun c => negb (is_control c)) s.

(** replace(/\\x/g, y): every backslash followed by [x] becomes [y], scanning
    from the left without overlap. *)
Fixpoint replace_escaped (x y : code_unit) (s : jsstring) : jsstring :=
  match s with
  | [] => []
  | a :: r =>
      match r with
      | [] => [a]
      | b :: r' =>
          if (a =? 92) && (b =? x) then y :: replace_escaped x y r'
          else a :: replace_escaped x y r
      end
  end.

End Regex.

(** Decimal rendering of an index inside a template literal. *)
Definition index_text (n : nat) : jsstring :=
  js (DecimalString.NilZero.string_of_uint (Nat.to_uint n)).

(* ================================================================== *)
(** ** The Gemini policy checker: class MetaAdsPolicyChecker, [checkPolicy] *)
(* ================================================================== *)

Module PolicyChecker.

Local Open Scope js_scope.

(** What the checker obtains from outside. *)
Record World := MkWorld
  { path_resolve : jsstring -> jsstring;               (* path.resolve *)
    read_file : jsstring -> result jsstring;           (* fs.readFile(fullPath, 'utf8') *)
    generate : jsstring -> result jsstring;            (* model.generateContent(prompt), response.text() *)
    now_iso : jsstring }.                              (* new Date().toISOString() *)

(** this.policyContent: [None] is null. *)
Definition state := option jsstring.

Definition str_truthy (s : option jsstring) : bool :=
  match s with Some (_ :: _) => true | _ => false end.

(** An argument that may be left out, null, or a string. *)
Inductive path_arg := ArgUndefined | ArgNull | ArgPath (p : jsstring).

(** loadPolicyFile(policyFilePath = './meta-ads-policy.txt'): the default
    applies to undefined only; path.resolve(null) throws a TypeError. *)
Definition loadPolicyFile (w : World) (arg : path_arg) (st : state)
  : state * result unit :=
  let wrap e :=
    Throw (Error (Lit (js "Failed to load policy file: ") :: emessage e)) in
  match arg with
  | ArgNull => (st, wrap (native_error TypeErrorC InvalidPathArgument))
  | _ =>
      let p := match arg with ArgPath p => p | _ => js "./meta-ads-policy.txt" end in
      let fullPath := path_resolve w p in
      match read_file w fullPath with
      | Throw e => (st, wrap e)
      | Ok content =>
          match trim content with
          | [] => (Some content, wrap (Error [Lit (js "Policy file is empty or invalid")]))
          | _ => (Some content, Ok tt)
          end
      end
  end.

Definition validateInput (summary : value) : result bool :=
  match summary with
  | Some (JString (c :: s)) =>
      let summary := c :: s in
      if Nat.eqb (List.length (trim summary)) 0
      then Throw (Error [Lit (js "Summary cannot be empty")])
      else if (10000 <? N.of_nat (List.length summary))%N
      then Throw (Error [Lit (js "Summary is too long (max 10,000 characters)")])
      else Ok true
  | _ => Throw (Error [Lit (js "Summary must be a non-empty string")])
  end.

Definition createPrompt (policyContent : jsstring) (summary : jsstring) : jsstring :=
  jsq "
You are a Meta Ads policy compliance expert. Analyze the following content summary against Meta's advertising policies and determine if any policies are violated.

META ADS POLICY RULES:
"
  ++ policyContent ++
  jsq "

CONTENT SUMMARY TO ANALYZE:
`"
  ++ summary ++
  jsq "`

INSTRUCTIONS:
1. Carefully review the content summary against each policy category
2. Identify any specific policy violations
3. Return your analysis in the following JSON format:
{
  `violated`: true/false,
  `violations`: [
    {
      `category`: `Policy category name`,
      `description`: `Specific violation description`,
      `severity`: `high/medium/low`
    }
  ],
  `reasoning`: `Brief explanation of the analysis`
}

IMPORTANT:
- Be thorough but fair in your analysis
- Only flag actual policy violations
- Provide specific policy categories that are violated
- If no violations are found, set `violated` to false and `violations` to an empty array
- Ensure the response is valid JSON format only
".

Definition severity_ok (v : value) : bool :=
  match v with
  | Some (JString s) =>
      str_eqb s (js "high") || str_eqb s (js "medium") || str_eqb s (js "low")
  | _ => false
  end.

(** The callback of response.violations.forEach. *)
Definition check_violation (violation : json) (index : nat) : result unit :=
  category <- get_prop violation (js "category") ;;
  missing <- (if truthy category
              then (description <- get_prop violation (js "description") ;;
                    Ok (negb (truthy description)))
              else Ok true) ;;
  if missing : bool
  then Throw (Error [Lit (js "Violation at index " ++ index_text index
                          ++ js " missing required fields")])
  else
    severity <- get_prop violation (js "severity") ;;
    if severity_ok severity then Ok tt
    else Throw (Error [Lit (js "Invalid severity level in violation at index "
                            ++ index_text index)]).

Fixpoint forEach (vs : list json) (index : nat) : result unit :=
  match vs with
  | [] => Ok tt
  | v :: r => check_violation v index ;;; forEach r (S index)
  end.

Definition validateResponse (response : json) : result unit :=
  if negb (truthy (Some response)) || negb (typeof_object (Some response))
  then Throw (Error [Lit (js "Invalid response format")])
  else
    violated <- get_prop response (js "violated") ;;
    if negb (is_boolean violated)
    then Throw (Error [Lit (jsq "Response must include `violated` boolean field")])
    else
      violations <- get_prop response (js "violations") ;;
      match violations with
      | Some (JArray vs) => forEach vs 0
      | _ => Throw (Error [Lit (jsq "Response must include `violations` array field")])
      end.

Record policy_result := MkResult
  { success : bool;
    data : value;
    error : option message;
    timestamp : jsstring }.

(** The inner try/catch of checkPolicy: recover the verdict from the text. *)
Definition parse_response (text : jsstring) : result json :=
  try_catch
    (match Regex.match_braces text with
     | None => Throw (Error [Lit (js "No valid JSON found in response")])
     | Some m => JSON_parse m
     end)
    (fun parseError =>
       Throw (Error (Lit (js "Failed to parse AI response as JSON: ")
                     :: emessage parseError))).

(** if (!this.policyContent || policyFilePath) await this.loadPolicyFile(policyFilePath) *)
Definition load_if_needed (w : World) (policyFilePath : option jsstring) (st : state)
  : state * result unit :=
  if negb (str_truthy st) || str_truthy policyFilePath
  then loadPolicyFile w
         (match policyFilePath with Some p => ArgPath p | None => ArgNull end) st
  else (st, Ok tt).

(** this.createPrompt(summary), once the summary is known to be a string. *)
Definition prompt_for (st : state) (summary : value) : jsstring :=
  createPrompt
    (match st with Some c => c | None => js "null" end)
    (match summary with Some (JString s) => s | _ => [] end).

(** checkPolicy(summary, policyFilePath = null) *)
Definition checkPolicy (w : World) (summary : value)
           (policyFilePath : option jsstring) (st : state)
  : state * policy_result :=
  let fail st e := (st, MkResult false None (Some (emessage e)) (now_iso w)) in
  match validateInput summary with
  | Throw e => fail st e
  | Ok _ =>
      let '(st1, loaded) := load_if_needed w policyFilePath st in
      match loaded with
      | Throw e => fail st1 e
      | Ok _ =>
          let prompt := prompt_for st1 summary in
          match (text <- generate w prompt ;;
                 analysisResult <- parse_response text ;;
                 validateResponse analysisResult ;;;
                 Ok analysisResult) with
          | Throw e => fail st1 e
          | Ok analysisResult =>
              (st1, MkResult true (Some analysisResult) None (now_iso w))
          end
      end
  end.

(** The call gets as far as the model, and the model answers [text]. *)
Definition responds (w : World) (summary : value) (policyFilePath : option jsstring)
           (st : state) (text : jsstring) : Prop :=
  exists st1,
    validateInput summary = Ok true
    /\ load_if_needed w policyFilePath st = (st1, Ok tt)
    /\ generate w (prompt_for st1 summary) = Ok text.

(** The shape of a verdict in the words of the specification: violated is a
    boolean, violations is an array, and every violation carries a truthy
    category and description and a severity among high, medium and low. *)
Definition violation_ok (v : json) : bool :=
  truthy (field (Some v) (js "category"))
  && truthy (field (Some v) (js "description"))
  && severity_ok (field (Some v) (js "severity")).

Definition well_shaped (r : json) : bool :=
  is_boolean (field (Some r) (js "violated"))
  && match field (Some r) (js "violations") with
     | Some (JArray vs) => forallb violation_ok vs
     | _ => false
     end.

(** new MetaAdsPolicyChecker(apiKey): the policy is not loaded yet. *)
Definition new_checker (apiKey : jsstring) : result state :=
  match apiKey with
  | [] => Throw (Error [Lit (js "Google AI API key is required")])
  | _ => Ok None
  end.

(** checkMetaAdsPolicy(apiKey, summary, policyFilePath = null) *)
Definition checkMetaAdsPolicy (w : World) (apiKey : jsstring) (summary : value)
           (policyFilePath : option jsstring) : result policy_result :=
  checker <- new_checker apiKey ;;
  Ok (snd (checkPolicy w summary policyFilePath checker)).

End PolicyChecker.

(* ================================================================== *)
(** ** The summarizer: class SummarizeMultiMedia *)
(* ================================================================== *)

Module Summarizer.

Local Open Scope js_scope.

Record stats := MkStats { isFile : bool; size : N }.

(** What the summarizer obtains from outside. *)
Record World := MkWorld
  { pathExists : jsstring -> bool;                      (* fs.pathExists *)
    stat : jsstring -> result stats;                    (* fs.stat *)
    mime_lookup : jsstring -> option jsstring;          (* mime.lookup; None is false *)
    readFile_base64 : jsstring -> result jsstring;      (* fs.readFile, toString('base64') *)
    basename : jsstring -> jsstring;                    (* path.basename *)
    generateContent : jsstring -> jsstring -> jsstring -> result jsstring;
                                  (* prompt, inline data, mime type; response.text() *)
    now_iso : jsstring }.                               (* new Date().toISOString() *)

Definition supportedVideoFormats : list jsstring :=
  map js ["video/mp4"; "video/avi"; "video/mov"; "video/wmv"; "video/flv";
          "video/webm"; "video/mkv"]%string.

Definition supportedImageFormats : list jsstring :=
  map js ["image/jpeg"; "image/jpg"; "image/png"; "image/gif"; "image/webp";
          "image/bmp"; "image/tiff"; "image/svg+xml"]%string.

Definition supportedFormats : list jsstring :=
  supportedVideoFormats ++ supportedImageFormats.

Definition maxFileSize : N := 100 * 1024 * 1024.

Definition includes (l : list jsstring) (x : jsstring) : bool :=
  existsb (fun y => str_eqb y x) l.

Fixpoint join (sep : jsstring) (l : list jsstring) : jsstring :=
  match l with
  | [] => []
  | [x] => x
  | x :: r => x ++ sep ++ join sep r
  end.

(** validateInput: the Joi schema, both fields required non-empty strings, the
    prompt at most 1000 code units; the first violation is reported.  The
    wording of the report is Joi's. *)
Definition validateInput (filePath prompt : jsstring) : option message :=
  match filePath with
  | [] => Some [NativeText (External (js "Joi: filePath is not allowed to be empty"))]
  | _ =>
      match prompt with
      | [] => Some [NativeText (External (js "Joi: prompt is not allowed to be empty"))]
      | _ =>
          if (1000 <? N.of_nat (List.length prompt))%N
          then Some [NativeText (External (js "Joi: prompt length must be at most 1000"))]
          else None
      end
  end.

Record file_validation := MkValidation
  { valid : bool;
    v_mimeType : jsstring;
    v_size : N;
    v_mediaType : jsstring;
    v_error : option message }.

Definition invalid (e : js_error) : file_validation :=
  MkValidation false [] 0 [] (Some (emessage e)).

Definition validateMultimediaFile (w : World) (filePath : jsstring)
  : file_validation :=
  let body : result file_validation :=
    (if negb (pathExists w filePath)
     then Throw (Error [Lit (js "File not found: " ++ filePath)])
     else
       st <- stat w filePath ;;
       if negb (isFile st)
       then Throw (Error [Lit (js "Path is not a file: " ++ filePath)])
       else if (maxFileSize <? size st)%N
       then Throw (Error [Lit (js "File size exceeds maximum limit of 100MB")])
       else
         match mime_lookup w filePath with
         | Some (c :: m) =>
             let mimeType := c :: m in
             if negb (includes supportedFormats mimeType)
             then Throw (Error [Lit (js "Unsupported file format. Supported formats: "
                                     ++ join (js ", ") supportedFormats)])
             else
               let isVideo := includes supportedVideoFormats mimeType in
               let isImage := includes supportedImageFormats mimeType in
               let mediaType :=
                 if isVideo then js "video"
                 else if isImage then js "image" else js "unknown" in
               Ok (MkValidation true mimeType (size st) mediaType None)
         | _ =>
             Throw (Error [Lit (js "Unsupported file format. Supported formats: "
                                ++ join (js ", ") supportedFormats)])
         end) in
  match body with
  | Ok v => v
  | Throw e => invalid e
  end.

Definition fileToBase64 (w : World) (filePath : jsstring) : result jsstring :=
  try_catch (readFile_base64 w filePath)
    (fun e => Throw (Error (Lit (js "Failed to read file: ") :: emessage e))).

Definition enhancedPrompt (mediaTypeText prompt : jsstring) : jsstring :=
  jsq "
        Please analyze the following "
  ++ mediaTypeText ++
  jsq " and provide a comprehensive response based on this prompt: `"
  ++ prompt ++
  jsq "`
        
        IMPORTANT: You must respond with ONLY a valid JSON object in this exact format:
        {
          `summary`: `Your detailed analysis here`,
          `keyPoints`: [`point1`, `point2`, `point3`]
        }
        
        Do not include any text before or after the JSON. Do not use markdown formatting. Return only the JSON object.
      ".

(** The result object after [analysisResult.fileMetadata = ...]: an object
    with the property set, or an array carrying it as an extra property. *)
Inductive analysis_data :=
| DObject (members : list (jsstring * json))
| DArray (elems : list json) (fileMetadata : json).

(** The module is an ES module, hence strict: writing a property on a
    primitive or on null throws a TypeError. *)
Definition set_fileMetadata (analysisResult : json) (meta : json)
  : result analysis_data :=
  match analysisResult with
  | JObject ms => Ok (DObject (obj_set (js "fileMetadata") meta ms))
  | JArray es => Ok (DArray es meta)
  | _ => Throw (native_error TypeErrorC (WriteOnPrimitive (js "fileMetadata")))
  end.

(** Property read on the result object. *)
Definition data_get (d : analysis_data) (k : jsstring) : value :=
  match d with
  | DObject ms => obj_get k ms
  | DArray _ meta => if str_eqb k (js "fileMetadata") then Some meta else None
  end.

Definition fallback (text : jsstring) : json :=
  JObject
    [ (js "summary", JString (trim text));
      (js "keyPoints", JArray [JString (js "Raw analysis response provided")]);
      (js "note", JString (js "Response was not in expected JSON format, using raw text")) ].

(** The nested try/catch that turns the response text into a result. *)
Definition recover (text : jsstring) : json :=
  match JSON_parse text with
  | Ok v => v
  | Throw _ =>
      match (match Regex.match_braces text with
             | Some m => JSON_parse m
             | None => Throw (Error [Lit (js "No JSON found in response")])
             end) with
      | Ok v => v
      | Throw _ => fallback text
      end
  end.

Definition fileMetadata_of (w : World) (filePath : jsstring) (fv : file_validation)
  : json :=
  JObject
    [ (js "fileName", JString (basename w filePath));
      (js "fileSize", JNumber (Num false (v_size fv) 0));
      (js "mimeType", JString (v_mimeType fv));
      (js "mediaType", JString (v_mediaType fv));
      (js "analyzedAt", JString (now_iso w)) ].

(** The prompt sent: mediaTypeText is 'video' for a video and 'image'
    otherwise. *)
Definition prompt_for (fv : file_validation) (prompt : jsstring) : jsstring :=
  let mediaTypeText :=
    if str_eqb (v_mediaType fv) (js "video") then js "video" else js "image" in
  enhancedPrompt mediaTypeText prompt.

Record error_info := MkErrorInfo
  { e_message : message; e_timestamp : jsstring; e_type : error_class }.

Record analysis_result := MkAnalysis
  { success : bool;
    data : option analysis_data;
    error : option error_info }.

Definition analyzeMultimedia (w : World) (filePath prompt : jsstring)
  : analysis_result :=
  let body : result analysis_data :=
    match validateInput filePath prompt with
    | Some m => Throw (Error (Lit (js "Input validation failed: ") :: m))
    | None =>
        let fileValidation := validateMultimediaFile w filePath in
        if negb (valid fileValidation)
        then Throw (Error (Lit (js "File validation failed: ")
                           :: match v_error fileValidation with
                              | Some m => m
                              | None => [Lit (js "undefined")]
                              end))
        else
          base64Data <- fileToBase64 w filePath ;;
          let mimeType := v_mimeType fileValidation in
          text <- generateContent w (prompt_for fileValidation prompt)
                                  base64Data mimeType ;;
          set_fileMetadata (recover text) (fileMetadata_of w filePath fileValidation)
    end in
  match body with
  | Ok d => MkAnalysis true (Some d) None
  | Throw e => MkAnalysis false None (Some (MkErrorInfo (emessage e) (now_iso w) (eclass e)))
  end.

(** The call gets as far as the model, and the model answers [text]. *)
Definition responds (w : World) (filePath prompt : jsstring) (text : jsstring) : Prop :=
  validateInput filePath prompt = None
  /\ valid (validateMultimediaFile w filePath) = true
  /\ exists base64Data,
       fileToBase64 w filePath = Ok base64Data
       /\ generateContent w (prompt_for (validateMultimediaFile w filePath) prompt)
            base64Data (v_mimeType (validateMultimediaFile w filePath)) = Ok text.

(** A field of the fileMetadata of a result. *)
Definition metadata (d : analysis_data) (k : jsstring) : value :=
  field (data_get d (js "fileMetadata")) k.

(** Two worlds show the same file at [filePath]: the same existence, stat
    record, MIME type and base name.  Everything else may differ. *)
Definition same_file (w1 w2 : World) (filePath : jsstring) : Prop :=
  pathExists w1 filePath = pathExists w2 filePath
  /\ stat w1 filePath = stat w2 filePath
  /\ mime_lookup w1 filePath = mime_lookup w2 filePath
  /\ basename w1 filePath = basename w2 filePath.

End Summarizer.

(* ================================================================== *)
(** ** The dynamic policy checker: [getPolicies], [checkCompliance],
       [checkAdCompliance] *)
(* ================================================================== *)

Module DynamicChecker.

Local Open Scope js_scope.

(** What the checker obtains from outside.  The network and the model service
    may answer differently each time: their answers are indexed by the number
    of requests made before. *)
Record World := MkWorld
  { http_get : nat -> result jsstring;                 (* axios.get(url, ...), response.data *)
    cheerio_text : jsstring -> jsstring;
       (* cheerio: load, remove script/style/nav/header/footer, text of the main content *)
    messages_create : nat -> jsstring -> result jsstring;
       (* anthropic.messages.create with this prompt, message.content[0].text *)
    stringify : json -> jsstring }.                    (* JSON.stringify(policies, null, 2) *)

(** The instance: this.cachedPolicies (null at construction), and the number
    of requests made so far to the policy page and to the model service. *)
Record state := MkState
  { cachedPolicies : json;
    http_calls : nat;
    llm_calls : nat }.

Definition new_checker : state := MkState JNull 0 0.

Definition fetchMetaPolicies (w : World) (st : state) : state * result jsstring :=
  (MkState (cachedPolicies st) (S (http_calls st)) (llm_calls st),
   try_catch (http_get w (http_calls st))
     (fun e => Throw (Error (Lit (js "Failed to fetch Meta policies: ") :: emessage e)))).

(** replace(/\s+/g, ' ') *)
Fixpoint collapse_spaces (s : jsstring) : jsstring :=
  match s with
  | [] => []
  | c :: r =>
      if is_js_space c
      then match r with
           | c' :: _ => if is_js_space c' then collapse_spaces r
                        else 32%N :: collapse_spaces r
           | [] => [32%N]
           end
      else c :: collapse_spaces r
  end.

Definition extractTextFromHtml (w : World) (html : jsstring) : jsstring :=
  trim (collapse_spaces (cheerio_text w html)).

Definition extraction_prompt (content : jsstring) : jsstring :=
  jsq "You are an expert at analyzing Meta (Facebook) advertising policies. Please carefully read through the following content from Meta's Ad Standards page and extract ALL the specific advertising policies and rules.

For each policy, provide:
1. Policy Category (e.g., `Prohibited Content`, `Restricted Content`, `Community Standards`, etc.)
2. Policy Name/Title
3. Brief Description of what is prohibited or restricted
4. Key details or examples if provided

Format your response as a JSON array where each policy is an object with these fields:
- category: string
- name: string  
- description: string
- details: string (optional)

Content to analyze:
"
  ++ content ++
  jsq "

Please be thorough and extract all policies mentioned, including but not limited to:
- Prohibited content types
- Restricted content requirements
- Community standards violations
- Discriminatory practices
- Misleading/fraudulent content
- Adult content restrictions
- Violence and safety policies
- Any other advertising restrictions

Return only the JSON array, no additional text.".

(** The three replacements applied to the model's text. *)
Definition unescape (s : jsstring) : jsstring :=
  Regex.replace_escaped 114%N 13%N
    (Regex.replace_escaped 116%N 9%N
       (Regex.replace_escaped 110%N 10%N (Regex.strip_control s))).

Definition parse_policies (responseText : jsstring) : result json :=
  let cleanedText := trim (unescape responseText) in
  try_catch (JSON_parse cleanedText)
    (fun parseError =>
       match Regex.match_brackets cleanedText with
       | Some m => JSON_parse (unescape m)
       | None =>
           Throw (Error (Lit (js "Failed to parse policies JSON from Claude response: ")
                         :: emessage parseError))
       end).

Definition extractPoliciesWithClaude (w : World) (content : jsstring) (st : state)
  : state * result json :=
  (MkState (cachedPolicies st) (http_calls st) (S (llm_calls st)),
   try_catch
     (responseText <- messages_create w (llm_calls st) (extraction_prompt content) ;;
      parse_policies responseText)
     (fun e => Throw (Error (Lit (js "Failed to extract policies with Claude: ")
                             :: emessage e)))).

Definition getPolicies (w : World) (st : state) : state * result json :=
  if truthy (Some (cachedPolicies st))
  then (st, Ok (cachedPolicies st))
  else
    let '(st1, fetched) := fetchMetaPolicies w st in
    match fetched with
    | Throw e => (st1, Throw e)
    | Ok htmlContent =>
        let textContent := extractTextFromHtml w htmlContent in
        let '(st2, extracted) := extractPoliciesWithClaude w textContent st1 in
        match extracted with
        | Throw e => (st2, Throw e)
        | Ok policies =>
            (MkState policies (http_calls st2) (llm_calls st2), Ok policies)
        end
    end.

Definition compliance_prompt (w : World) (policies : json) (adSummary : jsstring)
  : jsstring :=
  jsq "You are an expert Meta (Facebook) advertising policy compliance checker. I will provide you with:
1. A comprehensive list of Meta's advertising policies
2. An ad summary describing content intended for Meta ads

Your task is to carefully analyze the ad summary against ALL the provided policies and determine if there are any violations.

META ADVERTISING POLICIES:
"
  ++ stringify w policies ++
  jsq "

AD SUMMARY TO CHECK:
`"
  ++ adSummary ++
  jsq "`

Please analyze this ad summary against all the policies above and provide your assessment in the following JSON format:

{
  `compliant`: boolean,
  `violatedPolicies`: [
    {
      `category`: `Policy Category`,
      `name`: `Specific Policy Name`,
      `reason`: `Explanation of how the ad violates this policy`
    }
  ],
  `details`: {
    `description`: `Overall assessment and reasoning`,
    `riskLevel`: `low|medium|high`,
    `recommendations`: `Suggestions for making the ad compliant (if applicable)`
  }
}

Be thorough in your analysis. If the ad is compliant, set `compliant` to true and `violatedPolicies` to an empty array. If there are violations, be specific about which policies are violated and why.

Return only the JSON response, no additional text.".

Definition parse_compliance (responseText : jsstring) : result json :=
  try_catch (JSON_parse responseText)
    (fun parseError =>
       match Regex.match_braces responseText with
       | Some m => JSON_parse m
       | None =>
           Throw (Error [Lit (js "Failed to parse compliance result JSON from Claude response")])
       end).

Definition checkCompliance (w : World) (adSummary : value) (st : state)
  : state * result json :=
  let wrap (r : result json) : result json :=
    try_catch r
      (fun e => Throw (Error (Lit (js "Failed to check compliance: ") :: emessage e))) in
  match adSummary with
  | Some (JString (c :: s)) =>
      let '(st1, got) := getPolicies w st in
      match got with
      | Throw e => (st1, wrap (Throw e))
      | Ok policies =>
          (MkState (cachedPolicies st1) (http_calls st1) (S (llm_calls st1)),
           wrap (responseText <- messages_create w (llm_calls st1)
                                   (compliance_prompt w policies (c :: s)) ;;
                 parse_compliance responseText))
      end
  | _ => (st, wrap (Throw (Error [Lit (js "Ad summary must be a non-empty string")])))
  end.

(** The details of a report: what the model gave, or the error block. *)
Inductive details :=
| Details (d : json)
| ErrorDetails (error : message) (description : jsstring).

Record report := MkReport
  { compliant : json;
    violatedPolicies : json;
    r_details : details }.

(** a || b *)
Definition or_else (a : value) (b : json) : json :=
  match a with
  | Some v => if truthy a then v else b
  | None => b
  end.

Definition checkAdCompliance (w : World) (adSummary : value) (st : state)
  : state * result report :=
  let '(st1, checked) := checkCompliance w adSummary st in
  (st1,
   try_catch
     (result <- checked ;;
      c <- get_prop result (js "compliant") ;;
      v <- get_prop result (js "violatedPolicies") ;;
      d <- get_prop result (js "details") ;;
      Ok (MkReport (or_else c (JBool false)) (or_else v (JArray []))
                   (Details (or_else d (JObject [])))))
     (fun e =>
        Ok (MkReport (JBool false) (JArray [])
              (ErrorDetails (emessage e)
                 (js "An error occurred while checking compliance"))))).

(** *** Concurrent callers

    An async call runs until its first await, is suspended there, and
    continues when the awaited answer arrives; between two awaits nothing
    else runs.  A call of getPolicies is suspended at most twice: in
    fetchMetaPolicies and in extractPoliciesWithClaude. *)
Inductive task :=
| NotCalled
| AwaitFetch (request : nat)
| AwaitExtract (request : nat) (prompt : jsstring)
| Returned (r : result json).

(** What the event loop does next: a caller calls getPolicies, or the answer
    a suspended call waits for arrives. *)
Inductive event :=
| Call (caller : nat)
| Resume (caller : nat).

Record system := MkSystem
  { checker : state;
    tasks : list task }.

Definition set_task (i : nat) (t : task) (ts : list task) : list task :=
  firstn i ts ++ t :: skipn (S i) ts.

(** The call up to its first await. *)
Definition call_step (st : state) : state * task :=
  if truthy (Some (cachedPolicies st))
  then (st, Returned (Ok (cachedPolicies st)))
  else (MkState (cachedPolicies st) (S (http_calls st)) (llm_calls st),
        AwaitFetch (http_calls st)).

(** The call from one await to the next, or to its end. *)
Definition resume_step (w : World) (t : task) (st : state) : state * task :=
  match t with
  | AwaitFetch n =>
      match http_get w n with
      | Throw e =>
          (st, Returned (Throw (Error (Lit (js "Failed to fetch Meta policies: ")
                                       :: emessage e))))
      | Ok htmlContent =>
          (MkState (cachedPolicies st) (http_calls st) (S (llm_calls st)),
           AwaitExtract (llm_calls st)
                        (extraction_prompt (extractTextFromHtml w htmlContent)))
      end
  | AwaitExtract n prompt =>
      match try_catch (responseText <- messages_create w n prompt ;;
                       parse_policies responseText)
              (fun e => Throw (Error (Lit (js "Failed to extract policies with Claude: ")
                                      :: emessage e))) with
      | Throw e => (st, Returned (Throw e))
      | Ok policies =>
          (MkState policies (http_calls st) (llm_calls st), Returned (Ok policies))
      end
  | _ => (st, t)
  end.

Definition step (w : World) (s : system) (e : event) : system :=
  match e with
  | Call i =>
      match nth_error (tasks s) i with
      | Some NotCalled =>
          let '(st, t) := call_step (checker s) in
          MkSystem st (set_task i t (tasks s))
      | _ => s
      end
  | Resume i =>
      match nth_error (tasks s) i with
      | Some t =>
          let '(st, t') := resume_step w t (checker s) in
          MkSystem st (set_task i t' (tasks s))
      | None => s
      end
  end.

Definition run (w : World) (s : system) (schedule : list event) : system :=
  fold_left (step w) schedule s.

(** checkCompliance gets as far as the model, and the model answers [text]. *)
Definition responds (w : World) (adSummary : value) (st : state) (text : jsstring)
  : Prop :=
  exists c s st1 policies,
    adSummary = Some (JString (c :: s))
    /\ getPolicies w st = (st1, Ok policies)
    /\ messages_create w (llm_calls st1) (compliance_prompt w policies (c :: s))
       = Ok text.

(** The caller has called getPolicies. *)
Definition called (t : task) : Prop := t <> NotCalled.

(** A policy set is a sequence of policy items. *)
Definition is_policy_set (v : json) : Prop := exists items, v = JArray items.

(** createMetaAdsPolicyChecker(anthropicApiKey) *)
Definition createMetaAdsPolicyChecker (anthropicApiKey : jsstring) : result state :=
  match anthropicApiKey with
  | [] => Throw (Error [Lit (js "Anthropic API key is required")])
  | _ => Ok new_checker
  end.

(** checkMetaAdsCompliance(adSummary, anthropicApiKey): the report, together
    with the checker made for the call as it is left behind. *)
Definition checkMetaAdsCompliance (w : World) (adSummary : value)
           (anthropicApiKey : jsstring) : result (state * report) :=
  checker <- createMetaAdsPolicyChecker anthropicApiKey ;;
  let '(st, r) := checkAdCompliance w adSummary checker in
  report <- r ;;
  Ok (st, report).

(** What one extraction request gives: the try/catch of
    extractPoliciesWithClaude around the request and the parsing. *)
Definition extraction_outcome (w : World) (request : nat) (content : jsstring)
  : result json :=
  try_catch
    (responseText <- messages_create w request (extraction_prompt content) ;;
     parse_policies responseText)
    (fun e => Throw (Error (Lit (js "Failed to extract policies with Claude: ")
                            :: emessage e))).

(** The text extractTextFromHtml returns has its white space collapsed: every
    white-space code unit in it is a space, and no two are adjacent. *)
Fixpoint collapsed (s : jsstring) : Prop :=
  match s with
  | [] => True
  | c :: r =>
      (is_js_space c = true ->
       c = 32%N /\ match r with c' :: _ => is_js_space c' = false | [] => True end)
      /\ collapsed r
  end.

End DynamicChecker.

(* ================================================================== *)
(** ** The orchestrator: POST /summarize of server.js *)
(* ================================================================== *)

Module Server.

Local Open Scope js_scope.

(** req.file as multer leaves it. *)
Record upload := MkUpload
  { originalname : jsstring;
    filename : jsstring;
    path : jsstring;
    size : N;
    mimetype : jsstring }.

Record World := MkWorld
  { extension_of : jsstring -> jsstring;
       (* path.extname(name).toLowerCase().slice(1) *)
    policy_file : jsstring;
       (* path.join(__dirname, 'meta-ads-policy-checker', 'meta-ads-policy.txt') *)
    upload_date : jsstring;                            (* new Date() *)
    now_iso : jsstring;                                (* new Date().toISOString() *)
    summarizer : Summarizer.World;
    checker : PolicyChecker.World }.

Definition ALLOWED_VIDEO_TYPES : list jsstring :=
  map js ["mp4"; "avi"; "mov"; "wmv"; "flv"; "webm"; "mkv"]%string.

Definition ALLOWED_IMAGE_TYPES : list jsstring :=
  map js ["jpg"; "jpeg"; "png"; "gif"; "bmp"; "webp"]%string.

Definition analysisPrompt : jsstring :=
  js "Analyze the provided video or image for potential Meta Ads policy violations and deliver a single-paragraph, 250-word descriptive summary. Detail the main visual content, actions, themes, and any visible text, symbols, logos, audio, and any other content. Clearly highlight any elements likely violating Meta Ads policies, such as prohibited products, misleading claims, violence, nudity, sensitive content, or controversial subjects. Assess the nature and likelihood of any potential violation based on Meta Ads guidelines, keeping the summary factual, objective, and focused on ad intention.".

Definition fileType_of (w : World) (file : upload) : jsstring :=
  let fileExtension := extension_of w (originalname file) in
  let isVideo := Summarizer.includes ALLOWED_VIDEO_TYPES fileExtension in
  let isImage := Summarizer.includes ALLOWED_IMAGE_TYPES fileExtension in
  if isVideo then js "video" else if isImage then js "image" else js "unknown".

(** fileType.charAt(0).toUpperCase() + fileType.slice(1), on the three
    lower-case words fileType can be. *)
Definition capitalize (s : jsstring) : jsstring :=
  match s with
  | [] => []
  | c :: r => (if ((97 <=? c) && (c <=? 122))%N then c - 32 else c)%N :: r
  end.

Record file_info := MkFileInfo
  { originalName : jsstring;
    fi_filename : jsstring;
    fileSize : N;
    fileType : jsstring;
    uploadDate : jsstring }.

Record analysis_block := MkAnalysisBlock
  { summary : value;
    keyPoints : value;
    fileMetadata : value }.

Inductive policy_block :=
| Verdict (violated violations reasoning : value) (checkedAt : jsstring)
| PolicyError (error : jsstring) (details : message).

(** The status and the JSON body sent. *)
Record response := MkResponse
  { status : N;
    success : bool;
    r_message : jsstring;
    r_error : option jsstring;
    r_details : option message;
    fileInfo : option file_info;
    analysis : option analysis_block;
    policyCheck : option policy_block;
    r_timestamp : option jsstring }.

Definition file_info_of (w : World) (file : upload) : file_info :=
  MkFileInfo (originalname file) (filename file) (size file)
             (fileType_of w file) (upload_date w).

Definition analysis_of (d : Summarizer.analysis_data) : analysis_block :=
  MkAnalysisBlock (Summarizer.data_get d (js "summary"))
                  (Summarizer.data_get d (js "keyPoints"))
                  (Summarizer.data_get d (js "fileMetadata")).

(** The body of the inner try: a new checker, loadPolicyFile, checkPolicy. *)
Definition policy_stage (w : World) (d : Summarizer.analysis_data)
  : result policy_block :=
  let policyChecker : PolicyChecker.state := None in
  let '(st, loaded) :=
    PolicyChecker.loadPolicyFile (checker w)
      (PolicyChecker.ArgPath (policy_file w)) policyChecker in
  loaded ;;;
  let '(_, policyResult) :=
    PolicyChecker.checkPolicy (checker w) (Summarizer.data_get d (js "summary"))
                              None st in
  if negb (PolicyChecker.success policyResult)
  then Throw (Error (Lit (js "Policy analysis failed: ")
                     :: match PolicyChecker.error policyResult with
                        | Some m => m
                        | None => [Lit (js "undefined")]
                        end))
  else
    let data := PolicyChecker.data policyResult in
    Ok (Verdict (field data (js "violated")) (field data (js "violations"))
                (field data (js "reasoning")) (PolicyChecker.timestamp policyResult)).

(** The handler, from the uploaded file to the response. *)
Definition summarize (w : World) (file : option upload) : response :=
  match file with
  | None =>
      MkResponse 400 false
        (js "No file provided. Please upload a video or image file.")
        (Some (js "NO_FILE_PROVIDED")) None None None None None
  | Some f =>
      let fileType := fileType_of w f in
      let analysisResult :=
        Summarizer.analyzeMultimedia (summarizer w) (path f) analysisPrompt in
      match Summarizer.success analysisResult, Summarizer.data analysisResult with
      | true, Some d =>
          match policy_stage w d with
          | Ok verdict =>
              MkResponse 201 true
                (capitalize fileType ++ js " analyzed and policy-checked successfully")
                None None (Some (file_info_of w f)) (Some (analysis_of d))
                (Some verdict) (Some (now_iso w))
          | Throw policyError =>
              MkResponse 201 true
                (capitalize fileType
                 ++ js " analyzed successfully, but policy check failed")
                None None (Some (file_info_of w f)) (Some (analysis_of d))
                (Some (PolicyError (js "Policy analysis failed")
                                   (emessage policyError)))
                (Some (now_iso w))
          end
      | _, _ =>
          let analysisError :=
            Error (Lit (js "Gemini analysis failed: ")
                   :: match Summarizer.error analysisResult with
                      | Some e => Summarizer.e_message e
                      | None => [Lit (js "undefined")]
                      end) in
          MkResponse 500 false
            (js "File uploaded successfully but analysis failed")
            (Some (js "ANALYSIS_FAILED")) (Some (emessage analysisError))
            (Some (file_info_of w f)) None None (Some (now_iso w))
      end
  end.

(** The policy stage fails: loadPolicyFile throws, or checkPolicy reports
    success=false. *)
Definition policy_fails (w : World) (d : Summarizer.analysis_data) : Prop :=
  let loaded :=
    PolicyChecker.loadPolicyFile (checker w)
      (PolicyChecker.ArgPath (policy_file w)) None in
  (exists e, snd loaded = Throw e)
  \/ (snd loaded = Ok tt
      /\ PolicyChecker.success
           (snd (PolicyChecker.checkPolicy (checker w)
                   (Summarizer.data_get d (js "summary")) None (fst loaded)))
         = false).

(** The file filter of multer. *)
Definition allAllowedTypes : list jsstring :=
  ALLOWED_VIDEO_TYPES ++ ALLOWED_IMAGE_TYPES.

Inductive filter_outcome :=
| Accept                                   (* cb(null, true) *)
| Reject (message : jsstring).             (* cb(new Error(message), false) *)

Definition fileFilter (w : World) (originalname : jsstring) : filter_outcome :=
  let fileExtension := extension_of w originalname in
  if Summarizer.includes allAllowedTypes fileExtension then Accept
  else Reject (js "Invalid file type. Allowed types: "
               ++ Summarizer.join (js ", ") allAllowedTypes).

(** An error raised while the upload is received: a MulterError with its
    code, or another error. *)
Record upload_error := MkUploadError
  { multer_code : option jsstring;
    ue_message : jsstring }.

Inductive handled :=
| Respond (r : response)
| Next (e : upload_error).

Definition handleUploadError (error : upload_error) : handled :=
  let bad_request message code :=
    Respond (MkResponse 400 false message (Some code) None None None None None) in
  match
    match multer_code error with
    | Some code =>
        if str_eqb code (js "LIMIT_FILE_SIZE")
        then Some (bad_request (js "File too large. Maximum size allowed is 100MB.")
                               (js "FILE_TOO_LARGE"))
        else if str_eqb code (js "LIMIT_FILE_COUNT")
        then Some (bad_request (js "Too many files. Only one file allowed per request.")
                               (js "TOO_MANY_FILES"))
        else None
    | None => None
    end
  with
  | Some r => r
  | None =>
      if str_includes (js "Invalid file type") (ue_message error)
      then bad_request (ue_message error) (js "INVALID_FILE_TYPE")
      else Next error
  end.

End Server.

(* ================================================================== *)
(** ** The upload form: validateFile of FileUploadAnalyzer.jsx *)
(* ================================================================== *)

Module Frontend.

(** The File the browser hands over. *)
Record file := MkFile { size : N; type : jsstring }.

Definition maxSize : N := 20 * 1024 * 1024.

Definition allowedTypes : list jsstring := [js "video/"; js "image/"].

(** The error text, or [None] for null. *)
Definition validateFile (f : file) : option jsstring :=
  if (maxSize <? size f)%N
  then Some (js "File size must be less than 20MB")
  else if negb (existsb (fun t => starts_with t (type f)) allowedTypes)
  then Some (js "Only video and image files are allowed")
  else None.

End Frontend.

(* ================================================================== *)
(** ** Concrete worlds and texts *)
(* ================================================================== *)

Module Examples.

Definition stamp : jsstring := js "2024-01-15T10:30:00.000Z".

Definition policy_text : jsstring :=
  js "Deceptive Practices: ads must not promise guaranteed returns.".

(** A checker world whose policy file is [policy_text] and whose model
    answers [text] to every prompt. *)
Definition checker_world (text : jsstring) : PolicyChecker.World :=
  PolicyChecker.MkWorld (fun p => p) (fun _ => Ok policy_text)
                        (fun _ => Ok text) stamp.

(** A checker world whose model service times out. *)
Definition checker_world_timeout : PolicyChecker.World :=
  PolicyChecker.MkWorld (fun p => p) (fun _ => Ok policy_text)
    (fun _ => Throw (Error [Lit (js "request timed out")])) stamp.

Definition ad_summary : value :=
  Some (JString (js "Guaranteed 500% returns in 30 days, no risk!")).

Definition verdict_violating : jsstring :=
  jsq "{`violated`:true,`violations`:[{`category`:`Deceptive Practices`,`description`:`Guaranteed returns`,`severity`:`high`}],`reasoning`:`Promises returns.`}".

(** violated is false, and one violation is listed. *)
Definition verdict_false_with_violation : jsstring :=
  jsq "{`violated`:false,`violations`:[{`category`:`Deceptive Practices`,`description`:`Guaranteed returns`,`severity`:`high`}],`reasoning`:`Fine.`}".

(** violated is true, and no violation is listed. *)
Definition verdict_true_without_violation : jsstring :=
  jsq "{`violated`:true,`violations`:[],`reasoning`:`Bad.`}".

Definition verdict_bad_severity : jsstring :=
  jsq "{`violated`:true,`violations`:[{`category`:`Alcohol`,`description`:`Beer`,`severity`:`critical`}]}".

Definition not_json : jsstring := js "N/A".

(** A summarizer world with one readable 2048-byte video whose model answers
    [text]. *)
Definition summarizer_world (text : jsstring) : Summarizer.World :=
  Summarizer.MkWorld (fun _ => true)
    (fun _ => Ok (Summarizer.MkStats true 2048))
    (fun _ => Some (js "video/mp4"))
    (fun _ => Ok (js "AAAA"))
    (fun _ => js "clip.mp4")
    (fun _ _ _ => Ok text)
    stamp.

Definition media_path : jsstring := js "media/clip.mp4".
Definition media_prompt : jsstring := js "Describe the ad.".

Definition analysis_text : jsstring :=
  jsq "{`summary`:`A person holds a bottle.`,`keyPoints`:[`bottle`,`outdoors`]}".

Definition policies_a : jsstring :=
  jsq "[{`category`:`Prohibited Content`,`name`:`Weapons`,`description`:`No weapons.`}]".

Definition policies_b : jsstring :=
  jsq "[{`category`:`Restricted Content`,`name`:`Alcohol`,`description`:`Age limits.`}]".

(** A world for the dynamic checker: the page is always served; the model
    answers [first] to the first request and [later] to all later ones. *)
Definition dynamic_world (first later : jsstring) : DynamicChecker.World :=
  DynamicChecker.MkWorld
    (fun _ => Ok (js "<main>Ad standards</main>"))
    (fun html => html)
    (fun n _ => Ok (match n with O => first | S _ => later end))
    (fun _ => js "[]").

(** The same with the policy page unreachable. *)
Definition dynamic_world_offline : DynamicChecker.World :=
  DynamicChecker.MkWorld
    (fun _ => Throw (Error [Lit (js "getaddrinfo ENOTFOUND")]))
    (fun html => html)
    (fun _ _ => Ok policies_a)
    (fun _ => js "[]").

Definition upload0 : Server.upload :=
  Server.MkUpload (js "clip.mp4") (js "file-1-2.mp4") media_path 2048 (js "video/mp4").

Definition server_world (analysis verdict : jsstring) : Server.World :=
  Server.MkWorld (fun _ => js "mp4") (js "meta-ads-policy.txt") stamp stamp
                 (summarizer_world analysis) (checker_world verdict).

Definition server_world_timeout (analysis : jsstring) : Server.World :=
  Server.MkWorld (fun _ => js "mp4") (js "meta-ads-policy.txt") stamp stamp
                 (summarizer_world analysis) checker_world_timeout.

(** A checker world whose policy file holds white space only. *)
Definition checker_world_blank (text : jsstring) : PolicyChecker.World :=
  PolicyChecker.MkWorld (fun p => p) (fun _ => Ok (js "   "))
                        (fun _ => Ok text) stamp.

Definition verdict_clean : jsstring :=
  jsq "{`violated`:false,`violations`:[],`reasoning`:`Nothing to report.`}".

Definition verdict_in_prose : jsstring :=
  js "Sure! Here is the analysis: " ++ verdict_clean ++ js " Hope that helps!".

(** A world for the dynamic checker whose model never gives JSON. *)
Definition dynamic_world_null : DynamicChecker.World :=
  DynamicChecker.MkWorld
    (fun _ => Ok (js "<main>Ad standards</main>"))
    (fun html => html)
    (fun _ _ => Ok (js "null"))
    (fun _ => js "null").

Definition entry_low : json :=
  JObject [(js "category", JString (js "Alcohol"));
           (js "description", JString (js "Beer"));
           (js "severity", JString (js "low"))].

Definition entry_critical : json :=
  JObject [(js "category", JString (js "Alcohol"));
           (js "description", JString (js "Beer"));
           (js "severity", JString (js "critical"))].

Definition members_second_invalid : list (jsstring * json) :=
  [(js "violated", JBool true);
   (js "violations", JArray [entry_low; entry_critical])].

End Examples.

(* ================================================================== *)
(** ** Facts about strings and objects *)
(* ================================================================== *)

Module JSFacts.

Lemma str_eqb_eq a b : str_eqb a b = true <-> a = b.
Proof.
  unfold str_eqb. destruct (list_eq_dec N.eq_dec a b); split; congruence.
Qed.

Lemma str_eqb_refl a : str_eqb a a = true.
Proof. now apply str_eqb_eq. Qed.

Lemma str_eqb_neq a b : a <> b -> str_eqb a b = false.
Proof.
  intros H. destruct (str_eqb a b) eqn:E; [|reflexivity].
  apply str_eqb_eq in E. contradiction.
Qed.

(** Setting one property leaves the others as they were. *)
Lemma obj_get_set_other k k' v ms :
  k <> k' -> obj_get k (obj_set k' v ms) = obj_get k ms.
Proof.
  intros Hk. induction ms as [|[k0 v0] r IH]; simpl.
  - rewrite str_eqb_neq; congruence.
  - destruct (str_eqb k0 k') eqn:E; simpl.
    + apply str_eqb_eq in E. subst k0.
      rewrite !str_eqb_neq by congruence. reflexivity.
    + destruct (str_eqb k0 k); [reflexivity | exact IH].
Qed.

Lemma obj_get_set_same k v ms : obj_get k (obj_set k v ms) = Some v.
Proof.
  induction ms as [|[k0 v0] r IH]; simpl.
  - now rewrite str_eqb_refl.
  - destruct (str_eqb k0 k) eqn:E; simpl; rewrite E; [reflexivity | exact IH].
Qed.

End JSFacts.

(* ================================================================== *)
(** ** Facts about JSON.parse *)
(* ================================================================== *)

Module JSONFacts.

Import JSON.
Local Open Scope N_scope.

(** *** The parser: the outermost container decides the kind of the result *)

Lemma root_complete v stk k :
  match stk with [] => value_kind v = Some k | f :: r => bottom r (frame_kind f) = k end ->
  root (complete v stk) = Some k.
Proof.
  destruct stk as [|[acc|acc key] r]; simpl; congruence.
Qed.

Lemma root_start_value t f r st' :
  start_value t (f :: r) = Some st' ->
  root st' = Some (bottom r (frame_kind f)).
Proof.
  destruct t; simpl; intros H; inversion H; subst; clear H;
    try (destruct f; reflexivity).
Qed.

Lemma parse_step_root st t st' k :
  parse_step st t = Some st' -> root st = Some k -> root st' = Some k.
Proof.
  destruct st as [stk|stk|stk|acc stk|acc key stk|acc stk|acc stk|v]; simpl.
  - destruct stk as [|f r]; [discriminate|].
    intros H K. inversion K; subst. eapply root_start_value; eauto.
  - intros H K. inversion K; subst; clear K.
    destruct t; simpl in H; inversion H; subst; clear H;
      try reflexivity;
      try (apply root_complete; destruct stk; reflexivity).
  - intros H K. inversion K; subst; clear K.
    destruct t; inversion H; subst; clear H; try reflexivity.
    apply root_complete; destruct stk; reflexivity.
  - intros H K. inversion K; subst; clear K.
    destruct t; inversion H; subst; reflexivity.
  - intros H K. inversion K; subst; clear K.
    destruct t; inversion H; subst; reflexivity.
  - intros H K. inversion K; subst; clear K.
    destruct t; inversion H; subst; clear H; try reflexivity.
    apply root_complete; destruct stk; reflexivity.
  - intros H K. inversion K; subst; clear K.
    destruct t; inversion H; subst; clear H; try reflexivity.
    apply root_complete; destruct stk; reflexivity.
  - discriminate.
Qed.

Lemma run_root ts : forall st v k,
  run st ts = Some v -> root st = Some k -> value_kind v = Some k.
Proof.
  induction ts as [|t r IH]; simpl; intros st v k H K.
  - destruct st; try discriminate. inversion H; subst. exact K.
  - destruct (parse_step st t) as [st'|] eqn:E; [|discriminate].
    eapply IH; eauto using parse_step_root.
Qed.

Lemma run_done v ts v' : run (PDone v) ts = Some v' -> ts = [] /\ v' = v.
Proof.
  destruct ts; simpl; [intros H; inversion H; auto | discriminate].
Qed.

(** A text whose first token opens an object parses to an object. *)
Lemma run_first_brace ts v :
  run (PValue []) (TLBrace :: ts) = Some v -> exists ms, v = JObject ms.
Proof.
  simpl. intros H.
  apply run_root with (k := KObject) in H; [|reflexivity].
  destruct v; try discriminate. eauto.
Qed.

(** A text that parses to an object starts with the opening-brace token. *)
Lemma run_object_first ts ms :
  run (PValue []) ts = Some (JObject ms) -> exists r, ts = TLBrace :: r.
Proof.
  destruct ts as [|t r]; [discriminate|].
  simpl. destruct t; simpl; try discriminate; intros H;
    try (apply run_done in H; destruct H; discriminate).
  - eauto.
  - apply run_root with (k := KArray) in H; [discriminate | reflexivity].
Qed.

(** A token sequence that parses to an object ends with the closing brace. *)
Lemma parse_step_done_object st t ms :
  parse_step st t = Some (PDone (JObject ms)) -> t = TRBrace.
Proof.
  destruct st as [stk|stk|stk|acc stk|acc key stk|acc stk|acc stk|v]; simpl;
    destruct t; simpl; try discriminate; try reflexivity;
    try (destruct stk as [|[?|? ?] ?]; simpl; discriminate).
Qed.

Lemma run_object_last ts : forall st ms,
  run st ts = Some (JObject ms) -> ts = [] \/ exists r, ts = r ++ [TRBrace].
Proof.
  induction ts as [|t r IH]; simpl; intros st ms H; [now left|right].
  destruct (parse_step st t) as [st'|] eqn:E; [|discriminate].
  destruct (IH _ _ H) as [->|[r' ->]].
  - simpl in H. destruct st'; try discriminate. inversion H; subst.
    apply parse_step_done_object in E. subst. now exists [].
  - now exists (t :: r').
Qed.

(** *** The lexer *)

Ltac nsplit c n :=
  let E := fresh "E" in
  destruct (N.eqb_spec c n) as [E|E]; [subst c|].

Ltac emitted :=
  eexists _, _; repeat split; intros;
  solve [reflexivity | discriminate | congruence].

(** Outside strings, numbers and literals the lexer is idle; elsewhere it has a
    token under way, which will be the next one it emits. *)
Lemma lex_busy s : forall st ts,
  st <> LIdle -> lex st s = Some ts ->
  exists t r, ts = t :: r /\ t <> TLBrace /\ (r = [] -> t <> TRBrace).
Proof.
  induction s as [|c s IH]; intros st ts Hst H.
  - simpl in H. destruct st; try discriminate; try congruence.
    unfold lex_finish in H.
    destruct (accepting ph); inversion H; subst.
    emitted.
  - simpl in H.
    destruct (lex_step st c) as [[st' out]|] eqn:E; [|discriminate].
    destruct (lex st' s) as [ts1|] eqn:L; [|discriminate].
    inversion H; subst; clear H.
    destruct st as [|acc|acc|acc togo v|rest l|ph d]; [congruence| | | | |]; simpl in E.
    + destruct (c =? 34).
      { inversion E; subst. emitted. }
      destruct (c =? 92).
      { inversion E; subst. (eapply IH; [|exact L]; discriminate). }
      destruct (c <? 32); [discriminate|].
      inversion E; subst. (eapply IH; [|exact L]; discriminate).
    + destruct (c =? 117).
      { inversion E; subst. (eapply IH; [|exact L]; discriminate). }
      destruct (escape_char c); inversion E; subst.
      (eapply IH; [|exact L]; discriminate).
    + destruct (hex_value c); [|discriminate].
      destruct togo as [|[|more]]; inversion E; subst;
        (eapply IH; [|exact L]; discriminate).
    + destruct rest as [|x rest']; [discriminate|].
      destruct (c =? x); [|discriminate].
      destruct rest'; inversion E; subst.
      * simpl. destruct l; emitted.
      * (eapply IH; [|exact L]; discriminate).
    + destruct (num_continue ph d c) as [st1|] eqn:C.
      * inversion E; subst.
        assert (st' <> LIdle).
        { intros ->. destruct ph; simpl in C;
            repeat match type of C with
                   | (if ?b then _ else _) = _ => destruct b
                   end; discriminate. }
        apply (IH _ _ H L).
      * destruct (accepting ph); [|discriminate].
        destruct (idle_step c) as [[st1 out1]|] eqn:I; inversion E; subst.
        simpl. emitted.
Qed.

Lemma lex_busy_nonempty s st : st <> LIdle -> lex st s <> Some [].
Proof.
  intros Hst H. destruct (lex_busy _ Hst H) as (t & r & E & _). discriminate.
Qed.

(** What the idle lexer does on one code unit. *)
Lemma idle_step_cases c st out :
  idle_step c = Some (st, out) ->
  (is_ws c = true /\ st = LIdle /\ out = [])
  \/ (is_ws c = false /\ st = LIdle /\
      exists t, out = [t] /\ (t = TLBrace <-> c = 123) /\ (t = TRBrace <-> c = 125))
  \/ (is_ws c = false /\ st <> LIdle /\ out = [] /\ c <> 123 /\ c <> 125).
Proof.
  unfold idle_step.
  destruct (is_ws c) eqn:W.
  { intros H; inversion H; auto. }
  nsplit c 123.
  { intros H; inversion H. right; left. repeat split; eauto.
    eexists; repeat split; eauto; discriminate. }
  nsplit c 125.
  { intros H; inversion H. right; left. repeat split; eauto.
    eexists; repeat split; eauto; discriminate. }
  repeat match goal with
         | |- (if ?b then _ else _) = _ -> _ => destruct b
         end;
    try discriminate;
    intros H; inversion H; subst; clear H;
    first
      [ right; left; split; [reflexivity|]; split; [reflexivity|];
        eexists; split; [reflexivity|]; split; split; intros; congruence
      | right; right; repeat split;
        solve [reflexivity | discriminate | assumption] ].
Qed.

Lemma lex_idle_nil s : lex LIdle s = Some [] -> all_ws s.
Proof.
  induction s as [|c s IH]; intros H; [constructor|].
  simpl in H.
  destruct (idle_step c) as [[st' out]|] eqn:E; [|discriminate].
  destruct (lex st' s) as [ts1|] eqn:L; [|discriminate].
  inversion H as [H0]. apply app_eq_nil in H0. destruct H0; subst.
  apply idle_step_cases in E.
  destruct E as [(W & -> & _)|[(_ & _ & t & ? & _)|(_ & Hst & _)]].
  - constructor; [exact W | exact (IH L)].
  - discriminate.
  - exfalso. eapply lex_busy_nonempty; eauto.
Qed.

(** If the first token opens an object, the text is white space, the opening
    brace, and the text of the remaining tokens. *)
Lemma lex_first_brace s : forall ts,
  lex LIdle s = Some (TLBrace :: ts) ->
  exists ws r, s = ws ++ 123 :: r /\ all_ws ws /\ lex LIdle r = Some ts.
Proof.
  induction s as [|c s IH]; intros ts H; [discriminate|].
  simpl in H.
  destruct (idle_step c) as [[st' out]|] eqn:E; [|discriminate].
  destruct (lex st' s) as [ts1|] eqn:L; [|discriminate].
  inversion H as [H0]; clear H.
  apply idle_step_cases in E.
  destruct E as [(W & -> & ->)|[(_ & -> & t & -> & Ht & _)|(_ & Hst & -> & _)]].
  - simpl in H0. subst ts1.
    destruct (IH _ L) as (ws & r & -> & Hws & Hr).
    exists (c :: ws), r. repeat split; [constructor; assumption | exact Hr].
  - simpl in H0. inversion H0; subst.
    exists [], s. repeat split; [|constructor|exact L].
    simpl. f_equal. now apply Ht.
  - simpl in H0. subst ts1.
    destruct (lex_busy _ Hst L) as (t & r & Et & Ht & _).
    inversion Et; subst. congruence.
Qed.

Lemma last_app_nonempty (A : Type) (l1 l2 : list A) d :
  l2 <> [] -> last (l1 ++ l2) d = last l2 d.
Proof.
  intros H. induction l1 as [|a l1 IH]; [reflexivity|].
  simpl. rewrite IH. destruct (l1 ++ l2) eqn:E; [|reflexivity].
  apply app_eq_nil in E. destruct E; contradiction.
Qed.

(** A step whose output ends with the closing-brace token read a closing
    brace, and left the lexer idle. *)
Lemma lex_step_rbrace st c st' out :
  lex_step st c = Some (st', out) -> last out TComma = TRBrace ->
  c = 125 /\ st' = LIdle.
Proof.
  destruct st as [|acc|acc|acc togo v|rest l|ph d]; simpl; intros E Hl.
  - apply idle_step_cases in E.
    destruct E as [(_ & _ & ->)|[(_ & -> & t & -> & _ & Ht)|(_ & _ & -> & _)]];
      simpl in Hl; try discriminate.
    split; [now apply Ht | reflexivity].
  - repeat match type of E with
           | (if ?b then _ else _) = _ => destruct b
           end; inversion E; subst; discriminate.
  - destruct (c =? 117); [inversion E; subst; discriminate|].
    destruct (escape_char c); inversion E; subst; discriminate.
  - destruct (hex_value c); [|discriminate].
    destruct togo as [|[|more]]; inversion E; subst; discriminate.
  - destruct rest as [|x rest']; [discriminate|].
    destruct (c =? x); [|discriminate].
    destruct rest'; inversion E; subst; [destruct l|]; discriminate.
  - destruct (num_continue ph d c); [inversion E; subst; discriminate|].
    destruct (accepting ph); [|discriminate].
    destruct (idle_step c) as [[st1 out1]|] eqn:I; inversion E; subst.
    apply idle_step_cases in I.
    destruct I as [(_ & _ & ->)|[(_ & -> & t & -> & _ & Ht)|(_ & _ & -> & _)]];
      simpl in Hl; try discriminate.
    split; [now apply Ht | reflexivity].
Qed.

(** If the last token closes an object, the text ends with the closing brace
    and white space, and the white space can be dropped. *)
Lemma lex_last_brace s : forall st ts,
  lex st s = Some ts -> last ts TComma = TRBrace ->
  exists pre ws, s = pre ++ 125 :: ws /\ all_ws ws
                 /\ lex st (pre ++ [125]) = Some ts.
Proof.
  induction s as [|c s IH]; intros st ts H Hl.
  - simpl in H. unfold lex_finish in H. destruct st; try discriminate.
    + inversion H; subst. discriminate.
    + destruct (accepting ph); inversion H; subst. discriminate.
  - simpl in H.
    destruct (lex_step st c) as [[st' out]|] eqn:E; [|discriminate].
    destruct (lex st' s) as [ts1|] eqn:L; [|discriminate].
    inversion H; subst; clear H.
    destruct ts1 as [|t1 ts1].
    + rewrite app_nil_r in Hl.
      destruct (lex_step_rbrace _ _ E Hl) as [-> ->].
      exists [], s. repeat split; [now apply lex_idle_nil|].
      simpl. simpl in E. rewrite E. reflexivity.
    + rewrite last_app_nonempty in Hl by discriminate.
      destruct (IH _ _ L Hl) as (pre & ws & -> & Hws & Hpre).
      exists (c :: pre), ws. repeat split; auto.
      simpl. rewrite E, Hpre. reflexivity.
Qed.

(** *** The brace pattern on a text that is a JSON object *)

Lemma ws_not_brace c : is_ws c = true -> c <> 123 /\ c <> 125.
Proof.
  unfold is_ws. intros H. split; intros ->; discriminate.
Qed.

Lemma from_first_ws ws r :
  all_ws ws -> Regex.from_first 123 (ws ++ 123 :: r) = 123 :: r.
Proof.
  induction 1 as [|c ws Hc _ IH]; simpl; [reflexivity|].
  destruct (N.eqb_spec c 123) as [->|_]; [discriminate | exact IH].
Qed.

Lemma through_last_ws_none ws : all_ws ws -> Regex.through_last 125 ws = None.
Proof.
  induction 1 as [|c ws Hc _ IH]; simpl; [reflexivity|].
  rewrite IH. destruct (N.eqb_spec c 125) as [->|_]; [discriminate | reflexivity].
Qed.

Lemma through_last_ws pre ws :
  all_ws ws -> Regex.through_last 125 (pre ++ 125 :: ws) = Some (pre ++ [125]).
Proof.
  intros H. induction pre as [|x pre IH]; simpl.
  - now rewrite through_last_ws_none.
  - now rewrite IH.
Qed.

(** On a text that is a JSON object the brace pattern matches the object
    without the white space around it, and the match parses to the same
    object. *)
Lemma parse_object_match text ms :
  parse text = Some (JObject ms) ->
  exists m, Regex.match_braces text = Some m /\ parse m = Some (JObject ms).
Proof.
  unfold parse. destruct (lex LIdle text) as [ts|] eqn:L; [|discriminate].
  intros R.
  destruct (run_object_first _ R) as (ts2 & ->).
  destruct (lex_first_brace _ L) as (ws & r & -> & Hws & Lr).
  assert (Hlast : last ts2 TComma = TRBrace).
  { destruct (run_object_last _ _ R) as [?|[q Hq]]; [discriminate|].
    destruct q as [|t q]; [discriminate|].
    inversion Hq; subst. now rewrite last_last. }
  destruct (lex_last_brace _ _ Lr Hlast) as (pre & ws2 & -> & Hws2 & Lpre).
  exists (123 :: pre ++ [125]). split.
  - unfold Regex.match_braces, Regex.match_delimited.
    rewrite from_first_ws by assumption.
    now rewrite through_last_ws.
  - change (lex LIdle (123 :: pre ++ [125]))
      with (match lex LIdle (pre ++ [125]) with
            | Some ts => Some ([TLBrace] ++ ts) | None => None end).
    rewrite Lpre. exact R.
Qed.

(** Whatever the brace pattern matches starts with an opening brace, so if it
    parses, it parses to an object. *)
Lemma match_braces_head text m :
  Regex.match_braces text = Some m -> exists r, m = 123 :: r.
Proof.
  unfold Regex.match_braces, Regex.match_delimited.
  assert (H : forall s x r, Regex.from_first 123 s = x :: r -> x = 123).
  { induction s as [|c s IH]; simpl; intros x r E; [discriminate|].
    destruct (N.eqb_spec c 123); [congruence | eauto]. }
  destruct (Regex.from_first 123 text) as [|x r] eqn:F; [discriminate|].
  apply H in F. subst.
  destruct (Regex.through_last 125 r); intros E; inversion E; eauto.
Qed.

Lemma parse_match_object text m v :
  Regex.match_braces text = Some m -> parse m = Some v ->
  exists ms, v = JObject ms.
Proof.
  intros M P. destruct (match_braces_head _ M) as (r & ->).
  unfold parse in P.
  change (lex LIdle (123 :: r))
    with (match lex LIdle r with
          | Some ts => Some ([TLBrace] ++ ts) | None => None end) in P.
  destruct (lex LIdle r) as [ts|]; [|discriminate].
  eapply run_first_brace; eauto.
Qed.

End JSONFacts.

(* ================================================================== *)
(** ** The Gemini policy checker: validation of the verdict *)
(* ================================================================== *)

Module PolicyCheckerFacts.

Import PolicyChecker.
Local Open Scope js_scope.

Lemma check_violation_ok v i :
  check_violation v i = Ok tt <-> violation_ok v = true.
Proof.
  unfold check_violation, violation_ok.
  destruct v as [| | | | |ms]; simpl; try (split; discriminate).
  destruct (truthy (obj_get (js "category") ms)); simpl;
    [|split; discriminate].
  destruct (truthy (obj_get (js "description") ms)); simpl;
    [|split; discriminate].
  destruct (severity_ok (obj_get (js "severity") ms)); split;
    solve [reflexivity | discriminate].
Qed.

Lemma forEach_ok vs : forall i,
  forEach vs i = Ok tt <-> forallb violation_ok vs = true.
Proof.
  induction vs as [|v r IH]; intros i; simpl; [tauto|].
  rewrite andb_true_iff, <- (check_violation_ok v i), <- (IH (S i)).
  destruct (check_violation v i) as [[]|e]; simpl.
  - tauto.
  - split; [discriminate | intros [H _]; discriminate].
Qed.

(** validateResponse accepts exactly the well-shaped verdicts. *)
Lemma validateResponse_ok r :
  validateResponse r = Ok tt <-> well_shaped r = true.
Proof.
  unfold validateResponse, well_shaped.
  destruct r as [|b|n|s|es|ms]; simpl; try (split; discriminate).
  - destruct (negb b || true) eqn:E; [split; discriminate|].
    rewrite orb_true_r in E. discriminate.
  - rewrite orb_true_r. split; discriminate.
  - rewrite orb_true_r. split; discriminate.
  - destruct (is_boolean (obj_get (js "violated") ms)); simpl;
      [|split; discriminate].
    destruct (obj_get (js "violations") ms) as [[| | | |vs|]|]; simpl;
      try (split; discriminate).
    apply forEach_ok.
Qed.

Lemma validateResponse_unit r u : validateResponse r = Ok u -> validateResponse r = Ok tt.
Proof. destruct u. auto. Qed.

(** What checkPolicy returns once the model has answered. *)
Lemma checkPolicy_responds w summary path st text :
  responds w summary path st text ->
  snd (checkPolicy w summary path st) =
  match (analysisResult <- parse_response text ;;
         validateResponse analysisResult ;;;
         Ok analysisResult) with
  | Ok a => MkResult true (Some a) None (now_iso w)
  | Throw e => MkResult false None (Some (emessage e)) (now_iso w)
  end.
Proof.
  intros (st1 & V & L & G). unfold checkPolicy.
  rewrite V, L. cbv zeta. rewrite G. simpl.
  destruct (parse_response text) as [a|e]; simpl; [|reflexivity].
  destruct (validateResponse a); reflexivity.
Qed.

(** A successful result carries a verdict that validateResponse accepted. *)
Lemma checkPolicy_success w summary path st :
  success (snd (checkPolicy w summary path st)) = true ->
  exists text parsed,
    responds w summary path st text
    /\ parse_response text = Ok parsed
    /\ well_shaped parsed = true
    /\ data (snd (checkPolicy w summary path st)) = Some parsed.
Proof.
  unfold checkPolicy, responds.
  destruct (validateInput summary) as [[]|e] eqn:V; simpl; try discriminate.
  - destruct (load_if_needed w path st) as [st1 [[]|e]] eqn:L; simpl;
      [|discriminate].
    destruct (generate w (prompt_for st1 summary)) as [text|e] eqn:G; simpl;
      [|discriminate].
    destruct (parse_response text) as [a|e] eqn:P; simpl; [|discriminate].
    destruct (validateResponse a) as [[]|e] eqn:R; simpl; [|discriminate].
    intros _. exists text, a. repeat split; eauto.
    now apply validateResponse_ok.
  - unfold validateInput in V.
    destruct summary as [[| | |[|c s]| |]|]; try discriminate.
    destruct (Nat.eqb _ 0); [discriminate|].
    destruct (_ <? _)%N; discriminate.
Qed.

(** The verdict is recovered from an object: what the brace pattern matches
    can only parse to one. *)
Lemma parse_response_object text parsed :
  parse_response text = Ok parsed -> exists ms, parsed = JObject ms.
Proof.
  unfold parse_response, JSON_parse.
  destruct (Regex.match_braces text) as [m|] eqn:M; simpl; [|discriminate].
  destruct (JSON.parse m) as [v|] eqn:P; simpl; [|discriminate].
  intros H; inversion H; subst.
  eapply JSONFacts.parse_match_object; eauto.
Qed.

End PolicyCheckerFacts.

(* ================================================================== *)
(** ** The summarizer: recovery of the analysis and its metadata *)
(* ================================================================== *)

Module SummarizerFacts.

Import Summarizer.
Local Open Scope js_scope.

Lemma recover_parsed text v : JSON.parse text = Some v -> recover text = v.
Proof. unfold recover, JSON_parse. now intros ->. Qed.

Lemma recover_fallback text :
  JSON.parse text = None ->
  (forall m, Regex.match_braces text = Some m -> JSON.parse m = None) ->
  recover text = fallback text.
Proof.
  unfold recover, JSON_parse. intros -> H.
  destruct (Regex.match_braces text) as [m|]; [|reflexivity].
  now rewrite (H m eq_refl).
Qed.

(** When the text itself is not JSON, what is recovered is an object: the one
    between the braces, or the fallback. *)
Lemma recover_object text :
  JSON.parse text = None -> exists ms, recover text = JObject ms.
Proof.
  unfold recover, JSON_parse. intros ->.
  destruct (Regex.match_braces text) as [m|] eqn:M; [|unfold fallback; eauto].
  destruct (JSON.parse m) as [v|] eqn:P; [|unfold fallback; eauto].
  eapply JSONFacts.parse_match_object; eauto.
Qed.

Lemma set_fileMetadata_get v meta d :
  set_fileMetadata v meta = Ok d -> data_get d (js "fileMetadata") = Some meta.
Proof.
  destruct v; simpl; intros H; inversion H; subst; simpl.
  - reflexivity.
  - apply JSFacts.obj_get_set_same.
Qed.

(** What analyzeMultimedia returns once the model has answered. *)
Lemma analyzeMultimedia_responds w filePath prompt text :
  responds w filePath prompt text ->
  analyzeMultimedia w filePath prompt =
  match set_fileMetadata (recover text)
          (fileMetadata_of w filePath (validateMultimediaFile w filePath)) with
  | Ok d => MkAnalysis true (Some d) None
  | Throw e =>
      MkAnalysis false None (Some (MkErrorInfo (emessage e) (now_iso w) (eclass e)))
  end.
Proof.
  intros (V & F & b64 & B & G). unfold analyzeMultimedia.
  rewrite V, F. simpl. rewrite B. simpl. rewrite G. simpl. reflexivity.
Qed.

(** A successful result: the file was validated and the model answered. *)
Lemma analyzeMultimedia_success w filePath prompt :
  success (analyzeMultimedia w filePath prompt) = true ->
  exists text d,
    responds w filePath prompt text
    /\ set_fileMetadata (recover text)
         (fileMetadata_of w filePath (validateMultimediaFile w filePath)) = Ok d
    /\ analyzeMultimedia w filePath prompt = MkAnalysis true (Some d) None.
Proof.
  unfold analyzeMultimedia, responds.
  destruct (validateInput filePath prompt) eqn:V; simpl; [discriminate|].
  destruct (valid (validateMultimediaFile w filePath)) eqn:F; simpl;
    [|discriminate].
  destruct (fileToBase64 w filePath) as [b64|e] eqn:B; simpl; [|discriminate].
  destruct (generateContent w _ b64 _) as [text|e] eqn:G; simpl; [|discriminate].
  destruct (set_fileMetadata (recover text) _) as [d|e] eqn:S; simpl;
    [|discriminate].
  intros _. exists text, d. repeat split; eauto.
Qed.

(** The validation of the file looks at the file only. *)
Lemma validateMultimediaFile_same_file w1 w2 filePath :
  same_file w1 w2 filePath ->
  validateMultimediaFile w1 filePath = validateMultimediaFile w2 filePath.
Proof.
  intros (E & S & M & _). unfold validateMultimediaFile.
  now rewrite E, S, M.
Qed.

End SummarizerFacts.

(* ================================================================== *)
(** ** The dynamic checker: the cache and its callers *)
(* ================================================================== *)

Module DynamicCheckerFacts.

Import DynamicChecker.
Local Open Scope js_scope.

Lemma getPolicies_hit w st :
  truthy (Some (cachedPolicies st)) = true ->
  getPolicies w st = (st, Ok (cachedPolicies st)).
Proof. unfold getPolicies. now intros ->. Qed.

(** A call that returns a policy set either found it in the cache, or made one
    request to the page and one to the model and stored what it got. *)
Lemma getPolicies_ok w st st1 v :
  getPolicies w st = (st1, Ok v) ->
  (truthy (Some (cachedPolicies st)) = true /\ st1 = st /\ v = cachedPolicies st)
  \/ (truthy (Some (cachedPolicies st)) = false
      /\ st1 = MkState v (S (http_calls st)) (S (llm_calls st))).
Proof.
  unfold getPolicies.
  destruct (truthy (Some (cachedPolicies st))) eqn:T.
  - intros H; inversion H; subst. now left.
  - unfold fetchMetaPolicies, extractPoliciesWithClaude. simpl.
    destruct (try_catch (http_get w (http_calls st)) _) as [html|e];
      [|discriminate].
    destruct (try_catch _ _) as [p|e]; [|discriminate].
    intros H; inversion H; subst. now right.
Qed.

(** One caller, run to its end, is the sequential getPolicies. *)
Lemma run_single_caller w st :
  run w (MkSystem st [NotCalled]) [Call 0; Resume 0; Resume 0]
  = MkSystem (fst (getPolicies w st)) [Returned (snd (getPolicies w st))].
Proof.
  unfold run, getPolicies, step, call_step.
  cbn [fold_left nth_error tasks checker].
  destruct (truthy (Some (cachedPolicies st))) eqn:T; [reflexivity|].
  cbn [set_task firstn skipn app nth_error tasks checker resume_step].
  unfold fetchMetaPolicies, extractPoliciesWithClaude.
  cbn [cachedPolicies http_calls llm_calls].
  destruct (http_get w (http_calls st)) as [html|e]; cbn; [|reflexivity].
  destruct (messages_create w (llm_calls st) _) as [text|e]; cbn; [|reflexivity].
  destruct (parse_policies text) as [p|e]; reflexivity.
Qed.

(** Once every caller has called, later events make no request to the page. *)
Lemma set_task_called t : forall i ts,
  called t -> Forall called ts -> Forall called (set_task i t ts).
Proof.
  unfold set_task.
  induction i as [|i IH]; intros [|x r] Ht H; simpl;
    try (constructor; [exact Ht | constructor]).
  - inversion H; subst. constructor; assumption.
  - inversion H; subst. constructor; [assumption|].
    now apply IH.
Qed.

Lemma resume_step_called w t st :
  called t ->
  called (snd (resume_step w t st))
  /\ http_calls (fst (resume_step w t st)) = http_calls st.
Proof.
  unfold called. destruct t as [|n|n p|r]; simpl; intros H.
  - congruence.
  - destruct (http_get w n); simpl; split; solve [discriminate | reflexivity].
  - destruct (try_catch _ _); simpl; split; solve [discriminate | reflexivity].
  - split; [discriminate | reflexivity].
Qed.

Lemma step_called w s e :
  Forall called (tasks s) ->
  Forall called (tasks (step w s e))
  /\ http_calls (checker (step w s e)) = http_calls (checker s).
Proof.
  intros H. destruct e as [i|i]; simpl.
  - destruct (nth_error (tasks s) i) as [t|] eqn:E; [|now split].
    destruct t; try now split.
    apply nth_error_In in E. rewrite Forall_forall in H.
    now specialize (H _ E).
  - destruct (nth_error (tasks s) i) as [t|] eqn:E; [|now split].
    assert (Ht : called t).
    { apply nth_error_In in E. rewrite Forall_forall in H. now apply H. }
    destruct (resume_step_called w (checker s) Ht) as [C K].
    destruct (resume_step w t (checker s)) as [st' t']. simpl in *.
    split; [now apply set_task_called | exact K].
Qed.

Lemma run_called w sched : forall s,
  Forall called (tasks s) ->
  http_calls (checker (run w s sched)) = http_calls (checker s).
Proof.
  unfold run. induction sched as [|e r IH]; intros s H; simpl; [reflexivity|].
  destruct (step_called w s e H) as [C K].
  rewrite IH by exact C. exact K.
Qed.

End DynamicCheckerFacts.

(* ================================================================== *)
(** ** Properties of the pipeline *)
(* ================================================================== *)

Import Examples.

(** *** The verdict of the compliance evaluator *)

(** C1, as amended.  For every model response that checkPolicy accepts, the
    verdict returned has a boolean [violated] and an array [violations]; and
    every response that is an object with a boolean [violated] and an array
    [violations] of well-formed entries is accepted, whatever the boolean and
    whether or not the array is empty: the code does not tie the two. *)
Theorem accepted_verdict_boolean_and_array
        w summary path st text :
  PolicyChecker.responds w summary path st text ->
  let r := snd (PolicyChecker.checkPolicy w summary path st) in
  (PolicyChecker.success r = true ->
   exists ms b vs,
     PolicyChecker.data r = Some (JObject ms)
     /\ obj_get (js "violated") ms = Some (JBool b)
     /\ obj_get (js "violations") ms = Some (JArray vs))
  /\ (forall ms b vs,
        PolicyChecker.parse_response text = Ok (JObject ms) ->
        obj_get (js "violated") ms = Some (JBool b) ->
        obj_get (js "violations") ms = Some (JArray vs) ->
        forallb PolicyChecker.violation_ok vs = true ->
        PolicyChecker.success r = true
        /\ PolicyChecker.data r = Some (JObject ms)).
Proof.
  intros R r. split.
  - intros S.
    destruct (PolicyCheckerFacts.checkPolicy_success _ _ _ _ S)
      as (text' & parsed & _ & P & W & D).
    destruct (PolicyCheckerFacts.parse_response_object _ P) as (ms & ->).
    unfold PolicyChecker.well_shaped in W. simpl in W.
    apply andb_true_iff in W. destruct W as [B A].
    destruct (obj_get (js "violated") ms) as [[|b| | | |]|] eqn:Eb;
      try discriminate.
    destruct (obj_get (js "violations") ms) as [[| | | |vs|]|] eqn:Ev;
      try discriminate.
    exists ms, b, vs. auto.
  - intros ms b vs P Eb Ev F. subst r.
    rewrite (PolicyCheckerFacts.checkPolicy_responds R), P. simpl.
    assert (V : PolicyChecker.validateResponse (JObject ms) = Ok tt).
    { apply PolicyCheckerFacts.validateResponse_ok.
      unfold PolicyChecker.well_shaped. simpl. now rewrite Eb, Ev. }
    rewrite V. simpl. auto.
Qed.

(** The violating verdict of scenario B, on a checker whose policy is loaded. *)
Lemma accepted_verdict_boolean_and_array_witness :
  PolicyChecker.responds (checker_world verdict_violating) ad_summary None
                         (Some policy_text) verdict_violating
  /\ exists ms b vs,
       PolicyChecker.data
         (snd (PolicyChecker.checkPolicy (checker_world verdict_violating)
                 ad_summary None (Some policy_text))) = Some (JObject ms)
       /\ obj_get (js "violated") ms = Some (JBool b)
       /\ obj_get (js "violations") ms = Some (JArray vs).
Proof.
  assert (R : PolicyChecker.responds (checker_world verdict_violating) ad_summary
                None (Some policy_text) verdict_violating).
  { exists (Some policy_text). repeat split; reflexivity. }
  split; [exact R|].
  apply (proj1 (accepted_verdict_boolean_and_array R)).
  vm_compute. reflexivity.
Defined.

(** C1, as stated, fails: checkPolicy accepts a verdict with violated=false
    and one violation, and a verdict with violated=true and none. *)
Lemma verdict_consistency_not_enforced :
  let r1 := snd (PolicyChecker.checkPolicy
                   (checker_world verdict_false_with_violation)
                   ad_summary None (Some policy_text)) in
  let r2 := snd (PolicyChecker.checkPolicy
                   (checker_world verdict_true_without_violation)
                   ad_summary None (Some policy_text)) in
  (PolicyChecker.success r1 = true
   /\ field (PolicyChecker.data r1) (js "violated") = Some (JBool false)
   /\ exists v vs, field (PolicyChecker.data r1) (js "violations")
                   = Some (JArray (v :: vs)))
  /\ (PolicyChecker.success r2 = true
      /\ field (PolicyChecker.data r2) (js "violated") = Some (JBool true)
      /\ field (PolicyChecker.data r2) (js "violations") = Some (JArray [])).
Proof.
  vm_compute. repeat split; eauto.
Qed.

(** C8.  Once the verdict has been parsed, checkPolicy succeeds exactly when
    it is well shaped ([violated] a boolean, [violations] an array, every
    entry with a truthy category and description and a severity among high,
    medium and low), and then returns it; any other shape is a failure with an
    error message. *)
Theorem checkPolicy_succeeds_iff_well_shaped
        w summary path st text parsed :
  PolicyChecker.responds w summary path st text ->
  PolicyChecker.parse_response text = Ok parsed ->
  let r := snd (PolicyChecker.checkPolicy w summary path st) in
  (PolicyChecker.success r = true <-> PolicyChecker.well_shaped parsed = true)
  /\ (PolicyChecker.well_shaped parsed = true ->
      PolicyChecker.data r = Some parsed)
  /\ (PolicyChecker.well_shaped parsed = false ->
      exists m, PolicyChecker.error r = Some m).
Proof.
  intros R P r. subst r.
  rewrite (PolicyCheckerFacts.checkPolicy_responds R), P. simpl.
  destruct (PolicyChecker.validateResponse parsed) as [[]|e] eqn:V; simpl.
  - apply PolicyCheckerFacts.validateResponse_ok in V. rewrite V.
    repeat split; auto; discriminate.
  - assert (W : PolicyChecker.well_shaped parsed = false).
    { destruct (PolicyChecker.well_shaped parsed) eqn:W; [|reflexivity].
      apply PolicyCheckerFacts.validateResponse_ok in W. congruence. }
    rewrite W. repeat split; try discriminate; eauto.
Qed.

(** A verdict whose only violation has the severity 'critical' is refused. *)
Lemma checkPolicy_succeeds_iff_well_shaped_witness :
  PolicyChecker.responds (checker_world verdict_bad_severity) ad_summary None
                         (Some policy_text) verdict_bad_severity
  /\ (exists parsed,
        PolicyChecker.parse_response verdict_bad_severity = Ok parsed
        /\ PolicyChecker.well_shaped parsed = false)
  /\ exists m,
       PolicyChecker.error
         (snd (PolicyChecker.checkPolicy (checker_world verdict_bad_severity)
                 ad_summary None (Some policy_text))) = Some m.
Proof.
  assert (R : PolicyChecker.responds (checker_world verdict_bad_severity) ad_summary
                None (Some policy_text) verdict_bad_severity).
  { exists (Some policy_text). repeat split; reflexivity. }
  split; [exact R|].
  destruct (PolicyChecker.parse_response verdict_bad_severity) as [parsed|e] eqn:P;
    [|vm_compute in P; discriminate].
  assert (W : PolicyChecker.well_shaped parsed = false).
  { vm_compute in P. inversion P. vm_compute. reflexivity. }
  split; [exists parsed; split; [reflexivity | exact W]|].
  exact (proj2 (proj2 (checkPolicy_succeeds_iff_well_shaped R P)) W).
Defined.

(** *** Round trip of well-formed responses *)

(** C5.  When the whole response text is a JSON object, analyzeMultimedia
    returns its summary and keyPoints as they are, and checkPolicy, when the
    object has the shape of a verdict, returns the object itself, hence its
    violated, violations and reasoning as they are. *)
Theorem well_formed_response_round_trips :
  (forall w filePath prompt text ms,
      Summarizer.responds w filePath prompt text ->
      JSON.parse text = Some (JObject ms) ->
      exists d,
        Summarizer.analyzeMultimedia w filePath prompt
        = Summarizer.MkAnalysis true (Some d) None
        /\ Summarizer.data_get d (js "summary") = obj_get (js "summary") ms
        /\ Summarizer.data_get d (js "keyPoints") = obj_get (js "keyPoints") ms)
  /\ (forall w summary path st text ms,
         PolicyChecker.responds w summary path st text ->
         JSON.parse text = Some (JObject ms) ->
         PolicyChecker.well_shaped (JObject ms) = true ->
         let r := snd (PolicyChecker.checkPolicy w summary path st) in
         PolicyChecker.success r = true
         /\ PolicyChecker.data r = Some (JObject ms)
         /\ forall k, field (PolicyChecker.data r) k = obj_get k ms).
Proof.
  split.
  - intros w filePath prompt text ms R P.
    rewrite (SummarizerFacts.analyzeMultimedia_responds R).
    rewrite (SummarizerFacts.recover_parsed _ P). simpl.
    eexists. split; [reflexivity|].
    split; apply JSFacts.obj_get_set_other; vm_compute; discriminate.
  - intros w summary path st text ms R P W r. subst r.
    rewrite (PolicyCheckerFacts.checkPolicy_responds R).
    destruct (JSONFacts.parse_object_match _ P) as (m & M & Pm).
    unfold PolicyChecker.parse_response, JSON_parse. rewrite M, Pm. simpl.
    apply PolicyCheckerFacts.validateResponse_ok in W. rewrite W. simpl.
    auto.
Qed.

(** A structured analysis of a video, and the violating verdict. *)
Lemma well_formed_response_round_trips_witness :
  (Summarizer.responds (summarizer_world analysis_text) media_path media_prompt
                       analysis_text
   /\ exists ms, JSON.parse analysis_text = Some (JObject ms)
      /\ exists d,
          Summarizer.analyzeMultimedia (summarizer_world analysis_text)
                                       media_path media_prompt
          = Summarizer.MkAnalysis true (Some d) None
          /\ Summarizer.data_get d (js "summary") = obj_get (js "summary") ms)
  /\ (PolicyChecker.responds (checker_world verdict_violating) ad_summary None
                             (Some policy_text) verdict_violating
      /\ exists ms, JSON.parse verdict_violating = Some (JObject ms)
         /\ PolicyChecker.well_shaped (JObject ms) = true
         /\ PolicyChecker.data
              (snd (PolicyChecker.checkPolicy (checker_world verdict_violating)
                      ad_summary None (Some policy_text)))
            = Some (JObject ms)).
Proof.
  split.
  - assert (R : Summarizer.responds (summarizer_world analysis_text) media_path
                  media_prompt analysis_text).
    { split; [reflexivity|]. split; [vm_compute; reflexivity|].
      exists (js "AAAA"). split; reflexivity. }
    split; [exact R|].
    destruct (JSON.parse analysis_text) as [[| | | | |ms]|] eqn:P;
      try (vm_compute in P; discriminate).
    exists ms. split; [reflexivity|].
    destruct (proj1 well_formed_response_round_trips _ _ _ _ _ R P)
      as (d & E & S & _).
    exists d. split; [exact E | exact S].
  - assert (R : PolicyChecker.responds (checker_world verdict_violating) ad_summary
                  None (Some policy_text) verdict_violating).
    { exists (Some policy_text). repeat split; reflexivity. }
    split; [exact R|].
    destruct (JSON.parse verdict_violating) as [[| | | | |ms]|] eqn:P;
      try (vm_compute in P; discriminate).
    assert (W : PolicyChecker.well_shaped (JObject ms) = true).
    { vm_compute in P. inversion P. vm_compute. reflexivity. }
    exists ms. split; [reflexivity|]. split; [exact W|].
    exact (proj1 (proj2 (proj2 well_formed_response_round_trips _ _ _ _ _ _ R P W))).
Defined.

(** *** Responses that are not JSON *)

(** C3.  Once the model has answered, a text that JSON.parse rejects never
    makes analyzeMultimedia fail; and when what lies between the first opening
    and the last closing brace is rejected too, or there is no such piece, the
    result is a success whose summary is the trimmed text and whose keyPoints
    is the single sentinel entry. *)
Theorem unparseable_response_degrades w filePath prompt text :
  Summarizer.responds w filePath prompt text ->
  JSON.parse text = None ->
  Summarizer.success (Summarizer.analyzeMultimedia w filePath prompt) = true
  /\ ((forall m, Regex.match_braces text = Some m -> JSON.parse m = None) ->
      exists d,
        Summarizer.analyzeMultimedia w filePath prompt
        = Summarizer.MkAnalysis true (Some d) None
        /\ Summarizer.data_get d (js "summary") = Some (JString (trim text))
        /\ Summarizer.data_get d (js "keyPoints")
           = Some (JArray [JString (js "Raw analysis response provided")])).
Proof.
  intros R P.
  rewrite (SummarizerFacts.analyzeMultimedia_responds R).
  split.
  - destruct (SummarizerFacts.recover_object _ P) as (ms & ->). reflexivity.
  - intros H. rewrite (SummarizerFacts.recover_fallback _ P H).
    eexists. split; [reflexivity|]. split; reflexivity.
Qed.

(** The model answers N/A. *)
Lemma unparseable_response_degrades_witness :
  Summarizer.responds (summarizer_world not_json) media_path media_prompt not_json
  /\ JSON.parse not_json = None
  /\ Summarizer.success
       (Summarizer.analyzeMultimedia (summarizer_world not_json)
                                     media_path media_prompt) = true.
Proof.
  assert (R : Summarizer.responds (summarizer_world not_json) media_path
                media_prompt not_json).
  { split; [reflexivity|]. split; [vm_compute; reflexivity|].
    exists (js "AAAA"). split; reflexivity. }
  assert (P : JSON.parse not_json = None) by (vm_compute; reflexivity).
  split; [exact R|]. split; [exact P|].
  exact (proj1 (unparseable_response_degrades R P)).
Defined.

(** Pieces of a text: the text itself, and what the brace pattern matches. *)
Lemma nil_in_prefixes s : In [] (JSON.prefixes s).
Proof. destruct s; simpl; auto. Qed.

Lemma self_in_prefixes s : In s (JSON.prefixes s).
Proof.
  induction s as [|c r IH]; simpl; [auto|].
  right. now apply in_map.
Qed.

Lemma prefixes_in_segments s p : In p (JSON.prefixes s) -> In p (JSON.segments s).
Proof.
  destruct s as [|c r]; simpl; [auto|].
  intros [H|H]; [now left|].
  right. apply in_or_app. now left.
Qed.

Lemma through_last_prefix c r : forall p,
  Regex.through_last c r = Some p -> In p (JSON.prefixes r).
Proof.
  induction r as [|x r IH]; simpl; intros p H; [discriminate|].
  destruct (Regex.through_last c r) as [q|].
  - inversion H; subst. right. apply in_map. now apply IH.
  - destruct (x =? c)%N; inversion H; subst.
    right. apply in_map. apply nil_in_prefixes.
Qed.

Lemma from_first_segments o p : forall s,
  In p (JSON.segments (Regex.from_first o s)) -> In p (JSON.segments s).
Proof.
  induction s as [|c r IH]; [auto|].
  cbn [Regex.from_first]. destruct (c =? o)%N; [auto|].
  intros H. cbn [JSON.segments]. apply in_or_app. right. now apply IH.
Qed.

Lemma match_in_segments o c text m :
  Regex.match_delimited o c text = Some m -> In m (JSON.segments text).
Proof.
  unfold Regex.match_delimited.
  destruct (Regex.from_first o text) as [|x r] eqn:F; [discriminate|].
  destruct (Regex.through_last c r) as [p|] eqn:T; [|discriminate].
  intros H; inversion H; subst.
  apply (from_first_segments o). rewrite F.
  apply prefixes_in_segments. simpl. right.
  apply in_map. eapply through_last_prefix; eauto.
Qed.

Lemma no_json_in_text text : JSON.no_json_in text -> JSON.parse text = None.
Proof.
  unfold JSON.no_json_in. rewrite Forall_forall. intros H. apply H.
  apply prefixes_in_segments, self_in_prefixes.
Qed.

Lemma no_json_in_match text m :
  JSON.no_json_in text -> Regex.match_braces text = Some m -> JSON.parse m = None.
Proof.
  unfold JSON.no_json_in. rewrite Forall_forall. intros H M. apply H.
  eapply match_in_segments; eauto.
Qed.

(** C4.  When no piece of the model's response is JSON, the evaluation fails:
    checkPolicy returns success=false with an error message and no verdict,
    and checkCompliance throws.  Neither makes up a verdict. *)
Theorem unrecoverable_verdict_fails :
  (forall w summary path st text,
      PolicyChecker.responds w summary path st text ->
      JSON.no_json_in text ->
      let r := snd (PolicyChecker.checkPolicy w summary path st) in
      PolicyChecker.success r = false
      /\ PolicyChecker.data r = None
      /\ exists m, PolicyChecker.error r = Some m)
  /\ (forall w adSummary st text,
         DynamicChecker.responds w adSummary st text ->
         JSON.no_json_in text ->
         exists e, snd (DynamicChecker.checkCompliance w adSummary st) = Throw e).
Proof.
  split.
  - intros w summary path st text R N r. subst r.
    rewrite (PolicyCheckerFacts.checkPolicy_responds R).
    unfold PolicyChecker.parse_response, JSON_parse.
    destruct (Regex.match_braces text) as [m|] eqn:M; simpl.
    + rewrite (no_json_in_match N M). simpl. eauto.
    + eauto.
  - intros w adSummary st text (c & s & st1 & policies & -> & G & T) N.
    unfold DynamicChecker.checkCompliance. rewrite G, T. simpl.
    unfold DynamicChecker.parse_compliance, JSON_parse.
    rewrite (no_json_in_text N). simpl.
    destruct (Regex.match_braces text) as [m|] eqn:M; simpl.
    + rewrite (no_json_in_match N M). simpl. eauto.
    + eauto.
Qed.

(** The model answers N/A to the evaluation prompt, in both checkers. *)
Lemma unrecoverable_verdict_fails_witness :
  (PolicyChecker.responds (checker_world not_json) ad_summary None
                          (Some policy_text) not_json
   /\ JSON.no_json_in not_json
   /\ PolicyChecker.success
        (snd (PolicyChecker.checkPolicy (checker_world not_json) ad_summary None
                (Some policy_text))) = false)
  /\ (DynamicChecker.responds (dynamic_world policies_a not_json) ad_summary
                              DynamicChecker.new_checker not_json
      /\ exists e,
          snd (DynamicChecker.checkCompliance (dynamic_world policies_a not_json)
                 ad_summary DynamicChecker.new_checker) = Throw e).
Proof.
  assert (N : JSON.no_json_in not_json).
  { unfold JSON.no_json_in. vm_compute. repeat constructor. }
  split.
  - assert (R : PolicyChecker.responds (checker_world not_json) ad_summary None
                  (Some policy_text) not_json).
    { exists (Some policy_text). repeat split; reflexivity. }
    split; [exact R|]. split; [exact N|].
    exact (proj1 (proj1 unrecoverable_verdict_fails _ _ _ _ _ R N)).
  - assert (R : DynamicChecker.responds (dynamic_world policies_a not_json)
                  ad_summary DynamicChecker.new_checker not_json).
    { unfold DynamicChecker.responds, ad_summary.
      eexists _, _, _, _. split; [reflexivity|].
      split; [vm_compute; reflexivity | reflexivity]. }
    split; [exact R|].
    exact (proj2 unrecoverable_verdict_fails _ _ _ _ R N).
Defined.

(** *** The metadata of an analysis *)

(** C9.  In every successful result the fileName, fileSize, mimeType and
    mediaType of fileMetadata are the base name of the path and the size, MIME
    type and media kind found when the file was validated; two runs on worlds
    that show the same file, whatever their models answer, agree on the four
    fields. *)
Theorem fileMetadata_independent_of_model w1 w2 filePath prompt d1 d2 :
  Summarizer.same_file w1 w2 filePath ->
  Summarizer.analyzeMultimedia w1 filePath prompt
  = Summarizer.MkAnalysis true (Some d1) None ->
  Summarizer.analyzeMultimedia w2 filePath prompt
  = Summarizer.MkAnalysis true (Some d2) None ->
  let fv := Summarizer.validateMultimediaFile w1 filePath in
  Summarizer.metadata d1 (js "fileName")
  = Some (JString (Summarizer.basename w1 filePath))
  /\ Summarizer.metadata d1 (js "fileSize")
     = Some (JNumber (Num false (Summarizer.v_size fv) 0))
  /\ Summarizer.metadata d1 (js "mimeType")
     = Some (JString (Summarizer.v_mimeType fv))
  /\ Summarizer.metadata d1 (js "mediaType")
     = Some (JString (Summarizer.v_mediaType fv))
  /\ forall k,
       In k [js "fileName"; js "fileSize"; js "mimeType"; js "mediaType"] ->
       Summarizer.metadata d1 k = Summarizer.metadata d2 k.
Proof.
  intros Same A1 A2 fv.
  assert (M : forall w d,
             Summarizer.analyzeMultimedia w filePath prompt
             = Summarizer.MkAnalysis true (Some d) None ->
             Summarizer.data_get d (js "fileMetadata")
             = Some (Summarizer.fileMetadata_of w filePath
                       (Summarizer.validateMultimediaFile w filePath))).
  { intros w d A.
    assert (S : Summarizer.success (Summarizer.analyzeMultimedia w filePath prompt)
                = true) by now rewrite A.
    destruct (SummarizerFacts.analyzeMultimedia_success _ _ _ S)
      as (text & d' & _ & Set' & A').
    rewrite A in A'. inversion A'; subst d'.
    eapply SummarizerFacts.set_fileMetadata_get; eauto. }
  unfold Summarizer.metadata.
  rewrite (M _ _ A1), (M _ _ A2).
  rewrite <- (SummarizerFacts.validateMultimediaFile_same_file Same).
  destruct Same as (_ & _ & _ & B). fold fv.
  unfold Summarizer.fileMetadata_of. rewrite <- B.
  repeat split.
  intros k [<-|[<-|[<-|[<-|[]]]]]; reflexivity.
Qed.

(** The same video, analysed once with a structured answer and once with N/A. *)
Lemma fileMetadata_independent_of_model_witness :
  Summarizer.same_file (summarizer_world analysis_text) (summarizer_world not_json)
                       media_path
  /\ exists d1 d2,
       Summarizer.analyzeMultimedia (summarizer_world analysis_text)
                                    media_path media_prompt
       = Summarizer.MkAnalysis true (Some d1) None
       /\ Summarizer.analyzeMultimedia (summarizer_world not_json)
                                       media_path media_prompt
          = Summarizer.MkAnalysis true (Some d2) None
       /\ Summarizer.metadata d1 (js "fileName") = Some (JString (js "clip.mp4"))
       /\ Summarizer.metadata d1 (js "mimeType")
          = Summarizer.metadata d2 (js "mimeType").
Proof.
  assert (Same : Summarizer.same_file (summarizer_world analysis_text)
                   (summarizer_world not_json) media_path).
  { repeat split. }
  split; [exact Same|].
  destruct (Summarizer.analyzeMultimedia (summarizer_world analysis_text)
              media_path media_prompt) as [[|] [d1|] [e1|]] eqn:A1;
    try (vm_compute in A1; discriminate).
  destruct (Summarizer.analyzeMultimedia (summarizer_world not_json)
              media_path media_prompt) as [[|] [d2|] [e2|]] eqn:A2;
    try (vm_compute in A2; discriminate).
  exists d1, d2. split; [reflexivity|]. split; [reflexivity|].
  destruct (@fileMetadata_independent_of_model _ _ _ _ _ _ Same A1 A2)
    as (N & _ & _ & _ & K).
  split; [exact N|].
  apply K. simpl. auto.
Defined.

(** *** The policy cache *)

(** C6.  When a call of getPolicies returns a policy set, the next call on the
    same checker returns the same set and leaves the checker as it is, so it
    makes no request to the policy page or to the model; the two calls
    together make at most one request to each. *)
Theorem getPolicies_memoizes w st st1 v :
  DynamicChecker.getPolicies w st = (st1, Ok v) ->
  DynamicChecker.is_policy_set v ->
  DynamicChecker.getPolicies w st1 = (st1, Ok v)
  /\ DynamicChecker.http_calls st1 <= S (DynamicChecker.http_calls st)
  /\ DynamicChecker.llm_calls st1 <= S (DynamicChecker.llm_calls st).
Proof.
  intros G (items & ->).
  destruct (DynamicCheckerFacts.getPolicies_ok _ _ G) as [(T & -> & E)|(T & ->)].
  - rewrite E. split; [now apply DynamicCheckerFacts.getPolicies_hit|].
    split; lia.
  - split; [now apply DynamicCheckerFacts.getPolicies_hit|].
    simpl. split; lia.
Qed.

(** A new checker, the page served and one policy extracted. *)
Lemma getPolicies_memoizes_witness :
  exists st1 v,
    DynamicChecker.getPolicies (dynamic_world policies_a policies_b)
                               DynamicChecker.new_checker = (st1, Ok v)
    /\ DynamicChecker.is_policy_set v
    /\ DynamicChecker.getPolicies (dynamic_world policies_a policies_b) st1
       = (st1, Ok v)
    /\ DynamicChecker.http_calls st1 = 1
    /\ DynamicChecker.llm_calls st1 = 1.
Proof.
  destruct (DynamicChecker.getPolicies (dynamic_world policies_a policies_b)
              DynamicChecker.new_checker) as [st1 [v|e]] eqn:G;
    [|vm_compute in G; discriminate].
  assert (P : DynamicChecker.is_policy_set v).
  { vm_compute in G. inversion G. eexists. reflexivity. }
  exists st1, v. split; [reflexivity|]. split; [exact P|].
  split; [exact (proj1 (getPolicies_memoizes _ _ G P))|].
  vm_compute in G. inversion G. split; reflexivity.
Defined.

(** C7, as amended.  Two callers that call getPolicies while nothing is cached
    each make their own request to the policy page: two requests, and no
    later event adds or removes one; when both pages arrive, each caller makes
    its own request to the model.  The calls are not coalesced. *)
Theorem concurrent_misses_each_fetch w st :
  truthy (Some (DynamicChecker.cachedPolicies st)) = false ->
  let s2 := DynamicChecker.run w
              (DynamicChecker.MkSystem
                 st [DynamicChecker.NotCalled; DynamicChecker.NotCalled])
              [DynamicChecker.Call 0; DynamicChecker.Call 1] in
  DynamicChecker.tasks s2
  = [DynamicChecker.AwaitFetch (DynamicChecker.http_calls st);
     DynamicChecker.AwaitFetch (S (DynamicChecker.http_calls st))]
  /\ (forall sched,
        DynamicChecker.http_calls (DynamicChecker.checker (DynamicChecker.run w s2 sched))
        = 2 + DynamicChecker.http_calls st)
  /\ (forall h0 h1,
        DynamicChecker.http_get w (DynamicChecker.http_calls st) = Ok h0 ->
        DynamicChecker.http_get w (S (DynamicChecker.http_calls st)) = Ok h1 ->
        let s4 := DynamicChecker.run w s2
                    [DynamicChecker.Resume 0; DynamicChecker.Resume 1] in
        DynamicChecker.tasks s4
        = [DynamicChecker.AwaitExtract (DynamicChecker.llm_calls st)
             (DynamicChecker.extraction_prompt
                (DynamicChecker.extractTextFromHtml w h0));
           DynamicChecker.AwaitExtract (S (DynamicChecker.llm_calls st))
             (DynamicChecker.extraction_prompt
                (DynamicChecker.extractTextFromHtml w h1))]
        /\ DynamicChecker.llm_calls (DynamicChecker.checker s4)
           = 2 + DynamicChecker.llm_calls st).
Proof.
  intros T s2.
  assert (E : s2 = DynamicChecker.MkSystem
                     (DynamicChecker.MkState (DynamicChecker.cachedPolicies st)
                        (2 + DynamicChecker.http_calls st)
                        (DynamicChecker.llm_calls st))
                     [DynamicChecker.AwaitFetch (DynamicChecker.http_calls st);
                      DynamicChecker.AwaitFetch (S (DynamicChecker.http_calls st))]).
  { subst s2. unfold DynamicChecker.run, DynamicChecker.step, DynamicChecker.call_step.
    cbn [fold_left nth_error DynamicChecker.tasks DynamicChecker.checker].
    rewrite T.
    cbn [fold_left nth_error DynamicChecker.tasks DynamicChecker.checker
         DynamicChecker.set_task firstn skipn app
         DynamicChecker.cachedPolicies DynamicChecker.http_calls
         DynamicChecker.llm_calls].
    rewrite T. reflexivity. }
  rewrite E. split; [reflexivity|]. split.
  - intros sched. rewrite DynamicCheckerFacts.run_called; [reflexivity|].
    repeat constructor; discriminate.
  - intros h0 h1 H0 H1. unfold DynamicChecker.run, DynamicChecker.step.
    cbn [fold_left nth_error DynamicChecker.tasks DynamicChecker.checker
         DynamicChecker.resume_step].
    rewrite H0.
    cbn [fold_left nth_error DynamicChecker.tasks DynamicChecker.checker
         DynamicChecker.set_task firstn skipn app DynamicChecker.resume_step
         DynamicChecker.cachedPolicies DynamicChecker.http_calls
         DynamicChecker.llm_calls].
    rewrite H1. split; reflexivity.
Qed.

(** Two callers of a new checker, the second resumed first. *)
Lemma concurrent_misses_each_fetch_witness :
  truthy (Some (DynamicChecker.cachedPolicies DynamicChecker.new_checker)) = false
  /\ DynamicChecker.http_calls
       (DynamicChecker.checker
          (DynamicChecker.run (dynamic_world policies_a policies_b)
             (DynamicChecker.MkSystem DynamicChecker.new_checker
                [DynamicChecker.NotCalled; DynamicChecker.NotCalled])
             ([DynamicChecker.Call 0; DynamicChecker.Call 1]
              ++ [DynamicChecker.Resume 1; DynamicChecker.Resume 0]))) = 2.
Proof.
  split; [reflexivity|].
  unfold DynamicChecker.run. rewrite fold_left_app.
  exact (proj1 (proj2 (@concurrent_misses_each_fetch
                         (dynamic_world policies_a policies_b)
                         DynamicChecker.new_checker eq_refl))
               [DynamicChecker.Resume 1; DynamicChecker.Resume 0]).
Defined.

(** C7, as stated, fails: two concurrent callers of a new checker end with two
    requests to the policy page and two to the model, and with different
    policy sets. *)
Lemma concurrent_misses_not_coalesced :
  let s := DynamicChecker.run (dynamic_world policies_a policies_b)
             (DynamicChecker.MkSystem DynamicChecker.new_checker
                [DynamicChecker.NotCalled; DynamicChecker.NotCalled])
             [DynamicChecker.Call 0; DynamicChecker.Call 1;
              DynamicChecker.Resume 0; DynamicChecker.Resume 1;
              DynamicChecker.Resume 0; DynamicChecker.Resume 1] in
  DynamicChecker.http_calls (DynamicChecker.checker s) = 2
  /\ DynamicChecker.llm_calls (DynamicChecker.checker s) = 2
  /\ exists p0 p1,
       DynamicChecker.tasks s
       = [DynamicChecker.Returned (Ok p0); DynamicChecker.Returned (Ok p1)]
       /\ DynamicChecker.is_policy_set p0
       /\ DynamicChecker.is_policy_set p1
       /\ p0 <> p1.
Proof.
  vm_compute. split; [reflexivity|]. split; [reflexivity|].
  eexists _, _. split; [reflexivity|].
  split; [eexists; reflexivity|]. split; [eexists; reflexivity|].
  discriminate.
Qed.

(** *** The entry point of the dynamic checker *)

(** C10.  checkAdCompliance always returns a report.  When checkCompliance
    throws, the report is compliant=false, violatedPolicies=[] and details
    carrying the message of the error; when it returns what the model gave,
    compliant is false where the model left it out and violatedPolicies is []
    where the model left it out, and otherwise the report holds the model's
    fields, each replaced by its default when it is falsy. *)
Theorem checkAdCompliance_always_reports w adSummary st :
  exists report,
    snd (DynamicChecker.checkAdCompliance w adSummary st) = Ok report
    /\ (forall e,
          snd (DynamicChecker.checkCompliance w adSummary st) = Throw e ->
          report = DynamicChecker.MkReport (JBool false) (JArray [])
                     (DynamicChecker.ErrorDetails (emessage e)
                        (js "An error occurred while checking compliance")))
    /\ (forall result,
          snd (DynamicChecker.checkCompliance w adSummary st) = Ok result ->
          (field (Some result) (js "compliant") = None ->
           DynamicChecker.compliant report = JBool false)
          /\ (field (Some result) (js "violatedPolicies") = None ->
              DynamicChecker.violatedPolicies report = JArray [])
          /\ (result <> JNull ->
              report = DynamicChecker.MkReport
                         (DynamicChecker.or_else
                            (field (Some result) (js "compliant")) (JBool false))
                         (DynamicChecker.or_else
                            (field (Some result) (js "violatedPolicies")) (JArray []))
                         (DynamicChecker.Details
                            (DynamicChecker.or_else
                               (field (Some result) (js "details")) (JObject []))))).
Proof.
  unfold DynamicChecker.checkAdCompliance.
  destruct (DynamicChecker.checkCompliance w adSummary st) as [st1 [result|e]];
    simpl.
  - destruct result as [|b|n|s|es|ms]; simpl; eexists;
      (split; [reflexivity|]); (split; [discriminate|]);
      intros r H; inversion H; subst; clear H; simpl;
      repeat split; try reflexivity; try congruence.
    + now intros ->.
    + now intros ->.
  - eexists. split; [reflexivity|]. split.
    + intros e' H. inversion H; subst. reflexivity.
    + discriminate.
Qed.

(** The policy page cannot be reached. *)
Lemma checkAdCompliance_always_reports_witness :
  exists report e,
    snd (DynamicChecker.checkAdCompliance dynamic_world_offline ad_summary
           DynamicChecker.new_checker) = Ok report
    /\ snd (DynamicChecker.checkCompliance dynamic_world_offline ad_summary
              DynamicChecker.new_checker) = Throw e
    /\ DynamicChecker.compliant report = JBool false
    /\ DynamicChecker.violatedPolicies report = JArray [].
Proof.
  destruct (checkAdCompliance_always_reports dynamic_world_offline ad_summary
              DynamicChecker.new_checker) as (report & R & T & _).
  destruct (snd (DynamicChecker.checkCompliance dynamic_world_offline ad_summary
                   DynamicChecker.new_checker)) as [result|e] eqn:C;
    [vm_compute in C; discriminate|].
  exists report, e. split; [exact R|]. split; [reflexivity|].
  rewrite (T e eq_refl). split; reflexivity.
Defined.

(** *** The orchestrator *)

Lemma policy_fails_throws w d :
  Server.policy_fails w d -> exists e, Server.policy_stage w d = Throw e.
Proof.
  unfold Server.policy_fails, Server.policy_stage.
  destruct (PolicyChecker.loadPolicyFile _ _ _) as [st loaded]. simpl.
  intros [(e & ->)|(-> & S)]; simpl; [eauto|].
  destruct (PolicyChecker.checkPolicy _ _ _ _) as [st' r]. simpl in *.
  rewrite S. simpl. eauto.
Qed.

(** C2.  When summarization succeeds and the policy stage fails, the handler
    answers 201 with success=true, the analysis block built from the summary,
    key points and file metadata of the analysis, and a policyCheck block
    made of the error text 'Policy analysis failed' and the message of the
    failure. *)
Theorem policy_failure_is_absorbed w f d :
  Summarizer.analyzeMultimedia (Server.summarizer w) (Server.path f)
                               Server.analysisPrompt
  = Summarizer.MkAnalysis true (Some d) None ->
  Server.policy_fails w d ->
  exists details,
    Server.summarize w (Some f)
    = Server.MkResponse 201 true
        (Server.capitalize (Server.fileType_of w f)
         ++ js " analyzed successfully, but policy check failed")
        None None
        (Some (Server.file_info_of w f))
        (Some (Server.MkAnalysisBlock
                 (Summarizer.data_get d (js "summary"))
                 (Summarizer.data_get d (js "keyPoints"))
                 (Summarizer.data_get d (js "fileMetadata"))))
        (Some (Server.PolicyError (js "Policy analysis failed") details))
        (Some (Server.now_iso w)).
Proof.
  intros A F. destruct (policy_fails_throws F) as (e & P).
  exists (emessage e). unfold Server.summarize.
  rewrite A. simpl. rewrite P. reflexivity.
Qed.

(** Scenario D: the analysis succeeds and the evaluation request times out. *)
Lemma policy_failure_is_absorbed_witness :
  exists d details,
    Summarizer.analyzeMultimedia
      (Server.summarizer (server_world_timeout analysis_text))
      (Server.path upload0) Server.analysisPrompt
    = Summarizer.MkAnalysis true (Some d) None
    /\ Server.policy_fails (server_world_timeout analysis_text) d
    /\ Server.status (Server.summarize (server_world_timeout analysis_text)
                        (Some upload0)) = 201%N
    /\ Server.success (Server.summarize (server_world_timeout analysis_text)
                         (Some upload0)) = true
    /\ Server.policyCheck (Server.summarize (server_world_timeout analysis_text)
                             (Some upload0))
       = Some (Server.PolicyError (js "Policy analysis failed") details).
Proof.
  destruct (Summarizer.analyzeMultimedia
              (Server.summarizer (server_world_timeout analysis_text))
              (Server.path upload0) Server.analysisPrompt)
    as [[|] [d|] [e|]] eqn:A; try (vm_compute in A; discriminate).
  assert (F : Server.policy_fails (server_world_timeout analysis_text) d).
  { right. split; [reflexivity|].
    vm_compute in A. inversion A. vm_compute. reflexivity. }
  destruct (policy_failure_is_absorbed upload0 A F) as (details & R).
  exists d, details. split; [reflexivity|]. split; [exact F|].
  rewrite R. repeat split.
Defined.

(* ================================================================== *)
(** ** Further properties: the Gemini policy checker *)
(* ================================================================== *)

Lemma trim_nil : trim [] = [].
Proof. reflexivity. Qed.

Lemma trim_nonempty s : trim s <> [] -> s <> [].
Proof. intros H E. subst. now apply H. Qed.

(** X1.  On a checker that holds no policy, checkPolicy called without a
    policy path fails for every summary, leaves the checker as it is and never
    asks the model: loadPolicyFile receives null, for which the default path
    does not apply.  The helper checkMetaAdsPolicy called without a path
    therefore never succeeds. *)
Theorem checkPolicy_without_policy_fails w summary :
  (forall st,
      PolicyChecker.str_truthy st = false ->
      PolicyChecker.checkPolicy w summary None st
      = (st, PolicyChecker.MkResult false None
               (Some match PolicyChecker.validateInput summary with
                     | Throw e => emessage e
                     | Ok _ => [Lit (js "Failed to load policy file: ");
                                NativeText InvalidPathArgument]
                     end)
               (PolicyChecker.now_iso w)))
  /\ (forall apiKey r,
         PolicyChecker.checkMetaAdsPolicy w apiKey summary None = Ok r ->
         PolicyChecker.success r = false /\ PolicyChecker.data r = None).
Proof.
  assert (A : forall st,
             PolicyChecker.str_truthy st = false ->
             PolicyChecker.checkPolicy w summary None st
             = (st, PolicyChecker.MkResult false None
                      (Some match PolicyChecker.validateInput summary with
                            | Throw e => emessage e
                            | Ok _ => [Lit (js "Failed to load policy file: ");
                                       NativeText InvalidPathArgument]
                            end)
                      (PolicyChecker.now_iso w))).
  { intros st H. unfold PolicyChecker.checkPolicy, PolicyChecker.load_if_needed.
    destruct (PolicyChecker.validateInput summary); [|reflexivity].
    rewrite H. reflexivity. }
  split; [exact A|].
  intros apiKey r. unfold PolicyChecker.checkMetaAdsPolicy, PolicyChecker.new_checker.
  destruct apiKey; simpl; [discriminate|].
  rewrite (A None eq_refl). simpl. intros H; inversion H; subst. split; reflexivity.
Qed.

(** The README's basic usage: a new checker, a summary, no path. *)
Lemma checkPolicy_without_policy_fails_witness :
  PolicyChecker.str_truthy None = false
  /\ PolicyChecker.success
       (snd (PolicyChecker.checkPolicy (checker_world verdict_clean) ad_summary
               None None)) = false.
Proof.
  split; [reflexivity|].
  rewrite (proj1 (checkPolicy_without_policy_fails (checker_world verdict_clean)
                    ad_summary) None eq_refl).
  reflexivity.
Defined.

(** X2.  After loadPolicyFile has succeeded the checker holds a policy that is
    not blank, and a following checkPolicy without a path reads no file: it
    leaves the checker as it is and asks the model with the loaded policy. *)
Theorem loaded_policy_is_used w arg st st' summary text :
  PolicyChecker.loadPolicyFile w arg st = (st', Ok tt) ->
  (exists content, st' = Some content /\ trim content <> [])
  /\ (PolicyChecker.validateInput summary = Ok true ->
      PolicyChecker.generate w (PolicyChecker.prompt_for st' summary) = Ok text ->
      PolicyChecker.responds w summary None st' text
      /\ fst (PolicyChecker.checkPolicy w summary None st') = st').
Proof.
  intros L.
  assert (C : exists content, st' = Some content /\ trim content <> []).
  { unfold PolicyChecker.loadPolicyFile in L.
    destruct arg; try discriminate;
      (destruct (PolicyChecker.read_file w _) as [content|e]; [|discriminate];
       destruct (trim content) eqn:T; inversion L; subst;
       exists content; split; [reflexivity | congruence]). }
  split; [exact C|].
  destruct C as (content & -> & T). intros V G.
  assert (N : PolicyChecker.load_if_needed w None (Some content)
              = (Some content, Ok tt)).
  { unfold PolicyChecker.load_if_needed. simpl.
    destruct content; [now elim T | reflexivity]. }
  split.
  - exists (Some content). auto.
  - unfold PolicyChecker.checkPolicy. rewrite V, N. cbv zeta. rewrite G.
    simpl. destruct (PolicyChecker.parse_response text) as [a|e]; simpl;
      [destruct (PolicyChecker.validateResponse a)|]; reflexivity.
Qed.

(** The server's order of calls: loadPolicyFile with a path, then checkPolicy. *)
Lemma loaded_policy_is_used_witness :
  PolicyChecker.loadPolicyFile (checker_world verdict_clean)
    (PolicyChecker.ArgPath (js "meta-ads-policy.txt")) None
  = (Some policy_text, Ok tt)
  /\ PolicyChecker.responds (checker_world verdict_clean) ad_summary None
       (Some policy_text) verdict_clean.
Proof.
  assert (L : PolicyChecker.loadPolicyFile (checker_world verdict_clean)
                (PolicyChecker.ArgPath (js "meta-ads-policy.txt")) None
              = (Some policy_text, Ok tt)) by (vm_compute; reflexivity).
  split; [exact L|].
  apply (proj2 (@loaded_policy_is_used _ _ _ _ ad_summary verdict_clean L));
    reflexivity.
Defined.

(** X3.  loadPolicyFile stores what it read before it tests it: on a file
    holding only white space it throws 'Policy file is empty or invalid' and
    the checker keeps the blank text.  When that text is not the empty string
    a following checkPolicy without a path does not load again and asks the
    model with the blank policy. *)
Theorem blank_policy_file_is_kept w p st content :
  PolicyChecker.read_file w (PolicyChecker.path_resolve w p) = Ok content ->
  trim content = [] ->
  PolicyChecker.loadPolicyFile w (PolicyChecker.ArgPath p) st
  = (Some content,
     Throw (Error [Lit (js "Failed to load policy file: ");
                   Lit (js "Policy file is empty or invalid")]))
  /\ (content <> [] ->
      forall summary text,
        PolicyChecker.validateInput summary = Ok true ->
        PolicyChecker.generate w (PolicyChecker.prompt_for (Some content) summary)
        = Ok text ->
        PolicyChecker.responds w summary None (Some content) text).
Proof.
  intros R T. split.
  - unfold PolicyChecker.loadPolicyFile. rewrite R, T. reflexivity.
  - intros N summary text V G. exists (Some content).
    repeat split; auto.
    unfold PolicyChecker.load_if_needed. simpl.
    destruct content; [now elim N | reflexivity].
Qed.

(** A policy file of three spaces. *)
Lemma blank_policy_file_is_kept_witness :
  PolicyChecker.read_file (checker_world_blank verdict_clean)
    (PolicyChecker.path_resolve (checker_world_blank verdict_clean) (js "p.txt"))
  = Ok (js "   ")
  /\ trim (js "   ") = []
  /\ PolicyChecker.responds (checker_world_blank verdict_clean) ad_summary None
       (Some (js "   ")) verdict_clean.
Proof.
  assert (R : PolicyChecker.read_file (checker_world_blank verdict_clean)
                (PolicyChecker.path_resolve (checker_world_blank verdict_clean)
                   (js "p.txt")) = Ok (js "   ")) by reflexivity.
  assert (T : trim (js "   ") = []) by (vm_compute; reflexivity).
  split; [exact R|]. split; [exact T|].
  apply (proj2 (@blank_policy_file_is_kept _ _ None _ R T)); try reflexivity.
  discriminate.
Defined.

(** X4.  checkPolicy goes past its input validation exactly for summaries that
    are strings, not blank after trimming, of at most 10000 code units (10000
    itself is accepted); for any other summary it fails with the message of
    the validation, in every world, leaving the checker as it is. *)
Theorem validateInput_accepts summary :
  (PolicyChecker.validateInput summary = Ok true
   <-> exists s, summary = Some (JString s)
                 /\ trim s <> []
                 /\ (N.of_nat (List.length s) <= 10000)%N)
  /\ (forall e w path st,
         PolicyChecker.validateInput summary = Throw e ->
         PolicyChecker.checkPolicy w summary path st
         = (st, PolicyChecker.MkResult false None (Some (emessage e))
                  (PolicyChecker.now_iso w))).
Proof.
  split.
  - unfold PolicyChecker.validateInput. split.
    + destruct summary as [[| | |[|c s]| |]|];
        try (intros H; discriminate H).
      cbv zeta. destruct (trim (c :: s)) eqn:T.
      { intros H; discriminate H. }
      cbn [List.length Nat.eqb].
      destruct (N.ltb_spec 10000 (N.of_nat (S (List.length s))));
        [intros H0; discriminate H0|].
      intros _. exists (c :: s). repeat split; [congruence | assumption].
    + intros (s & -> & T & L).
      destruct s as [|c s]; [now elim T|].
      cbv zeta. destruct (trim (c :: s)) eqn:E; [now elim T|].
      cbn [List.length Nat.eqb].
      destruct (N.ltb_spec 10000 (N.of_nat (S (List.length s))));
        [|reflexivity].
      cbn [List.length] in L. lia.
  - intros e w path st V. unfold PolicyChecker.checkPolicy. now rewrite V.
Qed.

Lemma forEach_skip vs : forall i k v,
  forallb PolicyChecker.violation_ok (firstn i vs) = true ->
  nth_error vs i = Some v ->
  PolicyChecker.violation_ok v = false ->
  PolicyChecker.forEach vs k = PolicyChecker.check_violation v (k + i).
Proof.
  induction vs as [|x r IH]; intros [|i] k v F N B; simpl in *; try discriminate.
  - inversion N; subst. rewrite Nat.add_0_r.
    destruct (PolicyChecker.check_violation v k) as [[]|e] eqn:C; [|reflexivity].
    apply PolicyCheckerFacts.check_violation_ok in C. congruence.
  - apply andb_true_iff in F. destruct F as [Fx Fr].
    apply (PolicyCheckerFacts.check_violation_ok x k) in Fx. rewrite Fx. simpl.
    rewrite (IH i (S k) v Fr N B). f_equal. lia.
Qed.

(** X5.  validateResponse reports the first entry of violations that is not
    well formed: with a boolean violated and the entries before position i
    well formed, the error is the one of entry i, and unless that entry is
    null its message names the index i. *)
Theorem validateResponse_reports_first_invalid ms b vs i v :
  obj_get (js "violated") ms = Some (JBool b) ->
  obj_get (js "violations") ms = Some (JArray vs) ->
  forallb PolicyChecker.violation_ok (firstn i vs) = true ->
  nth_error vs i = Some v ->
  PolicyChecker.violation_ok v = false ->
  exists e,
    PolicyChecker.validateResponse (JObject ms) = Throw e
    /\ (v = JNull ->
        e = native_error TypeErrorC (ReadOfNull (js "category")))
    /\ (v <> JNull ->
        emessage e = [Lit (js "Violation at index " ++ index_text i
                           ++ js " missing required fields")]
        \/ emessage e = [Lit (js "Invalid severity level in violation at index "
                              ++ index_text i)]).
Proof.
  intros Eb Ev F N B.
  unfold PolicyChecker.validateResponse. simpl. rewrite Eb, Ev. simpl.
  rewrite (forEach_skip vs i 0 F N B). simpl.
  unfold PolicyChecker.violation_ok in B.
  unfold PolicyChecker.check_violation.
  destruct v as [| | | | |vm]; simpl in *;
    try (eexists; split; [reflexivity|]; split;
         [try discriminate; reflexivity | intros _; now left]).
  - eexists. split; [reflexivity|]. split; [reflexivity | congruence].
  - destruct (truthy (obj_get (js "category") vm)); simpl in *;
      [|eexists; split; [reflexivity|]; split; [discriminate | now left]].
    destruct (truthy (obj_get (js "description") vm)); simpl in *;
      [|eexists; split; [reflexivity|]; split; [discriminate | now left]].
    rewrite B.
    eexists; split; [reflexivity|]; split; [discriminate | now right].
Qed.

(** The second entry has the severity 'critical'. *)
Lemma validateResponse_reports_first_invalid_witness :
  obj_get (js "violated") members_second_invalid = Some (JBool true)
  /\ obj_get (js "violations") members_second_invalid
     = Some (JArray [entry_low; entry_critical])
  /\ forallb PolicyChecker.violation_ok (firstn 1 [entry_low; entry_critical]) = true
  /\ nth_error [entry_low; entry_critical] 1 = Some entry_critical
  /\ PolicyChecker.violation_ok entry_critical = false
  /\ exists e,
       PolicyChecker.validateResponse (JObject members_second_invalid) = Throw e.
Proof.
  assert (Eb : obj_get (js "violated") members_second_invalid = Some (JBool true))
    by reflexivity.
  assert (Ev : obj_get (js "violations") members_second_invalid
               = Some (JArray [entry_low; entry_critical])) by reflexivity.
  assert (F : forallb PolicyChecker.violation_ok
                (firstn 1 [entry_low; entry_critical]) = true)
    by (vm_compute; reflexivity).
  assert (N : nth_error [entry_low; entry_critical] 1 = Some entry_critical)
    by reflexivity.
  assert (B : PolicyChecker.violation_ok entry_critical = false)
    by (vm_compute; reflexivity).
  repeat (split; [assumption|]).
  destruct (@validateResponse_reports_first_invalid _ _ _ 1 _ Eb Ev F N B)
    as (e & R & _).
  exists e. exact R.
Defined.

(* ================================================================== *)
(** ** Further properties: recovery of an object from a response *)
(* ================================================================== *)

Lemma from_first_skip o pre s :
  ~ In o pre -> Regex.from_first o (pre ++ s) = Regex.from_first o s.
Proof.
  induction pre as [|c pre IH]; simpl; intros H; [reflexivity|].
  destruct (N.eqb_spec c o) as [->|_]; [elim H; now left|].
  apply IH. intros K. apply H. now right.
Qed.

Lemma from_first_app o a b x r :
  Regex.from_first o a = x :: r -> Regex.from_first o (a ++ b) = x :: r ++ b.
Proof.
  induction a as [|c a IH]; simpl; [discriminate|].
  destruct (c =? o)%N; [intros H; inversion H; reflexivity | exact IH].
Qed.

Lemma through_last_none_app c r post :
  ~ In c post -> Regex.through_last c r = None ->
  Regex.through_last c (r ++ post) = None.
Proof.
  intros Hp. induction r as [|x r IH]; simpl.
  - intros _. induction post as [|y post IHp]; simpl; [reflexivity|].
    rewrite IHp by (intros K; apply Hp; now right).
    destruct (N.eqb_spec y c) as [->|_]; [elim Hp; now left | reflexivity].
  - destruct (Regex.through_last c r); [discriminate|].
    destruct (x =? c)%N; [discriminate|].
    intros _. now rewrite IH.
Qed.

Lemma through_last_app c r post p :
  ~ In c post -> Regex.through_last c r = Some p ->
  Regex.through_last c (r ++ post) = Some p.
Proof.
  intros Hp. revert p. induction r as [|x r IH]; simpl; intros p; [discriminate|].
  destruct (Regex.through_last c r) as [q|] eqn:T.
  - intros H; inversion H; subst. now rewrite (IH q eq_refl).
  - rewrite (@through_last_none_app c r post Hp T). exact (fun H => H).
Qed.

(** Text before the first opening and after the last closing does not change
    what the pattern matches. *)
Lemma match_delimited_prose o c pre s post m :
  ~ In o pre -> ~ In c post ->
  Regex.match_delimited o c s = Some m ->
  Regex.match_delimited o c (pre ++ s ++ post) = Some m.
Proof.
  unfold Regex.match_delimited. intros Ho Hc.
  rewrite (@from_first_skip o pre (s ++ post) Ho).
  destruct (Regex.from_first o s) as [|x r] eqn:F; [discriminate|].
  rewrite (@from_first_app o s post x r F).
  destruct (Regex.through_last c r) as [p|] eqn:T; [|discriminate].
  now rewrite (@through_last_app c r post p Hc T).
Qed.

(** X6.  A JSON object wrapped in prose that has no opening brace before it
    and no closing brace after it is recovered: checkPolicy's parsing returns
    the object, and so do the summarizer's and checkCompliance's whenever the
    text as a whole is not JSON. *)
Theorem object_in_prose_is_recovered pre obj post ms :
  ~ In 123%N pre -> ~ In 125%N post ->
  JSON.parse obj = Some (JObject ms) ->
  let text := pre ++ obj ++ post in
  PolicyChecker.parse_response text = Ok (JObject ms)
  /\ (JSON.parse text = None ->
      Summarizer.recover text = JObject ms
      /\ DynamicChecker.parse_compliance text = Ok (JObject ms)).
Proof.
  intros Ho Hc P text.
  destruct (JSONFacts.parse_object_match _ P) as (m & M & Pm).
  assert (M' : Regex.match_braces text = Some m).
  { apply match_delimited_prose; assumption. }
  split.
  - unfold PolicyChecker.parse_response, JSON_parse. now rewrite M', Pm.
  - intros N. split.
    + unfold Summarizer.recover, JSON_parse. now rewrite N, M', Pm.
    + unfold DynamicChecker.parse_compliance, JSON_parse. rewrite N. simpl.
      now rewrite M', Pm.
Qed.

(** Scenario C: a verdict between a greeting and a closing remark. *)
Lemma object_in_prose_is_recovered_witness :
  ~ In 123%N (js "Sure! Here is the analysis: ")
  /\ ~ In 125%N (js " Hope that helps!")
  /\ exists ms,
       JSON.parse verdict_clean = Some (JObject ms)
       /\ PolicyChecker.parse_response verdict_in_prose = Ok (JObject ms).
Proof.
  assert (Ho : ~ In 123%N (js "Sure! Here is the analysis: ")).
  { vm_compute. intuition discriminate. }
  assert (Hc : ~ In 125%N (js " Hope that helps!")).
  { vm_compute. intuition discriminate. }
  split; [exact Ho|]. split; [exact Hc|].
  destruct (JSON.parse verdict_clean) as [[| | | | |ms]|] eqn:P;
    try (vm_compute in P; discriminate).
  exists ms. split; [reflexivity|].
  exact (proj1 (@object_in_prose_is_recovered _ _ _ _ Ho Hc P)).
Defined.

Lemma lex_ws_skip ws s :
  JSON.all_ws ws -> JSON.lex JSON.LIdle (ws ++ s) = JSON.lex JSON.LIdle s.
Proof.
  induction 1 as [|c ws Hc _ IH]; [reflexivity|].
  cbn [app JSON.lex JSON.lex_step]. unfold JSON.idle_step. rewrite Hc.
  rewrite IH. destruct (JSON.lex JSON.LIdle s); reflexivity.
Qed.

(** After a token sequence ending with a closing brace the lexer is idle:
    the tokens of what follows are appended. *)
Lemma lex_app_rbrace a : forall st ta b,
  JSON.lex st a = Some ta -> last ta JSON.TComma = JSON.TRBrace ->
  JSON.lex st (a ++ b)
  = match JSON.lex JSON.LIdle b with
    | Some tb => Some (ta ++ tb)
    | None => None
    end.
Proof.
  induction a as [|c a IH]; intros st ta b H Hl.
  - simpl in H. unfold JSON.lex_finish in H. destruct st; try discriminate.
    + inversion H; subst. discriminate.
    + destruct (JSON.accepting ph); inversion H; subst. discriminate.
  - cbn [app JSON.lex] in *.
    destruct (JSON.lex_step st c) as [[st' out]|] eqn:E; [|discriminate].
    destruct (JSON.lex st' a) as [ts1|] eqn:L; [|discriminate].
    inversion H; subst; clear H.
    destruct ts1 as [|t1 ts1].
    + rewrite app_nil_r in *.
      destruct (JSONFacts.lex_step_rbrace _ _ E Hl) as [-> ->].
      rewrite (@lex_ws_skip a b (JSONFacts.lex_idle_nil _ L)).
      reflexivity.
    + rewrite JSONFacts.last_app_nonempty in Hl by discriminate.
      rewrite (IH st' (t1 :: ts1) b L Hl).
      destruct (JSON.lex JSON.LIdle b); [|reflexivity].
      now rewrite app_assoc.
Qed.

Lemma run_app_more ta : forall st v tb,
  JSON.run st ta = Some v -> tb <> [] -> JSON.run st (ta ++ tb) = None.
Proof.
  induction ta as [|t ta IH]; simpl; intros st v tb H N.
  - destruct st; try discriminate. destruct tb; [now elim N | reflexivity].
  - destruct (JSON.parse_step st t); [eauto | discriminate].
Qed.

Lemma lex_all_ws s : JSON.all_ws s -> JSON.lex JSON.LIdle s = Some [].
Proof.
  intros H. rewrite <- (app_nil_r s). now rewrite lex_ws_skip.
Qed.

(** Anything but white space after a JSON object makes the text invalid. *)
Lemma parse_object_then_more a b ms :
  JSON.parse a = Some (JObject ms) -> ~ JSON.all_ws b ->
  JSON.parse (a ++ b) = None.
Proof.
  unfold JSON.parse. destruct (JSON.lex JSON.LIdle a) as [ta|] eqn:L;
    [|discriminate].
  intros R Hb.
  assert (Hl : last ta JSON.TComma = JSON.TRBrace).
  { destruct (JSONFacts.run_object_last _ _ R) as [->|[q ->]]; [discriminate|].
    now rewrite last_last. }
  rewrite (@lex_app_rbrace a JSON.LIdle ta b L Hl).
  destruct (JSON.lex JSON.LIdle b) as [tb|] eqn:Lb; [|reflexivity].
  eapply run_app_more; eauto.
  intros ->. apply Hb. now apply JSONFacts.lex_idle_nil.
Qed.

Lemma parse_not_ws s v : JSON.parse s = Some v -> ~ JSON.all_ws s.
Proof.
  unfold JSON.parse. intros P W. rewrite (lex_all_ws W) in P. discriminate.
Qed.

Lemma not_all_ws_app a b : ~ JSON.all_ws b -> ~ JSON.all_ws (a ++ b).
Proof.
  unfold JSON.all_ws. intros H K. apply Forall_app in K. tauto.
Qed.

(** The text of a JSON object: white space, the braces with what they hold,
    white space. *)
Lemma parse_object_shape text ms :
  JSON.parse text = Some (JObject ms) ->
  exists ws1 inner ws2,
    text = ws1 ++ (123%N :: inner ++ [125%N]) ++ ws2
    /\ JSON.all_ws ws1 /\ JSON.all_ws ws2
    /\ JSON.parse (123%N :: inner ++ [125%N]) = Some (JObject ms).
Proof.
  intros P. generalize P. unfold JSON.parse at 1.
  destruct (JSON.lex JSON.LIdle text) as [ts|] eqn:L; [|discriminate].
  intros R.
  destruct (JSONFacts.run_object_first _ R) as (ts2 & ->).
  destruct (JSONFacts.lex_first_brace _ L) as (ws & r & -> & Hws & Lr).
  assert (Hlast : last ts2 JSON.TComma = JSON.TRBrace).
  { destruct (JSONFacts.run_object_last _ _ R) as [?|[q Hq]]; [discriminate|].
    destruct q as [|t q]; [discriminate|].
    inversion Hq; subst. now rewrite last_last. }
  destruct (JSONFacts.lex_last_brace _ _ Lr Hlast) as (pre & ws2 & -> & Hws2 & Lpre).
  exists ws, pre, ws2. repeat split; auto.
  - simpl. now rewrite <- app_assoc.
  - unfold JSON.parse.
    change (JSON.lex JSON.LIdle (123%N :: pre ++ [125%N]))
      with (match JSON.lex JSON.LIdle (pre ++ [125%N]) with
            | Some ts => Some ([JSON.TLBrace] ++ ts) | None => None end).
    rewrite Lpre. exact R.
Qed.

Lemma all_ws_no_brace ws c :
  JSON.all_ws ws -> c = 123%N \/ c = 125%N -> ~ In c ws.
Proof.
  intros H Hc K. unfold JSON.all_ws in H. rewrite Forall_forall in H.
  specialize (H _ K). destruct (JSONFacts.ws_not_brace _ H). tauto.
Qed.

(** X7.  The pattern is greedy: when the response holds two JSON objects one
    after the other, it matches from the first opening brace to the last
    closing one, the match is not JSON, and checkPolicy's parsing fails even
    though each object alone would have been accepted; the summarizer falls
    back to the raw text. *)
Theorem two_objects_are_not_recovered pre o1 o2 post ms1 ms2 :
  ~ In 123%N pre -> ~ In 125%N post ->
  JSON.parse o1 = Some (JObject ms1) ->
  JSON.parse o2 = Some (JObject ms2) ->
  (exists e, PolicyChecker.parse_response (pre ++ (o1 ++ o2) ++ post) = Throw e)
  /\ Summarizer.recover (o1 ++ o2) = Summarizer.fallback (o1 ++ o2).
Proof.
  intros Ho Hc P1 P2.
  destruct (parse_object_shape _ P1) as (wa & i1 & wb & E1 & Wa & Wb & Q1).
  destruct (parse_object_shape _ P2) as (wc & i2 & wd & E2 & Wc & Wd & Q2).
  set (m := (123%N :: i1 ++ [125%N]) ++ (wb ++ wc ++ 123%N :: i2 ++ [125%N])).
  assert (Pm : JSON.parse m = None).
  { apply (@parse_object_then_more _ _ ms1 Q1).
    apply not_all_ws_app, not_all_ws_app.
    intros K. inversion K; subst. discriminate. }
  assert (M : Regex.match_braces (o1 ++ o2) = Some m).
  { subst o1 o2 m. unfold Regex.match_braces, Regex.match_delimited.
    repeat rewrite <- app_assoc.
    rewrite (@from_first_skip 123%N wa _ (@all_ws_no_brace wa 123%N Wa (or_introl eq_refl))).
    cbn [app Regex.from_first]. cbn [N.eqb Pos.eqb].
    replace ((i1 ++ [125%N]) ++ wb ++ wc ++ 123%N :: (i2 ++ [125%N]) ++ wd)
      with (((i1 ++ [125%N]) ++ wb ++ wc ++ 123%N :: i2) ++ 125%N :: wd)
      by (repeat (progress (repeat rewrite <- app_assoc; cbn [app]));
          reflexivity).
    rewrite (@JSONFacts.through_last_ws _ wd Wd).
    repeat (progress (repeat rewrite <- app_assoc; cbn [app])).
    reflexivity. }
  split.
  - assert (M' : Regex.match_braces (pre ++ (o1 ++ o2) ++ post) = Some m).
    { apply match_delimited_prose; assumption. }
    unfold PolicyChecker.parse_response, JSON_parse. rewrite M', Pm. simpl. eauto.
  - apply SummarizerFacts.recover_fallback.
    + apply (@parse_object_then_more _ _ ms1 P1). eapply parse_not_ws; eauto.
    + intros m' M'. rewrite M in M'. inversion M'; subst. exact Pm.
Qed.

(** The violating verdict twice. *)
Lemma two_objects_are_not_recovered_witness :
  exists ms,
    JSON.parse verdict_violating = Some (JObject ms)
    /\ Summarizer.recover (verdict_violating ++ verdict_violating)
       = Summarizer.fallback (verdict_violating ++ verdict_violating).
Proof.
  destruct (JSON.parse verdict_violating) as [[| | | | |ms]|] eqn:P;
    try (vm_compute in P; discriminate).
  exists ms. split; [reflexivity|].
  exact (proj2 (@two_objects_are_not_recovered [] _ _ [] _ _
                  (fun H => H) (fun H => H) P P)).
Defined.

(* ================================================================== *)
(** ** Further properties: the summarizer *)
(* ================================================================== *)

Lemma includes_app l1 l2 x :
  Summarizer.includes (l1 ++ l2) x
  = Summarizer.includes l1 x || Summarizer.includes l2 x.
Proof. unfold Summarizer.includes. apply existsb_app. Qed.

Lemma validateInput_none filePath prompt :
  Summarizer.validateInput filePath prompt = None ->
  filePath <> [] /\ prompt <> [] /\ (N.of_nat (List.length prompt) <= 1000)%N.
Proof.
  unfold Summarizer.validateInput.
  destruct filePath as [|f0 fp]; [intros H; discriminate H|].
  destruct prompt as [|c p]; [intros H; discriminate H|].
  destruct (N.ltb_spec 1000 (N.of_nat (List.length (c :: p))));
    [intros H0; discriminate H0|].
  intros _. repeat split; try discriminate. assumption.
Qed.

Lemma validateMultimediaFile_valid w filePath :
  Summarizer.valid (Summarizer.validateMultimediaFile w filePath) = true ->
  Summarizer.pathExists w filePath = true
  /\ exists st m,
       Summarizer.stat w filePath = Ok st
       /\ Summarizer.isFile st = true
       /\ (Summarizer.size st <= Summarizer.maxFileSize)%N
       /\ Summarizer.mime_lookup w filePath = Some m
       /\ Summarizer.includes Summarizer.supportedFormats m = true
       /\ Summarizer.validateMultimediaFile w filePath
          = Summarizer.MkValidation true m (Summarizer.size st)
              (if Summarizer.includes Summarizer.supportedVideoFormats m
               then js "video"
               else if Summarizer.includes Summarizer.supportedImageFormats m
                    then js "image" else js "unknown")
              None.
Proof.
  unfold Summarizer.validateMultimediaFile.
  destruct (Summarizer.pathExists w filePath);
    cbn [negb bind Summarizer.valid Summarizer.invalid];
    [|intros F; discriminate F].
  destruct (Summarizer.stat w filePath) as [st|e];
    cbn [negb bind Summarizer.valid Summarizer.invalid];
    [|intros F; discriminate F].
  destruct (Summarizer.isFile st) eqn:I;
    cbn [negb bind Summarizer.valid Summarizer.invalid];
    [|intros F; discriminate F].
  destruct (N.ltb_spec Summarizer.maxFileSize (Summarizer.size st));
    cbn [negb bind Summarizer.valid Summarizer.invalid];
    [intros F; discriminate F|].
  destruct (Summarizer.mime_lookup w filePath) as [[|c m]|];
    cbn [negb bind Summarizer.valid Summarizer.invalid];
    try (intros F; discriminate F).
  destruct (Summarizer.includes Summarizer.supportedFormats (c :: m)) eqn:Inc;
    cbn [negb bind Summarizer.valid Summarizer.invalid];
    [|intros F; discriminate F].
  intros _. split; [reflexivity|].
  exists st, (c :: m). repeat (split; [reflexivity || assumption|]).
  reflexivity.
Qed.

(** X8.  analyzeMultimedia succeeds only for a non-empty path and a prompt of
    1 to 1000 code units, on a path that exists, is a file of at most 100MB
    and has a supported MIME type; the validation then reports that MIME type
    and size, and a media type that is 'video' for the video formats and
    'image' for the image formats, never 'unknown'. *)
Theorem analysis_success_requires_valid_file w filePath prompt :
  Summarizer.success (Summarizer.analyzeMultimedia w filePath prompt) = true ->
  filePath <> [] /\ prompt <> [] /\ (N.of_nat (List.length prompt) <= 1000)%N
  /\ Summarizer.pathExists w filePath = true
  /\ exists st m,
       Summarizer.stat w filePath = Ok st
       /\ Summarizer.isFile st = true
       /\ (Summarizer.size st <= Summarizer.maxFileSize)%N
       /\ Summarizer.mime_lookup w filePath = Some m
       /\ Summarizer.includes Summarizer.supportedFormats m = true
       /\ let fv := Summarizer.validateMultimediaFile w filePath in
          Summarizer.v_mimeType fv = m
          /\ Summarizer.v_size fv = Summarizer.size st
          /\ ((Summarizer.v_mediaType fv = js "video"
               /\ Summarizer.includes Summarizer.supportedVideoFormats m = true)
              \/ (Summarizer.v_mediaType fv = js "image"
                  /\ Summarizer.includes Summarizer.supportedImageFormats m = true)).
Proof.
  intros S.
  destruct (SummarizerFacts.analyzeMultimedia_success _ _ _ S)
    as (text & d & (V & F & _) & _).
  destruct (validateInput_none _ _ V) as (Hp & Hq & Hl).
  repeat (split; [assumption|]).
  destruct (validateMultimediaFile_valid _ _ F)
    as (E & st & m & St & I & Sz & M & Inc & Eq).
  split; [exact E|].
  exists st, m. repeat (split; [assumption|]).
  rewrite Eq. cbn [Summarizer.v_mimeType Summarizer.v_size Summarizer.v_mediaType].
  split; [reflexivity|]. split; [reflexivity|].
  unfold Summarizer.supportedFormats in Inc. rewrite includes_app in Inc.
  destruct (Summarizer.includes Summarizer.supportedVideoFormats m).
  - left. split; reflexivity.
  - right. cbn [orb] in Inc. rewrite Inc. split; reflexivity.
Qed.

(** The 2048-byte video of the examples. *)
Lemma analysis_success_requires_valid_file_witness :
  Summarizer.success
    (Summarizer.analyzeMultimedia (summarizer_world analysis_text)
                                  media_path media_prompt) = true
  /\ Summarizer.pathExists (summarizer_world analysis_text) media_path = true.
Proof.
  assert (S : Summarizer.success
                (Summarizer.analyzeMultimedia (summarizer_world analysis_text)
                                              media_path media_prompt) = true)
    by (vm_compute; reflexivity).
  split; [exact S|].
  exact (proj1 (proj2 (proj2 (proj2
           (@analysis_success_requires_valid_file _ _ _ S))))).
Defined.

(** X9.  When the response text is JSON but no object, the result depends on
    what it is: for a string, number, boolean or null the write of
    fileMetadata throws (the module is strict) and analyzeMultimedia returns a
    failure of type TypeError; for an array it succeeds, and the result has no
    summary and no keyPoints. *)
Theorem non_object_response w filePath prompt text v :
  Summarizer.responds w filePath prompt text ->
  JSON.parse text = Some v ->
  (JSON.value_kind v = None ->
   Summarizer.analyzeMultimedia w filePath prompt
   = Summarizer.MkAnalysis false None
       (Some (Summarizer.MkErrorInfo
                [NativeText (WriteOnPrimitive (js "fileMetadata"))]
                (Summarizer.now_iso w) TypeErrorC)))
  /\ (forall es, v = JArray es ->
      exists d,
        Summarizer.analyzeMultimedia w filePath prompt
        = Summarizer.MkAnalysis true (Some d) None
        /\ Summarizer.data_get d (js "summary") = None
        /\ Summarizer.data_get d (js "keyPoints") = None).
Proof.
  intros R P.
  rewrite (SummarizerFacts.analyzeMultimedia_responds R).
  rewrite (SummarizerFacts.recover_parsed _ P).
  split.
  - destruct v; simpl; intros K; try discriminate; reflexivity.
  - intros es ->. simpl. eexists. repeat split.
Qed.

(** The model answers with a JSON string. *)
Lemma non_object_response_witness :
  Summarizer.responds (summarizer_world (jsq "`A person holds a bottle.`"))
                      media_path media_prompt (jsq "`A person holds a bottle.`")
  /\ exists v,
       JSON.parse (jsq "`A person holds a bottle.`") = Some v
       /\ JSON.value_kind v = None
       /\ Summarizer.success
            (Summarizer.analyzeMultimedia
               (summarizer_world (jsq "`A person holds a bottle.`"))
               media_path media_prompt) = false.
Proof.
  assert (R : Summarizer.responds
                (summarizer_world (jsq "`A person holds a bottle.`"))
                media_path media_prompt (jsq "`A person holds a bottle.`")).
  { split; [reflexivity|]. split; [vm_compute; reflexivity|].
    exists (js "AAAA"). split; reflexivity. }
  split; [exact R|].
  destruct (JSON.parse (jsq "`A person holds a bottle.`")) as [v|] eqn:P;
    [|vm_compute in P; discriminate].
  assert (K : JSON.value_kind v = None).
  { vm_compute in P. inversion P. reflexivity. }
  exists v. split; [reflexivity|]. split; [exact K|].
  rewrite (proj1 (@non_object_response _ _ _ _ _ R P) K). reflexivity.
Defined.

(* ================================================================== *)
(** ** Further properties: the dynamic checker *)
(* ================================================================== *)

Lemma getPolicies_miss w st :
  truthy (Some (DynamicChecker.cachedPolicies st)) = false ->
  DynamicChecker.getPolicies w st
  = match DynamicChecker.http_get w (DynamicChecker.http_calls st) with
    | Throw e =>
        (DynamicChecker.MkState (DynamicChecker.cachedPolicies st)
           (S (DynamicChecker.http_calls st)) (DynamicChecker.llm_calls st),
         Throw (Error (Lit (js "Failed to fetch Meta policies: ") :: emessage e)))
    | Ok html =>
        match DynamicChecker.extraction_outcome w (DynamicChecker.llm_calls st)
                (DynamicChecker.extractTextFromHtml w html) with
        | Throw e =>
            (DynamicChecker.MkState (DynamicChecker.cachedPolicies st)
               (S (DynamicChecker.http_calls st)) (S (DynamicChecker.llm_calls st)),
             Throw e)
        | Ok policies =>
            (DynamicChecker.MkState policies
               (S (DynamicChecker.http_calls st)) (S (DynamicChecker.llm_calls st)),
             Ok policies)
        end
    end.
Proof.
  intros T. unfold DynamicChecker.getPolicies. rewrite T.
  unfold DynamicChecker.fetchMetaPolicies, DynamicChecker.extractPoliciesWithClaude,
    DynamicChecker.extraction_outcome.
  cbn [DynamicChecker.cachedPolicies DynamicChecker.http_calls
       DynamicChecker.llm_calls].
  destruct (DynamicChecker.http_get w (DynamicChecker.http_calls st)) as [html|e];
    cbn [try_catch]; [|reflexivity].
  destruct (try_catch _ _); reflexivity.
Qed.

Lemma extraction_outcome_throw w n content e :
  DynamicChecker.extraction_outcome w n content = Throw e ->
  exists m, emessage e = Lit (js "Failed to extract policies with Claude: ") :: m.
Proof.
  unfold DynamicChecker.extraction_outcome, try_catch.
  destruct (bind _ _) as [p|e0]; intros H; inversion H; subst.
  simpl. eexists. reflexivity.
Qed.

Lemma resume_step_throw w t st e :
  snd (DynamicChecker.resume_step w t st) = DynamicChecker.Returned (Throw e) ->
  fst (DynamicChecker.resume_step w t st) = st.
Proof.
  destruct t as [|n|n p|r]; simpl.
  - discriminate.
  - destruct (DynamicChecker.http_get w n); simpl; [discriminate | reflexivity].
  - destruct (try_catch _ _); simpl; [discriminate | reflexivity].
  - reflexivity.
Qed.

(** X10.  A getPolicies that throws leaves cachedPolicies as it was: the
    cache is written only after a successful extraction, and the error says
    whether the fetch or the extraction failed.  The same holds for callers
    running interleaved: resuming a call that ends by throwing changes
    nothing in the checker. *)
Theorem failed_getPolicies_keeps_cache w :
  (forall st st1 e,
      DynamicChecker.getPolicies w st = (st1, Throw e) ->
      DynamicChecker.cachedPolicies st1 = DynamicChecker.cachedPolicies st
      /\ exists m,
          emessage e = Lit (js "Failed to fetch Meta policies: ") :: m
          \/ emessage e = Lit (js "Failed to extract policies with Claude: ") :: m)
  /\ (forall s i t e,
         nth_error (DynamicChecker.tasks s) i = Some t ->
         snd (DynamicChecker.resume_step w t (DynamicChecker.checker s))
         = DynamicChecker.Returned (Throw e) ->
         DynamicChecker.checker (DynamicChecker.step w s (DynamicChecker.Resume i))
         = DynamicChecker.checker s).
Proof.
  split.
  - intros st st1 e G.
    destruct (truthy (Some (DynamicChecker.cachedPolicies st))) eqn:T.
    + rewrite (DynamicCheckerFacts.getPolicies_hit w st T) in G. discriminate.
    + rewrite (getPolicies_miss w st T) in G.
      destruct (DynamicChecker.http_get w _) as [html|e0].
      * destruct (DynamicChecker.extraction_outcome w _ _) as [p|e1] eqn:X;
          inversion G; subst. split; [reflexivity|].
        destruct (extraction_outcome_throw _ _ _ X) as (m & M). eauto.
      * inversion G; subst. split; [reflexivity|]. simpl. eauto.
  - intros s i t e N R. simpl. rewrite N.
    pose proof (resume_step_throw w t (DynamicChecker.checker s) R) as K.
    destruct (DynamicChecker.resume_step w t (DynamicChecker.checker s)).
    exact K.
Qed.

(** The policy page cannot be reached. *)
Lemma failed_getPolicies_keeps_cache_witness :
  exists st1 e,
    DynamicChecker.getPolicies dynamic_world_offline DynamicChecker.new_checker
    = (st1, Throw e)
    /\ DynamicChecker.cachedPolicies st1 = JNull.
Proof.
  destruct (DynamicChecker.getPolicies dynamic_world_offline
              DynamicChecker.new_checker) as [st1 [v|e]] eqn:G;
    [vm_compute in G; discriminate|].
  exists st1, e. split; [reflexivity|].
  exact (proj1 (proj1 (failed_getPolicies_keeps_cache dynamic_world_offline)
                  _ _ _ G)).
Defined.

(** X11.  The cache test is a truthiness test: when the extraction succeeds
    with a falsy JSON value (null, false, a zero or the empty string), the
    value is returned but the next getPolicies does not find it: it requests
    the page again. *)
Theorem falsy_policies_are_fetched_again w st st1 v :
  DynamicChecker.getPolicies w st = (st1, Ok v) ->
  truthy (Some v) = false ->
  DynamicChecker.http_calls st1 = S (DynamicChecker.http_calls st)
  /\ DynamicChecker.http_calls (fst (DynamicChecker.getPolicies w st1))
     = 2 + DynamicChecker.http_calls st.
Proof.
  intros G F.
  destruct (DynamicCheckerFacts.getPolicies_ok _ _ G) as [(T & -> & ->)|(T & ->)].
  - congruence.
  - split; [reflexivity|].
    rewrite getPolicies_miss by exact F. simpl.
    destruct (DynamicChecker.http_get w _); [|reflexivity].
    destruct (DynamicChecker.extraction_outcome w _ _); reflexivity.
Qed.

(** The model answers null to the extraction prompt. *)
Lemma falsy_policies_are_fetched_again_witness :
  exists st1,
    DynamicChecker.getPolicies dynamic_world_null DynamicChecker.new_checker
    = (st1, Ok JNull)
    /\ truthy (Some JNull) = false
    /\ DynamicChecker.http_calls
         (fst (DynamicChecker.getPolicies dynamic_world_null st1)) = 2.
Proof.
  destruct (DynamicChecker.getPolicies dynamic_world_null
              DynamicChecker.new_checker) as [st1 r] eqn:G.
  assert (R : r = Ok JNull) by (vm_compute in G; inversion G; reflexivity).
  subst r. exists st1. split; [reflexivity|]. split; [reflexivity|].
  exact (proj2 (@falsy_policies_are_fetched_again _ _ _ _ G eq_refl)).
Defined.

(** X12.  Every error of checkCompliance reaches the caller wrapped: its
    message starts with 'Failed to check compliance: ', and checkAdCompliance
    puts that message in details.error.  For a failed fetch of the policy
    page the message is the three layers one after the other. *)
Theorem checkCompliance_error_is_wrapped w adSummary st :
  (forall e,
      snd (DynamicChecker.checkCompliance w adSummary st) = Throw e ->
      exists m,
        emessage e = Lit (js "Failed to check compliance: ") :: m
        /\ snd (DynamicChecker.checkAdCompliance w adSummary st)
           = Ok (DynamicChecker.MkReport (JBool false) (JArray [])
                   (DynamicChecker.ErrorDetails
                      (Lit (js "Failed to check compliance: ") :: m)
                      (js "An error occurred while checking compliance"))))
  /\ (forall c s e0,
         adSummary = Some (JString (c :: s)) ->
         truthy (Some (DynamicChecker.cachedPolicies st)) = false ->
         DynamicChecker.http_get w (DynamicChecker.http_calls st) = Throw e0 ->
         snd (DynamicChecker.checkCompliance w adSummary st)
         = Throw (Error (Lit (js "Failed to check compliance: ")
                         :: Lit (js "Failed to fetch Meta policies: ")
                         :: emessage e0))).
Proof.
  split.
  - intros e C.
    assert (M : exists m, emessage e = Lit (js "Failed to check compliance: ") :: m).
    { unfold DynamicChecker.checkCompliance in C.
      destruct adSummary as [[| | |[|c s]| |]|]; simpl in C;
        try (inversion C; subst; simpl; eauto).
      destruct (DynamicChecker.getPolicies w st) as [st1 [p|e1]]; simpl in C.
      - unfold try_catch in C.
        destruct (bind _ _); inversion C; subst; simpl; eauto.
      - inversion C; subst; simpl; eauto. }
    destruct M as (m & M). exists m. split; [exact M|].
    unfold DynamicChecker.checkAdCompliance.
    destruct (DynamicChecker.checkCompliance w adSummary st) as [st1 r].
    simpl in *. subst r. simpl. now rewrite M.
  - intros c s e0 -> T H. unfold DynamicChecker.checkCompliance.
    rewrite (getPolicies_miss w st T), H. reflexivity.
Qed.

(** The policy page cannot be reached. *)
Lemma checkCompliance_error_is_wrapped_witness :
  truthy (Some (DynamicChecker.cachedPolicies DynamicChecker.new_checker)) = false
  /\ snd (DynamicChecker.checkCompliance dynamic_world_offline ad_summary
            DynamicChecker.new_checker)
     = Throw (Error [Lit (js "Failed to check compliance: ");
                     Lit (js "Failed to fetch Meta policies: ");
                     Lit (js "getaddrinfo ENOTFOUND")]).
Proof.
  split; [reflexivity|].
  exact (proj2 (checkCompliance_error_is_wrapped dynamic_world_offline ad_summary
                  DynamicChecker.new_checker)
               _ _ _ eq_refl eq_refl eq_refl).
Defined.

Lemma checkAdCompliance_reports w adSummary st :
  exists report, snd (DynamicChecker.checkAdCompliance w adSummary st) = Ok report.
Proof.
  unfold DynamicChecker.checkAdCompliance.
  destruct (DynamicChecker.checkCompliance w adSummary st) as [st1 [result|e]];
    simpl; [|eauto].
  destruct result; simpl; eauto.
Qed.

(** X13.  An ad summary that is not a non-empty string is refused before
    anything is requested: checkAdCompliance leaves the checker and its
    request counts as they are and reports the refusal in details.error. *)
Theorem invalid_ad_summary_makes_no_request w adSummary st :
  (forall c s, adSummary <> Some (JString (c :: s))) ->
  DynamicChecker.checkAdCompliance w adSummary st
  = (st, Ok (DynamicChecker.MkReport (JBool false) (JArray [])
               (DynamicChecker.ErrorDetails
                  [Lit (js "Failed to check compliance: ");
                   Lit (js "Ad summary must be a non-empty string")]
                  (js "An error occurred while checking compliance")))).
Proof.
  intros H. unfold DynamicChecker.checkAdCompliance, DynamicChecker.checkCompliance.
  destruct adSummary as [[| | |[|c s]| |]|]; try reflexivity.
  now elim (H c s).
Qed.

(** The empty string. *)
Lemma invalid_ad_summary_makes_no_request_witness :
  (forall c s, Some (JString []) <> Some (JString (c :: s)))
  /\ fst (DynamicChecker.checkAdCompliance (dynamic_world policies_a policies_b)
            (Some (JString [])) DynamicChecker.new_checker)
     = DynamicChecker.new_checker.
Proof.
  assert (H : forall c s, Some (JString []) <> Some (JString (c :: s)))
    by (intros c s K; discriminate K).
  split; [exact H|].
  rewrite (@invalid_ad_summary_makes_no_request
             (dynamic_world policies_a policies_b) _ DynamicChecker.new_checker H).
  reflexivity.
Defined.

(** X14.  With policies in the cache a compliance check costs one request to
    the model and none to the policy page, and leaves the cache as it is; on
    an empty cache, when page and extraction succeed, it costs one request to
    the page and two to the model and leaves the extracted policies cached. *)
Theorem compliance_check_cost w c s st :
  (truthy (Some (DynamicChecker.cachedPolicies st)) = true ->
   fst (DynamicChecker.checkCompliance w (Some (JString (c :: s))) st)
   = DynamicChecker.MkState (DynamicChecker.cachedPolicies st)
       (DynamicChecker.http_calls st) (S (DynamicChecker.llm_calls st)))
  /\ (forall html policies,
         truthy (Some (DynamicChecker.cachedPolicies st)) = false ->
         DynamicChecker.http_get w (DynamicChecker.http_calls st) = Ok html ->
         DynamicChecker.extraction_outcome w (DynamicChecker.llm_calls st)
           (DynamicChecker.extractTextFromHtml w html) = Ok policies ->
         fst (DynamicChecker.checkCompliance w (Some (JString (c :: s))) st)
         = DynamicChecker.MkState policies
             (S (DynamicChecker.http_calls st))
             (2 + DynamicChecker.llm_calls st)).
Proof.
  split.
  - intros T. unfold DynamicChecker.checkCompliance.
    rewrite (DynamicCheckerFacts.getPolicies_hit w st T). reflexivity.
  - intros html policies T H X. unfold DynamicChecker.checkCompliance.
    rewrite (getPolicies_miss w st T), H, X. reflexivity.
Qed.

(** A new checker, the page served and the policies extracted. *)
Lemma compliance_check_cost_witness :
  exists html policies,
    truthy (Some (DynamicChecker.cachedPolicies DynamicChecker.new_checker)) = false
    /\ DynamicChecker.http_get (dynamic_world policies_a verdict_clean) 0 = Ok html
    /\ DynamicChecker.extraction_outcome (dynamic_world policies_a verdict_clean) 0
         (DynamicChecker.extractTextFromHtml (dynamic_world policies_a verdict_clean)
            html) = Ok policies
    /\ fst (DynamicChecker.checkCompliance (dynamic_world policies_a verdict_clean)
              ad_summary DynamicChecker.new_checker)
       = DynamicChecker.MkState policies 1 2.
Proof.
  destruct (DynamicChecker.extraction_outcome (dynamic_world policies_a verdict_clean)
              0 (DynamicChecker.extractTextFromHtml
                   (dynamic_world policies_a verdict_clean)
                   (js "<main>Ad standards</main>"))) as [policies|e] eqn:X;
    [|vm_compute in X; discriminate].
  exists (js "<main>Ad standards</main>"), policies.
  split; [reflexivity|]. split; [reflexivity|]. split; [exact X|].
  exact (proj2 (compliance_check_cost (dynamic_world policies_a verdict_clean)
                  71%N (List.tl (js "Guaranteed 500% returns in 30 days, no risk!"))
                  DynamicChecker.new_checker)
               _ _ eq_refl eq_refl X).
Defined.

(** X15.  The one-call helper checkMetaAdsCompliance throws when the API key
    is empty, before any report is made; with a key it always returns a
    report, and since it makes a new checker each time it never finds cached
    policies: for a valid summary it requests the policy page on every call. *)
Theorem checkMetaAdsCompliance_never_uses_cache w adSummary :
  DynamicChecker.checkMetaAdsCompliance w adSummary []
  = Throw (Error [Lit (js "Anthropic API key is required")])
  /\ (forall k key,
         exists st report,
           DynamicChecker.checkMetaAdsCompliance w adSummary (k :: key)
           = Ok (st, report)
           /\ (forall c s, adSummary = Some (JString (c :: s)) ->
               DynamicChecker.http_calls st = 1)).
Proof.
  split; [reflexivity|].
  intros k key. unfold DynamicChecker.checkMetaAdsCompliance. simpl.
  destruct (checkAdCompliance_reports w adSummary DynamicChecker.new_checker)
    as (report & R).
  destruct (DynamicChecker.checkAdCompliance w adSummary DynamicChecker.new_checker)
    as [st r] eqn:A.
  simpl in R. subst r. exists st, report. split; [reflexivity|].
  intros c s ->.
  unfold DynamicChecker.checkAdCompliance, DynamicChecker.checkCompliance in A.
  rewrite (getPolicies_miss w DynamicChecker.new_checker eq_refl) in A.
  simpl in A.
  destruct (DynamicChecker.http_get w 0).
  - destruct (DynamicChecker.extraction_outcome w 0 _);
      inversion A; subst; reflexivity.
  - inversion A; subst; reflexivity.
Qed.

(** A key is given and the page cannot be reached. *)
Lemma checkMetaAdsCompliance_never_uses_cache_witness :
  exists st report,
    DynamicChecker.checkMetaAdsCompliance dynamic_world_offline ad_summary (js "key")
    = Ok (st, report)
    /\ DynamicChecker.http_calls st = 1.
Proof.
  destruct (proj2 (checkMetaAdsCompliance_never_uses_cache dynamic_world_offline
                     ad_summary) 107%N (js "ey")) as (st & report & E & H).
  exists st, report. split; [exact E|].
  exact (H _ _ eq_refl).
Defined.

(** X16.  When two callers miss the cache together and both extractions
    succeed, each caller gets the policies of its own extraction and the cache
    keeps those of the extraction that ends last. *)
Theorem last_extraction_wins w st h0 h1 p0 p1 :
  truthy (Some (DynamicChecker.cachedPolicies st)) = false ->
  DynamicChecker.http_get w (DynamicChecker.http_calls st) = Ok h0 ->
  DynamicChecker.http_get w (S (DynamicChecker.http_calls st)) = Ok h1 ->
  DynamicChecker.extraction_outcome w (DynamicChecker.llm_calls st)
    (DynamicChecker.extractTextFromHtml w h0) = Ok p0 ->
  DynamicChecker.extraction_outcome w (S (DynamicChecker.llm_calls st))
    (DynamicChecker.extractTextFromHtml w h1) = Ok p1 ->
  let start := DynamicChecker.MkSystem
                 st [DynamicChecker.NotCalled; DynamicChecker.NotCalled] in
  let both_waiting := [DynamicChecker.Call 0; DynamicChecker.Call 1;
                       DynamicChecker.Resume 0; DynamicChecker.Resume 1] in
  let done := [DynamicChecker.Returned (Ok p0); DynamicChecker.Returned (Ok p1)] in
  DynamicChecker.run w start
    (both_waiting ++ [DynamicChecker.Resume 0; DynamicChecker.Resume 1])
  = DynamicChecker.MkSystem
      (DynamicChecker.MkState p1 (2 + DynamicChecker.http_calls st)
                              (2 + DynamicChecker.llm_calls st)) done
  /\ DynamicChecker.run w start
       (both_waiting ++ [DynamicChecker.Resume 1; DynamicChecker.Resume 0])
     = DynamicChecker.MkSystem
         (DynamicChecker.MkState p0 (2 + DynamicChecker.http_calls st)
                                 (2 + DynamicChecker.llm_calls st)) done.
Proof.
  intros T H0 H1 X0 X1 start both_waiting done.
  unfold DynamicChecker.extraction_outcome in X0, X1.
  subst start both_waiting done.
  unfold DynamicChecker.run, DynamicChecker.step, DynamicChecker.call_step.
  split;
    cbn [fold_left app nth_error DynamicChecker.tasks DynamicChecker.checker];
    rewrite T;
    cbn [fold_left nth_error DynamicChecker.tasks DynamicChecker.checker
         DynamicChecker.set_task firstn skipn app
         DynamicChecker.cachedPolicies DynamicChecker.http_calls
         DynamicChecker.llm_calls];
    rewrite T;
    cbn [fold_left nth_error DynamicChecker.tasks DynamicChecker.checker
         DynamicChecker.set_task firstn skipn app DynamicChecker.resume_step
         DynamicChecker.cachedPolicies DynamicChecker.http_calls
         DynamicChecker.llm_calls];
    rewrite H0;
    cbn [fold_left nth_error DynamicChecker.tasks DynamicChecker.checker
         DynamicChecker.set_task firstn skipn app DynamicChecker.resume_step
         DynamicChecker.cachedPolicies DynamicChecker.http_calls
         DynamicChecker.llm_calls];
    rewrite H1;
    cbn [fold_left nth_error DynamicChecker.tasks DynamicChecker.checker
         DynamicChecker.set_task firstn skipn app DynamicChecker.resume_step
         DynamicChecker.cachedPolicies DynamicChecker.http_calls
         DynamicChecker.llm_calls];
    rewrite ?X0, ?X1;
    cbn [fold_left nth_error DynamicChecker.tasks DynamicChecker.checker
         DynamicChecker.set_task firstn skipn app DynamicChecker.resume_step
         DynamicChecker.cachedPolicies DynamicChecker.http_calls
         DynamicChecker.llm_calls];
    rewrite ?X0, ?X1;
    reflexivity.
Qed.

(** Two callers of a new checker; the model extracts different policies for
    each. *)
Lemma last_extraction_wins_witness :
  exists p0 p1,
    DynamicChecker.extraction_outcome (dynamic_world policies_a policies_b) 0
      (DynamicChecker.extractTextFromHtml (dynamic_world policies_a policies_b)
         (js "<main>Ad standards</main>")) = Ok p0
    /\ DynamicChecker.extraction_outcome (dynamic_world policies_a policies_b) 1
         (DynamicChecker.extractTextFromHtml (dynamic_world policies_a policies_b)
            (js "<main>Ad standards</main>")) = Ok p1
    /\ DynamicChecker.cachedPolicies
         (DynamicChecker.checker
            (DynamicChecker.run (dynamic_world policies_a policies_b)
               (DynamicChecker.MkSystem DynamicChecker.new_checker
                  [DynamicChecker.NotCalled; DynamicChecker.NotCalled])
               ([DynamicChecker.Call 0; DynamicChecker.Call 1;
                 DynamicChecker.Resume 0; DynamicChecker.Resume 1]
                ++ [DynamicChecker.Resume 1; DynamicChecker.Resume 0]))) = p0.
Proof.
  destruct (DynamicChecker.extraction_outcome (dynamic_world policies_a policies_b)
              0 _) as [p0|e] eqn:X0; [|vm_compute in X0; discriminate].
  destruct (DynamicChecker.extraction_outcome (dynamic_world policies_a policies_b)
              1 _) as [p1|e] eqn:X1; [|vm_compute in X1; discriminate].
  exists p0, p1. split; [reflexivity|]. split; [reflexivity|].
  rewrite (proj2 (@last_extraction_wins (dynamic_world policies_a policies_b)
                    DynamicChecker.new_checker _ _ p0 p1
                    eq_refl eq_refl eq_refl X0 X1)).
  reflexivity.
Defined.

Lemma collapse_spaces_head c r :
  is_js_space c = false ->
  DynamicChecker.collapse_spaces (c :: r) = c :: DynamicChecker.collapse_spaces r.
Proof. intros H. cbn [DynamicChecker.collapse_spaces]. now rewrite H. Qed.

Lemma collapse_spaces_collapsed s :
  DynamicChecker.collapsed (DynamicChecker.collapse_spaces s).
Proof.
  induction s as [|c r IH]; [exact I|].
  cbn [DynamicChecker.collapse_spaces].
  destruct (is_js_space c) eqn:C.
  - destruct r as [|c' r']; [cbn; auto|].
    destruct (is_js_space c') eqn:C'; [exact IH|].
    rewrite (@collapse_spaces_head c' r' C') in *.
    cbn [DynamicChecker.collapsed]. split; [auto | exact IH].
  - cbn [DynamicChecker.collapsed]. split; [|exact IH].
    intros K. congruence.
Qed.

Lemma collapsed_tail c r :
  DynamicChecker.collapsed (c :: r) -> DynamicChecker.collapsed r.
Proof. cbn [DynamicChecker.collapsed]. tauto. Qed.

Lemma collapsed_suffix a s :
  DynamicChecker.collapsed (a ++ s) -> DynamicChecker.collapsed s.
Proof. induction a; [auto|]. intros H. apply IHa. eapply collapsed_tail; eauto. Qed.

Lemma collapsed_prefix s : forall b,
  DynamicChecker.collapsed (s ++ b) -> DynamicChecker.collapsed s.
Proof.
  induction s as [|c r IH]; intros b; [intros; exact I|].
  cbn [app DynamicChecker.collapsed]. intros [H K]. split; [|eauto].
  intros Hc. destruct (H Hc) as [E N]. split; [exact E|].
  destruct r; [exact I | exact N].
Qed.

(** trim_start drops a run of white space and stops at the first code unit
    that is none. *)
Lemma trim_start_split s :
  exists a, s = a ++ trim_start s
            /\ Forall (fun c => is_js_space c = true) a
            /\ forall c r, trim_start s = c :: r -> is_js_space c = false.
Proof.
  induction s as [|c r (a & E & F & H)].
  - exists []. repeat split; [constructor | discriminate].
  - cbn [trim_start]. destruct (is_js_space c) eqn:C.
    + exists (c :: a). repeat split; [simpl; congruence | now constructor | exact H].
    + exists []. repeat split; [constructor|].
      intros c0 r0 K. inversion K; subst. exact C.
Qed.

(** trim keeps the text between the white space at both ends. *)
Lemma trim_split s :
  exists a b, s = a ++ trim s ++ b
              /\ (forall c r, trim s = c :: r -> is_js_space c = false)
              /\ (forall c r, trim s = r ++ [c] -> is_js_space c = false).
Proof.
  unfold trim.
  destruct (trim_start_split s) as (a & Ea & _ & Ha).
  destruct (trim_start_split (rev (trim_start s))) as (b & Eb & _ & Hb).
  set (t := trim_start s) in *. set (u := trim_start (rev t)) in *.
  assert (Et : t = rev u ++ rev b).
  { rewrite <- rev_app_distr, <- Eb. now rewrite rev_involutive. }
  exists a, (rev b). split; [now rewrite <- Et|]. split.
  - intros c r K. apply (Ha c (r ++ rev b)). rewrite Et, K. reflexivity.
  - intros c r K. apply (Hb c (rev r)).
    rewrite <- (rev_involutive u), K, rev_app_distr. reflexivity.
Qed.

(** X17.  The text extractTextFromHtml returns is normalised: it neither
    starts nor ends with white space, and every white-space code unit in it is
    a single space standing between two code units that are not white
    space. *)
Theorem extractTextFromHtml_is_normalised w html :
  let text := DynamicChecker.extractTextFromHtml w html in
  DynamicChecker.collapsed text
  /\ (forall c r, text = c :: r -> is_js_space c = false)
  /\ (forall c r, text = r ++ [c] -> is_js_space c = false).
Proof.
  unfold DynamicChecker.extractTextFromHtml.
  set (s := DynamicChecker.collapse_spaces (DynamicChecker.cheerio_text w html)).
  destruct (trim_split s) as (a & b & E & Hh & Hl).
  split; [|split; assumption].
  pose proof (collapse_spaces_collapsed (DynamicChecker.cheerio_text w html)) as C.
  fold s in C. rewrite E in C.
  apply collapsed_suffix in C. now apply collapsed_prefix in C.
Qed.

(* ================================================================== *)
(** ** Further properties: the orchestrator and the upload *)
(* ================================================================== *)

(** X18.  The outcome of POST /summarize follows the summarization alone.
    When it succeeds the answer is 201 with success=true, an analysis block
    and a policyCheck block, whatever the policy stage does; when it fails the
    answer is 500 ANALYSIS_FAILED without either block, and the policy
    checker is not consulted: the answer is the same for every policy file and
    every checker world. *)
Theorem status_follows_summarization w f :
  let a := Summarizer.analyzeMultimedia (Server.summarizer w) (Server.path f)
             Server.analysisPrompt in
  let r := Server.summarize w (Some f) in
  (Summarizer.success a = true ->
   Server.status r = 201%N /\ Server.success r = true
   /\ Server.r_error r = None
   /\ (exists block, Server.analysis r = Some block)
   /\ (exists block, Server.policyCheck r = Some block))
  /\ (Summarizer.success a = false ->
      Server.status r = 500%N /\ Server.success r = false
      /\ Server.r_error r = Some (js "ANALYSIS_FAILED")
      /\ Server.analysis r = None /\ Server.policyCheck r = None
      /\ forall pf ck,
           Server.summarize
             (Server.MkWorld (Server.extension_of w) pf (Server.upload_date w)
                             (Server.now_iso w) (Server.summarizer w) ck)
             (Some f) = r).
Proof.
  intros a r. subst a r. split.
  - intros S.
    destruct (SummarizerFacts.analyzeMultimedia_success _ _ _ S)
      as (text & d & _ & _ & E).
    unfold Server.summarize. rewrite E. simpl.
    destruct (Server.policy_stage w d); simpl; repeat split; eauto.
  - intros S. unfold Server.summarize. simpl.
    destruct (Summarizer.analyzeMultimedia (Server.summarizer w) (Server.path f)
                Server.analysisPrompt) as [[|] d e]; simpl in *;
      [discriminate S|].
    repeat split.
Qed.

(** The video of the examples, analysed successfully. *)
Lemma status_follows_summarization_witness :
  Summarizer.success
    (Summarizer.analyzeMultimedia
       (Server.summarizer (server_world analysis_text verdict_clean))
       (Server.path upload0) Server.analysisPrompt) = true
  /\ Server.status (Server.summarize (server_world analysis_text verdict_clean)
                      (Some upload0)) = 201%N.
Proof.
  assert (S : Summarizer.success
                (Summarizer.analyzeMultimedia
                   (Server.summarizer (server_world analysis_text verdict_clean))
                   (Server.path upload0) Server.analysisPrompt) = true)
    by (vm_compute; reflexivity).
  split; [exact S|].
  exact (proj1 (proj1 (status_follows_summarization
                         (server_world analysis_text verdict_clean) upload0) S)).
Defined.

(** X19.  A file that the upload filter accepts is typed 'video' or 'image' by
    the handler, never 'unknown'; a file it rejects is answered by
    handleUploadError with 400 INVALID_FILE_TYPE and the filter's message. *)
Theorem upload_filter_and_file_type w f :
  (Server.fileFilter w (Server.originalname f) = Server.Accept ->
   Server.fileType_of w f = js "video" \/ Server.fileType_of w f = js "image")
  /\ (forall message,
         Server.fileFilter w (Server.originalname f) = Server.Reject message ->
         Server.fileType_of w f = js "unknown"
         /\ Server.handleUploadError (Server.MkUploadError None message)
            = Server.Respond
                (Server.MkResponse 400 false message
                   (Some (js "INVALID_FILE_TYPE")) None None None None None)).
Proof.
  unfold Server.fileFilter, Server.fileType_of, Server.allAllowedTypes.
  rewrite includes_app.
  destruct (Summarizer.includes Server.ALLOWED_VIDEO_TYPES _);
    destruct (Summarizer.includes Server.ALLOWED_IMAGE_TYPES _);
    cbn [orb]; split; auto; try discriminate;
    intros message H; inversion H; subst; split; [reflexivity|];
    vm_compute; reflexivity.
Qed.

(** An upload named clip.mp4. *)
Lemma upload_filter_and_file_type_witness :
  Server.fileFilter (server_world analysis_text verdict_clean)
                    (Server.originalname upload0) = Server.Accept
  /\ (Server.fileType_of (server_world analysis_text verdict_clean) upload0
      = js "video"
      \/ Server.fileType_of (server_world analysis_text verdict_clean) upload0
         = js "image").
Proof.
  assert (A : Server.fileFilter (server_world analysis_text verdict_clean)
                (Server.originalname upload0) = Server.Accept)
    by (vm_compute; reflexivity).
  split; [exact A|].
  exact (proj1 (upload_filter_and_file_type
                  (server_world analysis_text verdict_clean) upload0) A).
Defined.

Lemma policy_stage_checked w d st r :
  PolicyChecker.loadPolicyFile (Server.checker w)
    (PolicyChecker.ArgPath (Server.policy_file w)) None = (st, Ok tt) ->
  snd (PolicyChecker.checkPolicy (Server.checker w)
         (Summarizer.data_get d (js "summary")) None st) = r ->
  Server.policy_stage w d
  = if negb (PolicyChecker.success r)
    then Throw (Error (Lit (js "Policy analysis failed: ")
                       :: match PolicyChecker.error r with
                          | Some m => m
                          | None => [Lit (js "undefined")]
                          end))
    else Ok (Server.Verdict
               (field (PolicyChecker.data r) (js "violated"))
               (field (PolicyChecker.data r) (js "violations"))
               (field (PolicyChecker.data r) (js "reasoning"))
               (PolicyChecker.timestamp r)).
Proof.
  intros L <-. unfold Server.policy_stage. rewrite L. simpl.
  destruct (PolicyChecker.checkPolicy _ _ _ _). reflexivity.
Qed.

(** X20.  When the analysis has no usable summary (none, no string, blank or
    longer than 10000 code units) and the policy file loads, the policy stage
    fails on its input validation, the evaluation model is not asked, and the
    handler answers 201 with policyCheck.details made of 'Policy analysis
    failed: ' and the validation message. *)
Theorem unusable_summary_degrades w f d st e :
  Summarizer.analyzeMultimedia (Server.summarizer w) (Server.path f)
                               Server.analysisPrompt
  = Summarizer.MkAnalysis true (Some d) None ->
  PolicyChecker.loadPolicyFile (Server.checker w)
    (PolicyChecker.ArgPath (Server.policy_file w)) None = (st, Ok tt) ->
  PolicyChecker.validateInput (Summarizer.data_get d (js "summary")) = Throw e ->
  let r := Server.summarize w (Some f) in
  Server.status r = 201%N
  /\ Server.policyCheck r
     = Some (Server.PolicyError (js "Policy analysis failed")
               (Lit (js "Policy analysis failed: ") :: emessage e))
  /\ forall g,
       Server.summarize
         (Server.MkWorld (Server.extension_of w) (Server.policy_file w)
            (Server.upload_date w) (Server.now_iso w) (Server.summarizer w)
            (PolicyChecker.MkWorld
               (PolicyChecker.path_resolve (Server.checker w))
               (PolicyChecker.read_file (Server.checker w)) g
               (PolicyChecker.now_iso (Server.checker w))))
         (Some f) = r.
Proof.
  intros A L V r. subst r.
  assert (P : forall w', Server.summarizer w' = Server.summarizer w ->
              Server.extension_of w' = Server.extension_of w ->
              Server.upload_date w' = Server.upload_date w ->
              Server.now_iso w' = Server.now_iso w ->
              PolicyChecker.loadPolicyFile (Server.checker w')
                (PolicyChecker.ArgPath (Server.policy_file w')) None = (st, Ok tt) ->
              Server.summarize w' (Some f)
              = Server.MkResponse 201 true
                  (Server.capitalize (Server.fileType_of w f)
                   ++ js " analyzed successfully, but policy check failed")
                  None None (Some (Server.file_info_of w f))
                  (Some (Server.analysis_of d))
                  (Some (Server.PolicyError (js "Policy analysis failed")
                           (Lit (js "Policy analysis failed: ") :: emessage e)))
                  (Some (Server.now_iso w))).
  { intros w' Es Ee Eu En L'. unfold Server.summarize.
    rewrite Es, A. cbn [Summarizer.success Summarizer.data].
    rewrite (@policy_stage_checked w' d st _ L' eq_refl).
    unfold PolicyChecker.checkPolicy. rewrite V.
    cbn [snd PolicyChecker.success PolicyChecker.error negb].
    unfold Server.file_info_of, Server.fileType_of. rewrite Ee, Eu, En.
    reflexivity. }
  rewrite (P w eq_refl eq_refl eq_refl eq_refl L).
  repeat split.
  intros g. apply P; try reflexivity. exact L.
Qed.

(** The summarizer's model answers with an array. *)
Lemma unusable_summary_degrades_witness :
  exists d e,
    Summarizer.analyzeMultimedia
      (Server.summarizer (server_world (jsq "[`a bottle`]") verdict_clean))
      (Server.path upload0) Server.analysisPrompt
    = Summarizer.MkAnalysis true (Some d) None
    /\ PolicyChecker.validateInput (Summarizer.data_get d (js "summary")) = Throw e
    /\ Server.status
         (Server.summarize (server_world (jsq "[`a bottle`]") verdict_clean)
            (Some upload0)) = 201%N.
Proof.
  destruct (Summarizer.analyzeMultimedia
              (Server.summarizer (server_world (jsq "[`a bottle`]") verdict_clean))
              (Server.path upload0) Server.analysisPrompt)
    as [[|] [d|] [e|]] eqn:A; try (vm_compute in A; discriminate).
  destruct (PolicyChecker.validateInput (Summarizer.data_get d (js "summary")))
    as [b|e] eqn:V.
  { vm_compute in A. inversion A; subst. vm_compute in V. discriminate. }
  exists d, e. split; [reflexivity|]. split; [exact V|].
  assert (L : PolicyChecker.loadPolicyFile
                (Server.checker (server_world (jsq "[`a bottle`]") verdict_clean))
                (PolicyChecker.ArgPath
                   (Server.policy_file
                      (server_world (jsq "[`a bottle`]") verdict_clean))) None
              = (Some policy_text, Ok tt)) by (vm_compute; reflexivity).
  exact (proj1 (@unusable_summary_degrades _ upload0 _ _ _ A L V)).
Defined.

Lemma loaded_then_no_reload w arg st st' :
  PolicyChecker.loadPolicyFile w arg st = (st', Ok tt) ->
  PolicyChecker.load_if_needed w None st' = (st', Ok tt).
Proof.
  intros L. unfold PolicyChecker.loadPolicyFile in L.
  assert (C : exists c r, st' = Some (c :: r)).
  { destruct arg; try discriminate;
      (destruct (PolicyChecker.read_file w _) as [content|e]; [|discriminate];
       destruct (trim content) eqn:T; inversion L; subst;
       destruct content; [discriminate T | eauto]). }
  destruct C as (c & r & ->). reflexivity.
Qed.

(** X21.  The whole pipeline on well-formed answers.  When the summarizer's
    model answers with a JSON object whose summary is a usable string, the
    policy file loads, and the evaluator's model answers with a JSON object of
    the shape of a verdict, the handler answers 201 with the summary and key
    points of the first object, the computed file metadata, and the violated,
    violations and reasoning of the second. *)
Theorem completed_pipeline w f atext ams st vtext vms :
  Summarizer.responds (Server.summarizer w) (Server.path f)
                      Server.analysisPrompt atext ->
  JSON.parse atext = Some (JObject ams) ->
  PolicyChecker.loadPolicyFile (Server.checker w)
    (PolicyChecker.ArgPath (Server.policy_file w)) None = (st, Ok tt) ->
  PolicyChecker.validateInput (obj_get (js "summary") ams) = Ok true ->
  PolicyChecker.generate (Server.checker w)
    (PolicyChecker.prompt_for st (obj_get (js "summary") ams)) = Ok vtext ->
  JSON.parse vtext = Some (JObject vms) ->
  PolicyChecker.well_shaped (JObject vms) = true ->
  Server.summarize w (Some f)
  = Server.MkResponse 201 true
      (Server.capitalize (Server.fileType_of w f)
       ++ js " analyzed and policy-checked successfully")
      None None (Some (Server.file_info_of w f))
      (Some (Server.MkAnalysisBlock
               (obj_get (js "summary") ams)
               (obj_get (js "keyPoints") ams)
               (Some (Summarizer.fileMetadata_of (Server.summarizer w)
                        (Server.path f)
                        (Summarizer.validateMultimediaFile (Server.summarizer w)
                           (Server.path f))))))
      (Some (Server.Verdict
               (obj_get (js "violated") vms)
               (obj_get (js "violations") vms)
               (obj_get (js "reasoning") vms)
               (PolicyChecker.now_iso (Server.checker w))))
      (Some (Server.now_iso w)).
Proof.
  intros Ra Pa L V G Pv W.
  unfold Server.summarize.
  rewrite (SummarizerFacts.analyzeMultimedia_responds Ra).
  rewrite (SummarizerFacts.recover_parsed _ Pa).
  cbn [Summarizer.set_fileMetadata Summarizer.success Summarizer.data].
  set (meta := Summarizer.fileMetadata_of _ _ _).
  set (d := Summarizer.DObject (obj_set (js "fileMetadata") meta ams)).
  assert (Es : Summarizer.data_get d (js "summary") = obj_get (js "summary") ams).
  { apply JSFacts.obj_get_set_other. vm_compute. discriminate. }
  assert (Ek : Summarizer.data_get d (js "keyPoints") = obj_get (js "keyPoints") ams).
  { apply JSFacts.obj_get_set_other. vm_compute. discriminate. }
  assert (Em : Summarizer.data_get d (js "fileMetadata") = Some meta).
  { apply JSFacts.obj_get_set_same. }
  assert (R : PolicyChecker.responds (Server.checker w)
                (Summarizer.data_get d (js "summary")) None st vtext).
  { exists st. rewrite Es. repeat split; auto.
    eapply loaded_then_no_reload; eauto. }
  rewrite (@policy_stage_checked w d st _ L eq_refl).
  rewrite (PolicyCheckerFacts.checkPolicy_responds R).
  destruct (JSONFacts.parse_object_match _ Pv) as (m & M & Pm).
  unfold PolicyChecker.parse_response, JSON_parse. rewrite M, Pm.
  cbn [try_catch bind].
  apply PolicyCheckerFacts.validateResponse_ok in W. rewrite W.
  cbn [bind PolicyChecker.success PolicyChecker.data PolicyChecker.timestamp
       negb field].
  unfold Server.analysis_of. rewrite Es, Ek, Em. reflexivity.
Qed.

(** Scenario A, from the upload to the answer. *)
Lemma completed_pipeline_witness :
  Server.status (Server.summarize (server_world analysis_text verdict_clean)
                   (Some upload0)) = 201%N
  /\ exists v,
       Server.policyCheck (Server.summarize (server_world analysis_text verdict_clean)
                             (Some upload0)) = Some v.
Proof.
  assert (Ra : Summarizer.responds
                 (Server.summarizer (server_world analysis_text verdict_clean))
                 (Server.path upload0) Server.analysisPrompt analysis_text).
  { split; [vm_compute; reflexivity|]. split; [vm_compute; reflexivity|].
    exists (js "AAAA"). split; reflexivity. }
  destruct (JSON.parse analysis_text) as [[| | | | |ams]|] eqn:Pa;
    try (vm_compute in Pa; discriminate).
  destruct (JSON.parse verdict_clean) as [[| | | | |vms]|] eqn:Pv;
    try (vm_compute in Pv; discriminate).
  assert (L : PolicyChecker.loadPolicyFile
                (Server.checker (server_world analysis_text verdict_clean))
                (PolicyChecker.ArgPath
                   (Server.policy_file (server_world analysis_text verdict_clean)))
                None = (Some policy_text, Ok tt)) by (vm_compute; reflexivity).
  assert (V : PolicyChecker.validateInput (obj_get (js "summary") ams) = Ok true).
  { vm_compute in Pa. inversion Pa. vm_compute. reflexivity. }
  assert (W : PolicyChecker.well_shaped (JObject vms) = true).
  { vm_compute in Pv. inversion Pv. vm_compute. reflexivity. }
  rewrite (@completed_pipeline _ upload0 _ _ _ _ _ Ra Pa L V eq_refl Pv W).
  split; [reflexivity | eexists; reflexivity].
Defined.

(* ================================================================== *)
(** ** Further properties: the upload form *)
(* ================================================================== *)

(** X22.  The upload form and the summarizer agree in one direction: a file
    the form accepts is at most 20MB, so within the summarizer's 100MB, and
    has a type starting with video/ or image/; and every MIME type the
    summarizer supports, on a file of at most 20MB, is accepted by the
    form. *)
Theorem form_and_summarizer_limits :
  (forall f,
      Frontend.validateFile f = None ->
      (Frontend.size f <= Frontend.maxSize)%N
      /\ (Summarizer.maxFileSize <? Frontend.size f)%N = false
      /\ (starts_with (js "video/") (Frontend.type f) = true
          \/ starts_with (js "image/") (Frontend.type f) = true))
  /\ (forall n m,
         (n <= Frontend.maxSize)%N ->
         Summarizer.includes Summarizer.supportedFormats m = true ->
         Frontend.validateFile (Frontend.MkFile n m) = None).
Proof.
  split.
  - intros f. unfold Frontend.validateFile.
    destruct (N.ltb_spec Frontend.maxSize (Frontend.size f)) as [Hb|Hs];
      [intros H; discriminate H|].
    unfold Frontend.allowedTypes. cbn [existsb].
    destruct (starts_with (js "video/") (Frontend.type f));
      destruct (starts_with (js "image/") (Frontend.type f));
      cbn [orb negb]; intros H; try discriminate H;
      (split; [exact Hs|]; split; [|auto]);
      apply N.ltb_ge; unfold Summarizer.maxFileSize, Frontend.maxSize in *; lia.
  - intros n m Hn Inc. unfold Frontend.validateFile.
    cbn [Frontend.size Frontend.type].
    apply N.ltb_ge in Hn. rewrite Hn.
    unfold Summarizer.includes, Summarizer.supportedFormats,
      Summarizer.supportedVideoFormats, Summarizer.supportedImageFormats in Inc.
    cbn [map app existsb] in Inc.
    repeat (apply orb_true_iff in Inc; destruct Inc as [Inc|Inc]);
      try discriminate Inc;
      apply JSFacts.str_eqb_eq in Inc; subst m; reflexivity.
Qed.

(** A 2048-byte video/mp4. *)
Lemma form_and_summarizer_limits_witness :
  (2048 <= Frontend.maxSize)%N
  /\ Summarizer.includes Summarizer.supportedFormats (js "video/mp4") = true
  /\ Frontend.validateFile (Frontend.MkFile 2048 (js "video/mp4")) = None.
Proof.
  assert (H : (2048 <= Frontend.maxSize)%N) by (vm_compute; discriminate).
  assert (I : Summarizer.includes Summarizer.supportedFormats (js "video/mp4") = true)
    by (vm_compute; reflexivity).
  split; [exact H|]. split; [exact I|].
  exact (proj2 form_and_summarizer_limits _ _ H I).
Defined.
